(** * Yojana-Mitra retrieval engine: a shallow embedding and its properties

    The development follows the Python sources of [rag-scheme-main]:
    - [utils/csv_processor.py]  ([CSVProcessor]: token estimate, chunker, CSV rows to chunks),
    - [utils.py]                ([SchemeDocumentProcessor.create_documents]),
    - [utils/faiss_handler.py]  ([FAISSHandler]: index plus one parallel text store),
    - [rag.py]                  ([RAGSystem]: index plus documents plus metadata, persistence, search),

    - [main.py]                 ([ingest_csv], startup, health, query, statistics),
    - [routes.py]               ([ingest_csv] over the handler),
    - [utils/embeddings.py]     ([EmbeddingService]).

    Python strings are modelled as [string] (one [ascii] per character, code
    points below 256), Python ints as [Z] or [nat] (lengths and counts),
    floats as exact rationals [Q] (no rounding, no infinities, no NaN), dicts
    as [gmap string _], lists as [list]. Functions that raise return a
    [result]. *)

From Stdlib Require Import ZArith QArith List String Ascii Bool Lia DecimalString Sorted.
From stdpp Require Import gmap strings list fin_maps.
Import ListNotations.

Local Open Scope string_scope.
Local Open Scope list_scope.

(** ** Exceptions *)

Inductive exn :=
| ValueError (msg : string)
| FileNotFoundError (msg : string)
| AssertionError
| IndexError
| AttributeError (msg : string)
| Exception (msg : string).

(** [str(e)] *)
Definition exn_str (e : exn) : string :=
  match e with
  | ValueError msg | FileNotFoundError msg | AttributeError msg
  | Exception msg => msg
  | AssertionError => EmptyString
  | IndexError => "list index out of range"
  end.

Inductive result (A : Type) :=
| Ok (a : A)
| Raise (e : exn).
Arguments Ok {A} a.
Arguments Raise {A} e.

(** ** Python string primitives used by the sources *)

Module PyStr.

(** [str.isspace] on the code points below 256: TAB..CR, FS..US, the blank,
    NEL and the no-break space. *)
Definition is_space (c : ascii) : bool :=
  let n := nat_of_ascii c in
  ((9 <=? n)%nat && (n <=? 13)%nat) || ((28 <=? n)%nat && (n <=? 32)%nat)
  || Nat.eqb n 133 || Nat.eqb n 160.

Definition len (s : string) : nat := String.length s.

(** Truthiness of a string: [if s:]. *)
Definition truthy (s : string) : bool :=
  match s with EmptyString => false | String _ _ => true end.

Fixpoint lstrip (s : string) : string :=
  match s with
  | EmptyString => EmptyString
  | String c rest => if is_space c then lstrip rest else s
  end.

Fixpoint rstrip (s : string) : string :=
  match s with
  | EmptyString => EmptyString
  | String c rest =>
      match rstrip rest with
      | EmptyString => if is_space c then EmptyString else String c EmptyString
      | r => String c r
      end
  end.

(** [s.strip()] *)
Definition strip (s : string) : string := rstrip (lstrip s).

(** [s.split()]: maximal runs of non-blank characters. *)
Fixpoint split (s : string) : list string :=
  match s with
  | EmptyString => []
  | String c rest =>
      if is_space c then split rest
      else match rest with
           | EmptyString => [String c EmptyString]
           | String c' _ =>
               if is_space c' then String c EmptyString :: split rest
               else match split rest with
                    | w :: ws => String c w :: ws
                    | [] => [String c EmptyString]
                    end
           end
  end.

(** [s[:n]] for [n >= 0]. *)
Fixpoint take (n : nat) (s : string) : string :=
  match n, s with
  | S n', String c rest => String c (take n' rest)
  | _, _ => EmptyString
  end.

Definition dquote : ascii := "034"%char.

(** [s.replace(q, e)] with [q] the double-quote character and [e] the
    empty string: every double quote is dropped. *)
Fixpoint remove_quotes (s : string) : string :=
  match s with
  | EmptyString => EmptyString
  | String c rest =>
      if Ascii.eqb c dquote then remove_quotes rest
      else String c (remove_quotes rest)
  end.

Definition is_sentence_end (c : ascii) : bool :=
  Ascii.eqb c "."%char || Ascii.eqb c "!"%char || Ascii.eqb c "?"%char.

(** [re.split(r'[.!?]+', s)]: the pieces between maximal runs of
    sentence terminators; a leading or trailing run yields an empty piece.
    [in_run] tells that the previous character was a terminator. *)
Fixpoint re_split_from (in_run : bool) (s : string) : list string :=
  match s with
  | EmptyString => [EmptyString]
  | String c rest =>
      if is_sentence_end c then
        if in_run then re_split_from true rest
        else EmptyString :: re_split_from true rest
      else match re_split_from false rest with
           | p :: ps => String c p :: ps
           | [] => [String c EmptyString]
           end
  end.

Definition re_split_sentences (s : string) : list string :=
  re_split_from false s.

(** [sep.join(parts)] *)
Fixpoint join (sep : string) (parts : list string) : string :=
  match parts with
  | [] => EmptyString
  | [p] => p
  | p :: ps => p +:+ sep +:+ join sep ps
  end.

(** [str(n)] for a non-negative int. *)
Definition of_nat (n : nat) : string := NilEmpty.string_of_uint (Nat.to_uint n).

(** [c * n] for a one-character string. *)
Fixpoint repeat_char (c : ascii) (n : nat) : string :=
  match n with
  | O => EmptyString
  | S n' => String c (repeat_char c n')
  end.

End PyStr.

(** ** Data frames as [pandas.read_csv] hands them to the processors *)

Module Pandas.

(** A cell is missing ([NaN]) or holds a value, kept as its [str()] rendering. *)
Inductive Cell :=
| NaN
| Str (s : string).

(** [str(cell)] *)
Definition str_of (c : Cell) : string :=
  match c with NaN => "nan" | Str s => s end.

(** [pd.notna(cell)] *)
Definition notna (c : Cell) : bool :=
  match c with NaN => false | Str _ => true end.

(** Column labels and the rows in file order; a row shorter than the header
    reads as padded with [NaN]. The index is the default [RangeIndex]. *)
Record DataFrame := { columns : list string; rows : list (list Cell) }.

(** A row as [iterrows] yields it: the labels with the row's cells. *)
Record Row := { labels : list string; cells : list Cell }.

Fixpoint position (col : string) (cols : list string) : option nat :=
  match cols with
  | [] => None
  | c :: cs => if String.eqb c col then Some O
               else match position col cs with
                    | Some i => Some (S i)
                    | None => None
                    end
  end.

(** [col in df.columns], [col in row] *)
Definition has_column (cols : list string) (col : string) : bool :=
  match position col cols with Some _ => true | None => false end.

(** [row[col]] when the label exists *)
Definition lookup (row : Row) (col : string) : option Cell :=
  match position col (labels row) with
  | Some i => Some (nth i (cells row) NaN)
  | None => None
  end.

(** [col in row and pd.notna(row[col])], returning the cell *)
Definition present (row : Row) (col : string) : option Cell :=
  match lookup row col with
  | Some c => if notna c then Some c else None
  | None => None
  end.

(** [str(row.get(col, default))] *)
Definition get_str (row : Row) (col : string) (default : string) : string :=
  match lookup row col with
  | Some c => str_of c
  | None => default
  end.

(** Every position of a label, in column order. *)
Fixpoint positions (col : string) (cols : list string) : list nat :=
  match cols with
  | [] => []
  | c :: cs =>
      let rest := map S (positions col cs) in
      if String.eqb c col then O :: rest else rest
  end.

(** What [row[col]] and [row.get(col)] give for a label that is there: the
    cell, or, under a label that occurs more than once, the Series of its
    cells. [pd.read_csv] never yields such labels (it renames a repeated
    header), so [lookup] reads its frames; [df.rename], which
    [SchemeDocumentProcessor.load_csv] applies, can map two columns to one
    name. *)
Inductive Item :=
| Scalar (c : Cell)
| Series (cs : list Cell).

Definition getitem (row : Row) (col : string) : option Item :=
  match positions col (labels row) with
  | [] => None
  | [i] => Some (Scalar (nth i (cells row) NaN))
  | ps => Some (Series (map (fun i => nth i (cells row) NaN) ps))
  end.

(** [df.iterrows()] *)
Definition iterrows (df : DataFrame) : list (nat * Row) :=
  imap (fun idx cs => (idx, {| labels := columns df; cells := cs |})) (rows df).

(** A CSV path on disk: parsed by [pd.read_csv], or a file it rejects. *)
Inductive CsvFile :=
| Parsed (df : DataFrame)
| Unparseable.

(** [os.path.exists(path)] *)
Definition exists_ (fs : gmap string CsvFile) (path : string) : bool :=
  match fs !! path with Some _ => true | None => false end.

(** [pd.read_csv(path)] *)
Definition read_csv (fs : gmap string CsvFile) (path : string) : result DataFrame :=
  match fs !! path with
  | Some (Parsed df) => Ok df
  | Some Unparseable => Raise (ValueError "Error tokenizing data")
  | None => Raise (FileNotFoundError "No such file or directory")
  end.

End Pandas.

(** ** utils/csv_processor.py *)

Module CSVProcessor.
Import Pandas.

(** [estimate_tokens]: [len(text) // 4] *)
Definition estimate_tokens (text : string) : nat := (PyStr.len text / 4)%nat.

Section Chunker.
(** [self.max_tokens] (500 unless configured otherwise) *)
Variable max_tokens : nat.

(** [a += " " + b if a else b] *)
Definition extend_with (a b : string) : string :=
  if PyStr.truthy a then a +:+ " " +:+ b else b.

(** Body of [for word in words] with its state [(chunks, word_chunk)]. *)
Definition word_step (st : list string * string) (word : string)
  : list string * string :=
  let '(chunks, word_chunk) := st in
  if (max_tokens <? estimate_tokens (word_chunk +:+ " " +:+ word))%nat then
    if PyStr.truthy word_chunk then
      (chunks ++ [PyStr.strip word_chunk], word)
    else
      (chunks ++ [PyStr.take (max_tokens * 4) word], word_chunk)
  else
    (chunks, extend_with word_chunk word).

(** Body of [for sentence in sentences] with its state
    [(chunks, current_chunk)]. *)
Definition sentence_step (st : list string * string) (raw : string)
  : list string * string :=
  let '(chunks, current_chunk) := st in
  let sentence := PyStr.strip raw in
  if negb (PyStr.truthy sentence) then st
  else if (max_tokens <? estimate_tokens (current_chunk +:+ " " +:+ sentence))%nat then
    if PyStr.truthy current_chunk then
      (chunks ++ [PyStr.strip current_chunk], sentence)
    else
      fold_left word_step (PyStr.split sentence) (chunks, EmptyString)
  else
    (chunks, extend_with current_chunk sentence).

(** [chunk_text] *)
Definition chunk_text (text : string) : list string :=
  if (estimate_tokens text <=? max_tokens)%nat then [text]
  else
    let '(chunks, current_chunk) :=
      fold_left sentence_step (PyStr.re_split_sentences text) ([], EmptyString) in
    if PyStr.truthy current_chunk then chunks ++ [PyStr.strip current_chunk]
    else chunks.

(** One labelled segment of [_combine_scheme_columns]:
    [str(row[col]).replace(quote, empty).strip()] behind its label. *)
Definition combine_part (row : Row) (col label : string) : list string :=
  match present row col with
  | Some c => [label +:+ ": " +:+ PyStr.strip (PyStr.remove_quotes (str_of c))]
  | None => []
  end.

(** [_combine_scheme_columns] *)
Definition _combine_scheme_columns (row : Row) : string :=
  PyStr.join " | "
    (combine_part row "scheme_name" "Scheme"
     ++ combine_part row "details" "Details"
     ++ combine_part row "benefits" "Benefits"
     ++ combine_part row "eligibility" "Eligibility"
     ++ combine_part row "application" "Application Process"
     ++ combine_part row "documents" "Required Documents"
     ++ combine_part row "schemeCategory" "Category"
     ++ combine_part row "level" "Level"
     ++ combine_part row "tags" "Tags").

(** Source identifier of a scheme row: [f"{scheme_name}_row_{idx}"]. *)
Definition scheme_source (idx : nat) (row : Row) : string :=
  let scheme_name :=
    PyStr.strip (PyStr.remove_quotes
      (get_str row "scheme_name" ("row_" +:+ PyStr.of_nat idx))) in
  scheme_name +:+ "_row_" +:+ PyStr.of_nat idx.

(** Source identifier of a plain row: [f"row_{idx}"]. *)
Definition plain_source (idx : nat) : string := "row_" +:+ PyStr.of_nat idx.

(** Loop body of the scheme branch, state [(all_chunks, all_sources)]. *)
Definition scheme_row_step (st : list string * list string) (it : nat * Row)
  : list string * list string :=
  let '(all_chunks, all_sources) := st in
  let '(idx, row) := it in
  let combined_text := _combine_scheme_columns row in
  if negb (PyStr.truthy (PyStr.strip combined_text)) then st
  else
    let chunks := chunk_text combined_text in
    (all_chunks ++ chunks,
     all_sources ++ repeat (scheme_source idx row) (length chunks)).

(** Loop body of the standard branch. The text column is there (checked
    before the loop), so [str(row[text_column])] is the cell's rendering;
    [pd.isna] of a [str] is always false, so only a blank text skips the
    row. *)
Definition plain_row_step (text_column : string)
    (st : list string * list string) (it : nat * Row)
  : list string * list string :=
  let '(all_chunks, all_sources) := st in
  let '(idx, row) := it in
  let text := get_str row text_column "nan" in
  if negb (PyStr.truthy (PyStr.strip text)) then st
  else
    let chunks := chunk_text text in
    (all_chunks ++ chunks,
     all_sources ++ repeat (plain_source idx) (length chunks)).

Definition is_scheme_data (df : DataFrame) : bool :=
  has_column (columns df) "scheme_name" && has_column (columns df) "details".

(** [process_csv] after the file has been read. *)
Definition process_frame (df : DataFrame) (text_column : string)
  : result (list string * list string) :=
  if is_scheme_data df then
    Ok (fold_left scheme_row_step (iterrows df) ([], []))
  else if negb (has_column (columns df) text_column) then
    Raise (Exception ("Error processing CSV file: Column '" +:+ text_column
                      +:+ "' not found in CSV."))
  else
    Ok (fold_left (plain_row_step text_column) (iterrows df) ([], [])).

(** [process_csv] *)
Definition process_csv (fs : gmap string CsvFile) (csv_path text_column : string)
  : result (list string * list string) :=
  match read_csv fs csv_path with
  | Ok df => process_frame df text_column
  | Raise e => Raise (Exception ("Error processing CSV file: " +:+ exn_str e))
  end.

End Chunker.

End CSVProcessor.

(** ** Dynamically typed values held in metadata dicts *)

Inductive PyVal :=
| PStr (s : string)
| PInt (z : Z).

(** A metadata dict. *)
Abbreviation Metadata := (gmap string PyVal).

(** ** utils.py *)

Module SchemeDocumentProcessor.
Import Pandas.

(** What [if col in row and pd.notna(row[col])] raises when [row[col]] is a
    Series: the truth value of [pd.notna(series)] is asked for. *)
Definition ambiguous_truth_value : exn :=
  ValueError "The truth value of a Series is ambiguous. Use a.empty, a.bool(), a.item(), a.any() or a.all().".

(** One of the nine checks with the segment it appends to [doc_parts]:
    [str(row[col]).strip().replace(quote, empty)] behind its label. *)
Definition doc_part (row : Row) (col label : string) : result (list string) :=
  match getitem row col with
  | None => Ok []
  | Some (Scalar c) =>
      Ok (if notna c
          then [label +:+ ": " +:+ PyStr.remove_quotes (PyStr.strip (str_of c))]
          else [])
  | Some (Series _) => Raise ambiguous_truth_value
  end.

(** The columns read for the document text with their labels, in program
    order. *)
Definition text_fields : list (string * string) :=
  [("scheme_name", "Scheme"); ("details", "Description"); ("benefits", "Benefits");
   ("eligibility", "Eligibility"); ("application", "Application Process");
   ("documents", "Required Documents"); ("scheme_category", "Category");
   ("level", "Level"); ("tags", "Tags")].

(** The checks one after the other; the first that raises ends them. *)
Fixpoint doc_parts_of (row : Row) (fields : list (string * string))
  : result (list string) :=
  match fields with
  | [] => Ok []
  | (col, label) :: rest =>
      match doc_part row col label with
      | Raise e => Raise e
      | Ok part =>
          match doc_parts_of row rest with
          | Raise e => Raise e
          | Ok parts => Ok (part ++ parts)
          end
      end
  end.

Definition doc_parts (row : Row) : result (list string) :=
  doc_parts_of row text_fields.

(** [document_text = " | ".join(doc_parts)] *)
Definition document_text (row : Row) : result string :=
  match doc_parts row with
  | Ok parts => Ok (PyStr.join " | " parts)
  | Raise e => Raise e
  end.

Section Rendering.
(** [str(series)] for the Series that [row.get(col)] returns under a label
    that occurs more than once: the rendering by pandas of the row's name,
    the label and the cells, kept abstract. *)
Variable series_str : nat -> string -> list Cell -> string.

(** [str(row.get(col, default))] *)
Definition get_text (idx : nat) (row : Row) (col default : string) : string :=
  match getitem row col with
  | None => default
  | Some (Scalar c) => str_of c
  | Some (Series cs) => series_str idx col cs
  end.

(** [str(row.get(col, default)).replace(quote, empty).strip()] *)
Definition meta_field (idx : nat) (row : Row) (col default : string) : PyVal :=
  PStr (PyStr.strip (PyStr.remove_quotes (get_text idx row col default))).

(** The metadata dict of a row. *)
Definition row_metadata (idx : nat) (row : Row) : Metadata :=
  <["scheme_name" := meta_field idx row "scheme_name" "Unknown"]>
  (<["sector" := meta_field idx row "scheme_category" "Unknown"]>
  (<["state" := meta_field idx row "state" "All India"]>
  (<["eligibility" := meta_field idx row "eligibility" "Not specified"]>
  (<["benefits" := meta_field idx row "benefits" "Not specified"]>
  (<["official_url" := meta_field idx row "official_url" "Not available"]>
  (<["level" := meta_field idx row "level" "Unknown"]>
  (<["tags" := meta_field idx row "tags" EmptyString]>
  (<["row_index" := PInt (Z.of_nat idx)]> ∅)))))))).

(** Loop body of [create_documents], state [(documents, metadata_list)].
    The body runs inside [try]; [except Exception] logs and goes on to the
    next row, and every raise comes before the first append. *)
Definition row_step (st : list string * list Metadata) (it : nat * Row)
  : list string * list Metadata :=
  let '(documents, metadata_list) := st in
  let '(idx, row) := it in
  match document_text row with
  | Raise _ => st
  | Ok text =>
      if PyStr.truthy (PyStr.strip text) then
        (documents ++ [text], metadata_list ++ [row_metadata idx row])
      else st
  end.

(** [create_documents] *)
Definition create_documents (df : DataFrame) : list string * list Metadata :=
  fold_left row_step (iterrows df) ([], []).
End Rendering.

End SchemeDocumentProcessor.

(** ** Python list indexing *)

(** [l[i]] with Python's negative indices; [None] stands for [IndexError]. *)
Definition py_index {A : Type} (l : list A) (i : Z) : option A :=
  if (0 <=? i)%Z then l !! Z.to_nat i
  else if (- Z.of_nat (length l) <=? i)%Z then l !! Z.to_nat (Z.of_nat (length l) + i)
  else None.

(** Runs the loop bodies in order; the first exception aborts the loop. *)
Fixpoint collect {A : Type} (rs : list (result A)) : result (list A) :=
  match rs with
  | [] => Ok []
  | Raise e :: _ => Raise e
  | Ok a :: rest =>
      match collect rest with
      | Ok l => Ok (a :: l)
      | Raise e => Raise e
      end
  end.

(** ** The flat inner-product index of the faiss library

    The library is not part of the repository. The model keeps what the
    sources rely on: [IndexFlatIP(d)] stores rows of width [d]; [add] and
    [search] assert the width of their argument (and [search] asserts [k > 0]).
    [search] goes through the stored vectors in label order and keeps the [k]
    best in a heap that starts out as [k] empty slots (label [-1], the lowest
    float as score): a vector replaces the worst entry of the heap when it
    scores strictly higher. The heap is read out best score first and, among
    equal scores, higher label first; the slots no vector took keep label
    [-1]. (From [k = 100] on the library gathers the candidates in a
    reservoir of [2 k] entries before it fills the heap; with more vectors
    than that, which of several vectors tied at the cut it keeps is not
    modelled.) Scores are exact rationals: the rounding, the infinities and
    the NaN of [float32] are not modelled (in the library a NaN score is
    never above the worst entry, so that vector takes no slot). *)

Module Faiss.

Definition vector := list Q.

Record IndexFlatIP := { d : Z; xb : list vector }.

Definition ntotal (ix : IndexFlatIP) : nat := length (xb ix).

(** [faiss.IndexFlatIP(dimension)] *)
Definition new (dimension : Z) : IndexFlatIP := {| d := dimension; xb := [] |}.

Definition inner (x y : vector) : Q :=
  fold_right Qplus 0%Q (zip_with Qmult x y).

(** [np.array(rows, dtype=np.float32)] as the 2-D array that
    [faiss.normalize_L2] needs: no rows, or rows of different widths, raise.
    The result carries the common width. *)
Definition as_matrix (rows : list vector) : option (nat * list vector) :=
  match rows with
  | [] => None
  | r :: rs =>
      if forallb (fun v => Nat.eqb (length v) (length r)) rs
      then Some (length r, rows) else None
  end.

(** Lowest finite [float32], the score of an empty slot. *)
Definition neg_flt_max : Q := (- 340282346638528859811704183484516925440)%Q.

Definition no_hit : Q * Z := (neg_flt_max, (-1)%Z).

(** A slot that a vector took: it scores above an empty slot. *)
Definition taken (hit : Q * Z) : Prop := (neg_flt_max < fst hit)%Q.

(** Insertion before the first entry that does not score strictly higher. *)
Fixpoint insert_desc (x : Q * Z) (l : list (Q * Z)) : list (Q * Z) :=
  match l with
  | [] => [x]
  | y :: l' => if Qle_bool (fst y) (fst x) then x :: l
               else y :: insert_desc x l'
  end.

(** One vector offered to the heap, which is kept in the order it is read
    out in, worst entry last: the vector replaces the worst entry when it
    scores strictly higher, and is dropped otherwise. *)
Definition offer (heap : list (Q * Z)) (x : Q * Z) : list (Q * Z) :=
  match heap with
  | [] => []
  | _ => if Qle_bool (fst x) (fst (List.last heap no_hit)) then heap
         else insert_desc x (removelast heap)
  end.

(** The stored vectors with their scores against [q], in label order. *)
Definition scored (ix : IndexFlatIP) (q : vector) : list (Q * Z) :=
  imap (fun i v => (inner q v, Z.of_nat i)) (xb ix).

(** [index.add(x)] for a matrix of the given width *)
Definition add (ix : IndexFlatIP) (width : nat) (rows : list vector)
  : result IndexFlatIP :=
  if (Z.of_nat width =? d ix)%Z
  then Ok {| d := d ix; xb := xb ix ++ rows |}
  else Raise AssertionError.

(** [index.search(x, k)] for a one-row query; the row of scores zipped with
    the row of labels. *)
Definition search (ix : IndexFlatIP) (q : vector) (k : Z) : result (list (Q * Z)) :=
  if negb (Z.of_nat (length q) =? d ix)%Z then Raise AssertionError
  else if negb (0 <? k)%Z then Raise AssertionError
  else Ok (fold_left offer (scored ix q) (repeat no_hit (Z.to_nat k))).

(** A hit whose label names one of [n] stored vectors. *)
Definition in_range (n : nat) (hit : Q * Z) : Prop :=
  (0 <= snd hit < Z.of_nat n)%Z.

Section Float.
(** Square root on the float model. *)
Variable fsqrt : Q -> Q.

(** One row of [faiss.normalize_L2]: scaled to unit norm unless null. *)
Definition renorm_L2 (v : vector) : vector :=
  let nr := inner v v in
  if Qle_bool nr 0 then v
  else map (fun x => (x * (1 / fsqrt nr))%Q) v.

(** [faiss.normalize_L2(x)] *)
Definition normalize_L2 (rows : list vector) : list vector := map renorm_L2 rows.
End Float.

End Faiss.

(** ** Files of a persisted bundle and interrupted writes *)

(** A file that exists: its content as written, or content the reader
    rejects ([pickle.load], [faiss.read_index], [int] raise). *)
Inductive file (A : Type) :=
| Readable (a : A)
| Corrupt.
Arguments Readable {A} a.
Arguments Corrupt {A}.

(** What the environment does to the writes of one save, numbered from 0 in
    program order: all succeed, or write [n] raises, leaving its target as
    it was or torn. *)
Inductive io_fault :=
| NoFault
| FaultAt (n : nat) (torn : bool).

(** Write number [n] of a save: whether it succeeded, and the file after it. *)
Definition write_file {A : Type} (fault : io_fault) (n : nat)
    (old : option (file A)) (content : file A) : bool * option (file A) :=
  match fault with
  | NoFault => (true, Some content)
  | FaultAt m torn =>
      if Nat.eqb m n then (false, if torn then Some Corrupt else old)
      else (true, Some content)
  end.

(** [path.exists()] *)
Definition file_exists {A : Type} (f : option (file A)) : bool :=
  match f with Some _ => true | None => false end.

(** ** utils/faiss_handler.py *)

Module FAISSHandler.
Import Faiss.

(** The handler object: [self.index], [self.metadata] (the texts) and
    [self.dimension]. *)
Record t := {
  index : option IndexFlatIP;
  metadata : list string;
  dimension : option Z
}.

(** The directory [self.index_path] as the handler uses it. *)
Record Disk := {
  index_faiss : option (file IndexFlatIP);
  metadata_pkl : option (file (list string));
  dimension_txt : option (file Z)
}.

(** [__init__] *)
Definition init : t := {| index := None; metadata := []; dimension := None |}.

(** [create_index] *)
Definition create_index (h : t) (dim : Z) : t :=
  {| index := Some (new dim); metadata := []; dimension := Some dim |}.

(** [get_index_size] *)
Definition get_index_size (h : t) : nat :=
  match index h with None => O | Some ix => ntotal ix end.

Section Float.
Variable fsqrt : Q -> Q.

(** [add_embeddings]. Every raise happens before the first mutation, so
    a raising call leaves the handler as it was. *)
Definition add_embeddings (h : t) (embeddings : list vector) (texts : list string)
  : result t :=
  match index h with
  | None => Raise (ValueError "Index not initialized. Call create_index first.")
  | Some ix =>
      match as_matrix embeddings with
      | None => Raise (ValueError "embeddings are not a 2-D array")
      | Some (width, rows) =>
          match add ix width (normalize_L2 fsqrt rows) with
          | Raise e => Raise e
          | Ok ix' =>
              Ok {| index := Some ix';
                    metadata := metadata h ++ texts;
                    dimension := dimension h |}
          end
      end
  end.

(** The hits that pass [if idx < len(self.metadata)]. *)
Definition kept_hits (h : t) (hits : list (Q * Z)) : list (Q * Z) :=
  filter (fun hit => (snd hit <? Z.of_nat (length (metadata h)))%Z = true) hits.

(** [(float(score), self.metadata[idx])] *)
Definition attach (h : t) (hit : Q * Z) : result (Q * string) :=
  match py_index (metadata h) (snd hit) with
  | Some text => Ok (fst hit, text)
  | None => Raise IndexError
  end.

(** [search] *)
Definition search (h : t) (query_embedding : vector) (k : Z)
  : result (list (Q * string)) :=
  match index h with
  | None => Raise (ValueError "Index not initialized.")
  | Some ix =>
      match Faiss.search ix (renorm_L2 fsqrt query_embedding) k with
      | Raise e => Raise e
      | Ok hits => collect (map (attach h) (kept_hits h hits))
      end
  end.
End Float.

(** [save_index]: three writes in program order; the exception, if any,
    and the directory afterwards. *)
Definition save_index (h : t) (disk : Disk) (fault : io_fault)
  : option exn * Disk :=
  match index h with
  | None => (Some (ValueError "No index to save."), disk)
  | Some ix =>
      let '(ok0, f0) := write_file fault 0 (index_faiss disk) (Readable ix) in
      let disk0 := {| index_faiss := f0; metadata_pkl := metadata_pkl disk;
                      dimension_txt := dimension_txt disk |} in
      if negb ok0 then (Some (Exception "write failed"), disk0) else
      let '(ok1, f1) := write_file fault 1 (metadata_pkl disk0) (Readable (metadata h)) in
      let disk1 := {| index_faiss := index_faiss disk0; metadata_pkl := f1;
                      dimension_txt := dimension_txt disk0 |} in
      if negb ok1 then (Some (Exception "write failed"), disk1) else
      let text := match dimension h with Some dz => Readable dz | None => Corrupt end in
      let '(ok2, f2) := write_file fault 2 (dimension_txt disk1) text in
      let disk2 := {| index_faiss := index_faiss disk1; metadata_pkl := metadata_pkl disk1;
                      dimension_txt := f2 |} in
      if negb ok2 then (Some (Exception "write failed"), disk2) else (None, disk2)
  end.

(** [load_index]: the fields are assigned one by one as the files are
    read; an exception on the way returns [False] with what was assigned. *)
Definition load_index (h : t) (disk : Disk) : bool * t :=
  if negb (file_exists (index_faiss disk) && file_exists (metadata_pkl disk)
           && file_exists (dimension_txt disk)) then (false, h)
  else
    match dimension_txt disk with
    | Some (Readable dz) =>
        let h1 := {| index := index h; metadata := metadata h; dimension := Some dz |} in
        match index_faiss disk with
        | Some (Readable ix) =>
            let h2 := {| index := Some ix; metadata := metadata h1;
                         dimension := dimension h1 |} in
            match metadata_pkl disk with
            | Some (Readable texts) =>
                (true, {| index := index h2; metadata := texts;
                          dimension := dimension h2 |})
            | _ => (false, h2)
            end
        | _ => (false, h1)
        end
    | _ => (false, h)
    end.

End FAISSHandler.

(** ** rag.py *)

Module RAGSystem.
Import Faiss.

(** The service object. [self.index_path] is the directory modelled by
    [Disk]; [self.client] is the embedding provider of section [Provider]. *)
Record t := {
  embedding_model : string;
  dimension : Z;
  index : option IndexFlatIP;
  metadata : list Metadata;
  documents : list string
}.

(** The pickled config dict, read with [config.get(key, default)]. *)
Record Config := {
  cfg_embedding_model : option string;
  cfg_dimension : option Z
}.

(** The four artifacts under [self.index_path]. *)
Record Disk := {
  index_faiss : option (file IndexFlatIP);
  metadata_pkl : option (file (list Metadata));
  documents_pkl : option (file (list string));
  config_pkl : option (file Config)
}.

Definition no_bundle : Disk :=
  {| index_faiss := None; metadata_pkl := None; documents_pkl := None;
     config_pkl := None |}.

(** [__init__] with its defaults for model and dimension overridable. *)
Definition init (model : string) (dim : Z) : t :=
  {| embedding_model := model; dimension := dim; index := None;
     metadata := []; documents := [] |}.

Definition set_config (s : t) (model : string) (dim : Z) : t :=
  {| embedding_model := model; dimension := dim; index := index s;
     metadata := metadata s; documents := documents s |}.

Definition set_index (s : t) (ix : IndexFlatIP) : t :=
  {| embedding_model := embedding_model s; dimension := dimension s;
     index := Some ix; metadata := metadata s; documents := documents s |}.

Definition set_metadata (s : t) (m : list Metadata) : t :=
  {| embedding_model := embedding_model s; dimension := dimension s;
     index := index s; metadata := m; documents := documents s |}.

Definition set_documents (s : t) (docs : list string) : t :=
  {| embedding_model := embedding_model s; dimension := dimension s;
     index := index s; metadata := metadata s; documents := docs |}.

(** [get_index_stats] *)
Record IndexStats := {
  total_documents : nat;
  stats_embedding_model : string;
  stats_dimension : Z;
  index_type : string;
  metadata_count : nat;
  documents_count : nat
}.

Inductive Stats :=
| NoIndexLoaded
| StatsOf (st : IndexStats).

Definition get_index_stats (s : t) : Stats :=
  match index s with
  | None => NoIndexLoaded
  | Some ix =>
      StatsOf {| total_documents := ntotal ix;
                 stats_embedding_model := embedding_model s;
                 stats_dimension := dimension s;
                 index_type := "FAISS IndexFlatIP";
                 metadata_count := length (metadata s);
                 documents_count := length (documents s) |}
  end.

(** [save_index]: four writes in program order (index, metadata,
    documents, config), straight onto the final paths; any exception ends
    the save with [False]. *)
Definition save_index (s : t) (disk : Disk) (fault : io_fault) : bool * Disk :=
  match index s with
  | None => (false, disk)
  | Some ix =>
      let '(ok0, f0) := write_file fault 0 (index_faiss disk) (Readable ix) in
      let disk0 := {| index_faiss := f0; metadata_pkl := metadata_pkl disk;
                      documents_pkl := documents_pkl disk;
                      config_pkl := config_pkl disk |} in
      if negb ok0 then (false, disk0) else
      let '(ok1, f1) := write_file fault 1 (metadata_pkl disk0) (Readable (metadata s)) in
      let disk1 := {| index_faiss := index_faiss disk0; metadata_pkl := f1;
                      documents_pkl := documents_pkl disk0;
                      config_pkl := config_pkl disk0 |} in
      if negb ok1 then (false, disk1) else
      let '(ok2, f2) := write_file fault 2 (documents_pkl disk1) (Readable (documents s)) in
      let disk2 := {| index_faiss := index_faiss disk1; metadata_pkl := metadata_pkl disk1;
                      documents_pkl := f2; config_pkl := config_pkl disk1 |} in
      if negb ok2 then (false, disk2) else
      let config := {| cfg_embedding_model := Some (embedding_model s);
                       cfg_dimension := Some (dimension s) |} in
      let '(ok3, f3) := write_file fault 3 (config_pkl disk2) (Readable config) in
      let disk3 := {| index_faiss := index_faiss disk2; metadata_pkl := metadata_pkl disk2;
                      documents_pkl := documents_pkl disk2; config_pkl := f3 |} in
      if negb ok3 then (false, disk3) else (true, disk3)
  end.

(** [all([index_file.exists(), ...])] *)
Definition all_exist (disk : Disk) : bool :=
  file_exists (index_faiss disk) && file_exists (metadata_pkl disk)
  && file_exists (documents_pkl disk) && file_exists (config_pkl disk).

(** [load_index]: config, index, metadata and documents are read and
    assigned in this order; an exception on the way returns [False] with
    the fields assigned so far. *)
Definition load_index (s : t) (disk : Disk) : bool * t :=
  if negb (all_exist disk) then (false, s)
  else
    match config_pkl disk with
    | Some (Readable config) =>
        let s1 := set_config s
                    (default (embedding_model s) (cfg_embedding_model config))
                    (default (dimension s) (cfg_dimension config)) in
        match index_faiss disk with
        | Some (Readable ix) =>
            let s2 := set_index s1 ix in
            match metadata_pkl disk with
            | Some (Readable m) =>
                let s3 := set_metadata s2 m in
                match documents_pkl disk with
                | Some (Readable docs) => (true, set_documents s3 docs)
                | _ => (false, s3)
                end
            | _ => (false, s2)
            end
        | _ => (false, s1)
        end
    | _ => (false, s)
    end.

(** One formatted hit of [search]. *)
Record SearchResult := {
  scheme : PyVal;
  sector : PyVal;
  state : PyVal;
  eligibility : PyVal;
  benefits : PyVal;
  official_url : PyVal;
  level : PyVal;
  tags : PyVal;
  score : Q;
  document : string
}.

(** The hits that pass
    [if idx < len(self.metadata) and idx < len(self.documents)]. *)
Definition kept_hits (s : t) (hits : list (Q * Z)) : list (Q * Z) :=
  filter (fun hit => (snd hit <? Z.of_nat (length (metadata s)))%Z
                     && (snd hit <? Z.of_nat (length (documents s)))%Z = true) hits.

(** [dict.get(key, default)] *)
Definition get (m : Metadata) (key : string) (dflt : string) : PyVal :=
  default (PStr dflt) (m !! key).

Definition format_result (s : t) (hit : Q * Z) : result SearchResult :=
  match py_index (metadata s) (snd hit), py_index (documents s) (snd hit) with
  | Some m, Some doc =>
      Ok {| scheme := get m "scheme_name" "Unknown";
            sector := get m "sector" "Unknown";
            state := get m "state" "Unknown";
            eligibility := get m "eligibility" "Not specified";
            benefits := get m "benefits" "Not specified";
            official_url := get m "official_url" "Not available";
            level := get m "level" "Unknown";
            tags := get m "tags" EmptyString;
            score := fst hit;
            document := doc |}
  | _, _ => Raise IndexError
  end.

Section Provider.
Variable fsqrt : Q -> Q.
(** [self.client.feature_extraction] on a batch and on one text. *)
Variable feature_extraction : list string -> result (list vector).
Variable feature_extraction_text : string -> result vector.

Definition batch_size : nat := 50.

(** The slices [texts[i:i + batch_size]] for [i] in
    [range(0, len(texts), batch_size)]; [fuel] bounds their number. *)
Fixpoint batches_upto (fuel : nat) (texts : list string) : list (list string) :=
  match fuel with
  | O => []
  | S fuel' =>
      match texts with
      | [] => []
      | _ => take batch_size texts :: batches_upto fuel' (drop batch_size texts)
      end
  end.

Definition batches (texts : list string) : list (list string) :=
  batches_upto (length texts) texts.

(** The batch loop, [all_embeddings] so far in the accumulator. *)
Fixpoint embed_batches (bs : list (list string)) (all_embeddings : list vector)
  : result (list vector) :=
  match bs with
  | [] => Ok all_embeddings
  | batch :: rest =>
      match feature_extraction batch with
      | Ok batch_embeddings => embed_batches rest (all_embeddings ++ batch_embeddings)
      | Raise e => Raise (Exception ("Failed to create embeddings: " +:+ exn_str e))
      end
  end.

(** [create_embeddings] *)
Definition create_embeddings (texts : list string) : result (list vector) :=
  embed_batches (batches texts) [].

(** [create_embedding] *)
Definition create_embedding (text : string) : result vector :=
  match feature_extraction_text text with
  | Ok embedding => Ok embedding
  | Raise e => Raise (Exception ("Failed to create embedding: " +:+ exn_str e))
  end.

(** [create_faiss_index] *)
Definition create_faiss_index (s : t) (embeddings : list vector)
  : result IndexFlatIP :=
  match as_matrix embeddings with
  | None => Raise (Exception "Failed to create FAISS index: not a 2-D array")
  | Some (width, rows) =>
      match add (new (dimension s)) width (normalize_L2 fsqrt rows) with
      | Ok ix => Ok ix
      | Raise e => Raise (Exception ("Failed to create FAISS index: " +:+ exn_str e))
      end
  end.

(** [build_index]. The outcome of the final [save_index] is not looked at. *)
Definition build_index (s : t) (disk : Disk) (fault : io_fault)
    (docs : list string) (meta : list Metadata) : bool * t * Disk :=
  match docs, meta with
  | [], _ | _, [] => (false, s, disk)
  | _, _ =>
      if negb (Nat.eqb (length docs) (length meta)) then (false, s, disk)
      else
        match create_embeddings docs with
        | Raise _ => (false, s, disk)
        | Ok embeddings =>
            match create_faiss_index s embeddings with
            | Raise _ => (false, s, disk)
            | Ok ix =>
                let s' := set_metadata (set_documents (set_index s ix) docs) meta in
                (true, s', snd (save_index s' disk fault))
            end
        end
  end.

(** [search] *)
Definition search (s : t) (query : string) (k : Z) : result (list SearchResult) :=
  match index s with
  | None =>
      Raise (Exception
               "Search failed: Index not loaded. Please load or build an index first.")
  | Some ix =>
      match create_embedding query with
      | Raise e => Raise (Exception ("Search failed: " +:+ exn_str e))
      | Ok query_embedding =>
          match Faiss.search ix (renorm_L2 fsqrt query_embedding)
                  (Z.min k (Z.of_nat (ntotal ix))) with
          | Raise e => Raise (Exception ("Search failed: " +:+ exn_str e))
          | Ok hits =>
              match collect (map (format_result s) (kept_hits s hits)) with
              | Ok results => Ok results
              | Raise e => Raise (Exception ("Search failed: " +:+ exn_str e))
              end
          end
      end
  end.
End Provider.

End RAGSystem.

(** ** main.py: the ingest endpoint *)

Module Main.
Import Pandas.

Record IngestRequest := { csv_path : string; force_rebuild : bool }.

Record IngestResponse := {
  success : bool;
  message : string;
  documents_processed : nat;
  index_stats : RAGSystem.Stats
}.

(** What a handler gives back: an [HTTPException] or its response model. *)
Inductive http (A : Type) :=
| HTTPException (status_code : nat) (detail : string)
| Respond (a : A).
Arguments HTTPException {A} status_code detail.
Arguments Respond {A} a.

(** The module-level [rag_system] with what it reaches on disk. *)
Record World := {
  rag_system : RAGSystem.t;
  disk : RAGSystem.Disk;
  files : gmap string CsvFile
}.

Section Service.
Variable fsqrt : Q -> Q.
Variable feature_extraction : list string -> result (list Faiss.vector).

(** [csv_processor.SchemeDocumentProcessor(request.csv_path)] and
    [processor.process_schemes()]. The name [csv_processor] is bound by
    [from utils import csv_processor] to the module [utils/csv_processor.py]
    ([utils] is the package that [routes.py] imports its services from), and
    that module defines [CSVProcessor] only: looking the class up raises
    before any file is read. The class of that name in [utils.py] is not
    what the name resolves to. *)
Definition process_schemes (path : string) : result (list string * list Metadata) :=
  Raise (AttributeError
           "module 'utils.csv_processor' has no attribute 'SchemeDocumentProcessor'").

(** [ingest_csv]; [fault] is what happens to the writes of the save that
    a rebuild ends with. *)
Definition ingest_csv (request : IngestRequest) (fault : io_fault) (w : World)
  : http IngestResponse * World :=
  if negb (exists_ (files w) (csv_path request)) then
    (HTTPException 404 ("CSV file not found: " +:+ csv_path request), w)
  else
    match force_rebuild request, RAGSystem.index (rag_system w) with
    | false, Some ix =>
        (Respond {| success := true;
                    message := "Index already exists. Use force_rebuild=true to rebuild.";
                    documents_processed := Faiss.ntotal ix;
                    index_stats := RAGSystem.get_index_stats (rag_system w) |}, w)
    | _, _ =>
        match process_schemes (csv_path request) with
        | Raise e => (HTTPException 500 ("Ingestion failed: " +:+ exn_str e), w)
        | Ok (docs, meta) =>
            match docs with
            | [] => (HTTPException 400 "No valid documents found in CSV", w)
            | _ =>
                let '(ok, s', disk') :=
                  RAGSystem.build_index fsqrt feature_extraction
                    (rag_system w) (disk w) fault docs meta in
                let w' := {| rag_system := s'; disk := disk'; files := files w |} in
                if negb ok then (HTTPException 500 "Failed to build index", w')
                else
                  (Respond {| success := true;
                              message := "Successfully processed "
                                         +:+ PyStr.of_nat (length docs)
                                         +:+ " documents from " +:+ csv_path request;
                              documents_processed := length docs;
                              index_stats := RAGSystem.get_index_stats s' |}, w')
            end
        end
    end.
End Service.

End Main.

(** ** Runs of the two index services *)

Module Runs.
Import Faiss.

(** Calls on a [FAISSHandler]. *)
Inductive handler_op :=
| HCreate (dim : Z)
| HAdd (embeddings : list vector) (texts : list string)
| HSave (fault : io_fault)
| HLoad.

(** Calls on a [RAGSystem]. *)
Inductive rag_op :=
| RBuild (docs : list string) (meta : list Metadata) (fault : io_fault)
| RSave (fault : io_fault)
| RLoad.

Section Float.
Variable fsqrt : Q -> Q.
Variable feature_extraction : list string -> result (list vector).

(** One call; a raising call leaves the handler as the call left it. *)
Definition handler_step (st : FAISSHandler.t * FAISSHandler.Disk) (op : handler_op)
  : FAISSHandler.t * FAISSHandler.Disk :=
  let '(h, disk) := st in
  match op with
  | HCreate dim => (FAISSHandler.create_index h dim, disk)
  | HAdd embeddings texts =>
      match FAISSHandler.add_embeddings fsqrt h embeddings texts with
      | Ok h' => (h', disk)
      | Raise _ => (h, disk)
      end
  | HSave fault => (h, snd (FAISSHandler.save_index h disk fault))
  | HLoad => (snd (FAISSHandler.load_index h disk), disk)
  end.

Definition handler_run (ops : list handler_op)
    (st : FAISSHandler.t * FAISSHandler.Disk) : FAISSHandler.t * FAISSHandler.Disk :=
  fold_left handler_step ops st.

Definition rag_step (st : RAGSystem.t * RAGSystem.Disk) (op : rag_op)
  : RAGSystem.t * RAGSystem.Disk :=
  let '(s, disk) := st in
  match op with
  | RBuild docs meta fault =>
      let '(_, s', disk') :=
        RAGSystem.build_index fsqrt feature_extraction s disk fault docs meta in
      (s', disk')
  | RSave fault => (s, snd (RAGSystem.save_index s disk fault))
  | RLoad => (snd (RAGSystem.load_index s disk), disk)
  end.

Definition rag_run (ops : list rag_op) (st : RAGSystem.t * RAGSystem.Disk)
  : RAGSystem.t * RAGSystem.Disk :=
  fold_left rag_step ops st.
End Float.

(** Number of vectors held, none when there is no index. *)
Definition rag_vector_count (s : RAGSystem.t) : nat :=
  match RAGSystem.index s with None => O | Some ix => ntotal ix end.

(** The parallel stores agree in length. *)
Definition rag_lockstep (s : RAGSystem.t) : Prop :=
  rag_vector_count s = length (RAGSystem.documents s)
  /\ length (RAGSystem.documents s) = length (RAGSystem.metadata s).

Definition handler_lockstep (h : FAISSHandler.t) : Prop :=
  FAISSHandler.get_index_size h = length (FAISSHandler.metadata h).

Definition readable {A : Type} (f : option (file A)) : Prop :=
  match f with Some Corrupt => False | _ => True end.

(** A directory whose metadata and documents files, if there, can be read,
    and whose index, metadata and documents agree in length when all three
    can be read. *)
Definition rag_bundle_ok (disk : RAGSystem.Disk) : Prop :=
  readable (RAGSystem.metadata_pkl disk) /\ readable (RAGSystem.documents_pkl disk)
  /\ forall ix m docs,
       RAGSystem.index_faiss disk = Some (Readable ix) ->
       RAGSystem.metadata_pkl disk = Some (Readable m) ->
       RAGSystem.documents_pkl disk = Some (Readable docs) ->
       ntotal ix = length docs /\ length docs = length m.

Definition handler_bundle_ok (disk : FAISSHandler.Disk) : Prop :=
  readable (FAISSHandler.metadata_pkl disk)
  /\ forall ix texts,
       FAISSHandler.index_faiss disk = Some (Readable ix) ->
       FAISSHandler.metadata_pkl disk = Some (Readable texts) ->
       ntotal ix = length texts.

(** No save of the run is interrupted. *)
Definition rag_op_clean (op : rag_op) : Prop :=
  match op with
  | RBuild _ _ fault | RSave fault => fault = NoFault
  | RLoad => True
  end.

(** No save is interrupted and every add passes as many vectors as texts. *)
Definition handler_op_clean (op : handler_op) : Prop :=
  match op with
  | HAdd embeddings texts => length embeddings = length texts
  | HSave fault => fault = NoFault
  | _ => True
  end.

(** The provider answers a batch with one vector per text. *)
Definition provider_ok (feature_extraction : list string -> result (list vector))
  : Prop :=
  forall batch out, feature_extraction batch = Ok out -> length out = length batch.

End Runs.

(** ** What the properties speak of

    [Views] holds the statement side of the properties: the contribution of
    one row, the bundle a complete save leaves, the absence of an artifact.
    These are not taken from the sources; the theorems compare the embedded
    code with them. [Inputs] holds concrete inputs. *)

Module Views.
Import Pandas.

(** What one scheme row contributes to [process_csv]: its chunks, each with
    the row's source identifier. *)
Definition scheme_row_pairs (max_tokens : nat) (it : nat * Row)
  : list (string * string) :=
  let text := CSVProcessor._combine_scheme_columns (snd it) in
  if PyStr.truthy (PyStr.strip text)
  then map (fun chunk => (chunk, CSVProcessor.scheme_source (fst it) (snd it)))
           (CSVProcessor.chunk_text max_tokens text)
  else [].

Definition plain_row_pairs (max_tokens : nat) (text_column : string) (it : nat * Row)
  : list (string * string) :=
  let text := get_str (snd it) text_column "nan" in
  if PyStr.truthy (PyStr.strip text)
  then map (fun chunk => (chunk, CSVProcessor.plain_source (fst it)))
           (CSVProcessor.chunk_text max_tokens text)
  else [].

Definition row_pairs (max_tokens : nat) (df : DataFrame) (text_column : string)
  : nat * Row -> list (string * string) :=
  if CSVProcessor.is_scheme_data df then scheme_row_pairs max_tokens
  else plain_row_pairs max_tokens text_column.

(** [process_csv] accepts the frame: scheme data, or the text column is there. *)
Definition accepted (df : DataFrame) (text_column : string) : bool :=
  CSVProcessor.is_scheme_data df || has_column (columns df) text_column.

(** A row whose checks raise nothing and whose text is not blank. *)
Definition row_kept (row : Row) : bool :=
  match SchemeDocumentProcessor.document_text row with
  | Ok text => PyStr.truthy (PyStr.strip text)
  | Raise _ => false
  end.

(** What one row contributes to [create_documents]. *)
Definition row_output (series_str : nat -> string -> list Cell -> string)
    (it : nat * Row) : list (string * Metadata) :=
  match SchemeDocumentProcessor.document_text (snd it) with
  | Ok text =>
      if PyStr.truthy (PyStr.strip text)
      then [(text, SchemeDocumentProcessor.row_metadata series_str (fst it) (snd it))]
      else []
  | Raise _ => []
  end.

(** The rows, by index, that contribute a document. *)
Definition kept_rows (df : DataFrame) : list nat :=
  map fst (filter (fun it => row_kept (snd it) = true) (iterrows df)).

(** The directory after a save that wrote all four artifacts. *)
Definition bundle_of (s : RAGSystem.t) (ix : Faiss.IndexFlatIP) : RAGSystem.Disk :=
  {| RAGSystem.index_faiss := Some (Readable ix);
     RAGSystem.metadata_pkl := Some (Readable (RAGSystem.metadata s));
     RAGSystem.documents_pkl := Some (Readable (RAGSystem.documents s));
     RAGSystem.config_pkl :=
       Some (Readable {| RAGSystem.cfg_embedding_model := Some (RAGSystem.embedding_model s);
                         RAGSystem.cfg_dimension := Some (RAGSystem.dimension s) |}) |}.

(** The target of the write that raised: torn, or as it was. *)
Definition left_by_fault {A : Type} (torn : bool) (old : option (file A))
  : option (file A) :=
  if torn then Some Corrupt else old.

(** Some artifact of the bundle is absent. *)
Definition artifact_missing (disk : RAGSystem.Disk) : Prop :=
  RAGSystem.index_faiss disk = None \/ RAGSystem.metadata_pkl disk = None
  \/ RAGSystem.documents_pkl disk = None \/ RAGSystem.config_pkl disk = None.

Definition handler_artifact_missing (disk : FAISSHandler.Disk) : Prop :=
  FAISSHandler.index_faiss disk = None \/ FAISSHandler.metadata_pkl disk = None
  \/ FAISSHandler.dimension_txt disk = None.

(** The response of [ingest_csv] when it does not rebuild. *)
Definition already_built (s : RAGSystem.t) (ix : Faiss.IndexFlatIP)
  : Main.IngestResponse :=
  {| Main.success := true;
     Main.message := "Index already exists. Use force_rebuild=true to rebuild.";
     Main.documents_processed := Faiss.ntotal ix;
     Main.index_stats := RAGSystem.get_index_stats s |}.

End Views.

Module Inputs.
Import Pandas.

(** A float-model square root: exact on perfect squares. *)
Definition fsqrt (q : Q) : Q :=
  Qmake (Z.sqrt (Qnum q * Zpos (Qden q))) (Qden q).

(** A short sentence followed by one 2400-character word. *)
Definition oversized_text : string := "Hi. " +:+ PyStr.repeat_char "a"%char 2400.

Definition three_schemes : DataFrame :=
  {| columns := ["scheme_name"; "details"];
     rows := [[Str "Scheme A"; Str "for farmers"];
              [Str "Scheme B"; Str "for women"];
              [Str "Scheme C"; Str "for farmers and students"]] |}.

Definition csv_files : gmap string CsvFile :=
  {["updated_data.csv" := Parsed three_schemes]}.

(** A provider that answers every text with the same unit vector. *)
Definition unit_provider (batch : list string) : result (list Faiss.vector) :=
  Ok (map (fun _ => [1%Q; 0%Q]) batch).

Definition unit_provider_text (text : string) : result Faiss.vector :=
  Ok [1%Q; 0%Q].

Definition three_vectors : list Faiss.vector :=
  [[1%Q; 0%Q]; [0%Q; 1%Q]; [(3 # 5)%Q; (4 # 5)%Q]].

Definition three_texts : list string := ["Scheme A"; "Scheme B"; "Scheme C"].

(** A handler holding three vectors and their three texts. *)
Definition handler3 : FAISSHandler.t :=
  {| FAISSHandler.index := Some {| Faiss.d := 2; Faiss.xb := three_vectors |};
     FAISSHandler.metadata := three_texts;
     FAISSHandler.dimension := Some 2%Z |}.

Definition meta_of (name : string) : Metadata := {["scheme_name" := PStr name]}.

(** A service holding the same three vectors with documents and metadata. *)
Definition rag3 : RAGSystem.t :=
  {| RAGSystem.embedding_model := "intfloat/multilingual-e5-base";
     RAGSystem.dimension := 2;
     RAGSystem.index := Some {| Faiss.d := 2; Faiss.xb := three_vectors |};
     RAGSystem.metadata := map meta_of three_texts;
     RAGSystem.documents := three_texts |}.

(** A complete bundle written by an earlier build of one document. *)
Definition old_bundle : RAGSystem.Disk :=
  {| RAGSystem.index_faiss := Some (Readable {| Faiss.d := 2; Faiss.xb := [[1%Q; 0%Q]] |});
     RAGSystem.metadata_pkl := Some (Readable [meta_of "Old scheme"]);
     RAGSystem.documents_pkl := Some (Readable ["Old scheme"]);
     RAGSystem.config_pkl :=
       Some (Readable {| RAGSystem.cfg_embedding_model := Some "intfloat/multilingual-e5-base";
                         RAGSystem.cfg_dimension := Some 2%Z |}) |}.

(** The same bundle with a documents file that cannot be unpickled. *)
Definition damaged_bundle : RAGSystem.Disk :=
  {| RAGSystem.index_faiss := RAGSystem.index_faiss old_bundle;
     RAGSystem.metadata_pkl := RAGSystem.metadata_pkl old_bundle;
     RAGSystem.documents_pkl := Some Corrupt;
     RAGSystem.config_pkl := RAGSystem.config_pkl old_bundle |}.

Definition fresh : RAGSystem.t := RAGSystem.init "intfloat/multilingual-e5-base" 2.

Definition no_handler_bundle : FAISSHandler.Disk :=
  {| FAISSHandler.index_faiss := None; FAISSHandler.metadata_pkl := None;
     FAISSHandler.dimension_txt := None |}.

Definition index3 : Faiss.IndexFlatIP := {| Faiss.d := 2; Faiss.xb := three_vectors |}.

(** The running service: three schemes indexed, the CSV in place. *)
Definition world3 : Main.World :=
  {| Main.rag_system := rag3; Main.disk := Views.bundle_of rag3 index3;
     Main.files := csv_files |}.

Definition ingest_again : Main.IngestRequest :=
  {| Main.csv_path := "updated_data.csv"; Main.force_rebuild := false |}.

Definition ingest_missing : Main.IngestRequest :=
  {| Main.csv_path := "missing.csv"; Main.force_rebuild := false |}.

(** A build, a save and a load on the service. *)
Definition rag_session : list Runs.rag_op :=
  [Runs.RBuild three_texts (map meta_of three_texts) NoFault;
   Runs.RSave NoFault; Runs.RLoad].

(** Two vectors added with a single text. *)
Definition uneven_add : list Runs.handler_op :=
  [Runs.HCreate 2; Runs.HAdd [[1%Q; 0%Q]; [0%Q; 1%Q]] ["a"]].

(** A rebuild whose save is interrupted at the metadata write, then a load. *)
Definition interrupted_rebuild : list Runs.rag_op :=
  [Runs.RBuild three_texts (map meta_of three_texts) (FaultAt 1 false); Runs.RLoad].

(** A create, an add of three vectors with three texts, a save and a load
    on the handler. *)
Definition handler_session : list Runs.handler_op :=
  [Runs.HCreate 2; Runs.HAdd three_vectors three_texts;
   Runs.HSave NoFault; Runs.HLoad].

End Inputs.

(** * The remaining operations of the sources *)

(** ** utils/csv_processor.py: validation *)

Module CSVValidation.
Import Pandas.

(** [CSVProcessor.validate_csv] *)
Definition validate_csv (fs : gmap string CsvFile) (csv_path text_column : string)
  : bool :=
  match read_csv fs csv_path with
  | Ok df =>
      if CSVProcessor.is_scheme_data df then true
      else has_column (columns df) text_column
  | Raise _ => false
  end.

End CSVValidation.

(** ** Shapes of texts, rows and metadata that the properties speak of

    Statement side, not taken from the sources. *)

Module Shapes.
Import Pandas.

(** The text begins with a character that is not blank. *)
Definition starts_nonblank (s : string) : bool :=
  match s with
  | EmptyString => false
  | String c _ => negb (PyStr.is_space c)
  end.

(** The columns [create_documents] reads for the document text. *)
Definition document_columns : list string :=
  ["scheme_name"; "details"; "benefits"; "eligibility"; "application";
   "documents"; "scheme_category"; "level"; "tags"].

(** The columns [_combine_scheme_columns] reads. *)
Definition combined_columns : list string :=
  ["scheme_name"; "details"; "benefits"; "eligibility"; "application";
   "documents"; "schemeCategory"; "level"; "tags"].

(** One of the columns is there and holds a value (anything but NaN). *)
Definition has_any_field (cols : list string) (row : Row) : bool :=
  existsb (fun col => match present row col with Some _ => true | None => false end)
          cols.

(** How often a label occurs among the labels of a row. *)
Definition occurrences (row : Row) (col : string) : nat :=
  length (List.filter (fun c => String.eqb c col) (labels row)).

(** No document column occurs twice, and one of them holds a value. *)
Definition keeps_row (row : Row) : bool :=
  forallb (fun col => (occurrences row col <=? 1)%nat) document_columns
  && has_any_field document_columns row.

(** The keys of a metadata dict built by [create_documents]. *)
Definition metadata_keys : gset string :=
  list_to_set ["scheme_name"; "sector"; "state"; "eligibility"; "benefits";
               "official_url"; "level"; "tags"; "row_index"].

(** A sentence that, stripped and behind one blank, stays within the budget. *)
Definition sentence_fits (max_tokens : nat) (raw : string) : Prop :=
  (CSVProcessor.estimate_tokens (" " +:+ PyStr.strip raw) <= max_tokens)%nat.

End Shapes.

(** ** main.py: startup, health, query and statistics *)

Module MainEndpoints.

Record HealthResponse := {
  status : string;
  index_loaded : bool;
  health_stats : option RAGSystem.Stats
}.

Record QueryRequest := { question : string; k : Z }.

Record QueryResponse := {
  query_success : bool;
  query : string;
  matches : list RAGSystem.SearchResult;
  total_matches : nat
}.

(** [startup_event]: the outcome of the load is only logged. *)
Definition startup_event (w : Main.World) : Main.World :=
  {| Main.rag_system :=
       snd (RAGSystem.load_index (Main.rag_system w) (Main.disk w));
     Main.disk := Main.disk w;
     Main.files := Main.files w |}.

(** A new process over the directory and files another one left. *)
Definition restart (model : string) (dim : Z) (w : Main.World) : Main.World :=
  startup_event {| Main.rag_system := RAGSystem.init model dim;
                   Main.disk := Main.disk w;
                   Main.files := Main.files w |}.

(** [health_check] *)
Definition health_check (w : Main.World) : HealthResponse :=
  match RAGSystem.index (Main.rag_system w) with
  | Some _ =>
      {| status := "healthy"; index_loaded := true;
         health_stats := Some (RAGSystem.get_index_stats (Main.rag_system w)) |}
  | None =>
      {| status := "no_index"; index_loaded := false; health_stats := None |}
  end.

(** [get_stats] *)
Definition get_stats (w : Main.World) : Main.http RAGSystem.Stats :=
  match RAGSystem.index (Main.rag_system w) with
  | None => Main.HTTPException 404 "No index loaded"
  | Some _ => Main.Respond (RAGSystem.get_index_stats (Main.rag_system w))
  end.

Section Service.
Variable fsqrt : Q -> Q.
Variable feature_extraction_text : string -> result Faiss.vector.

(** [query_schemes] *)
Definition query_schemes (request : QueryRequest) (w : Main.World)
  : Main.http QueryResponse :=
  match RAGSystem.index (Main.rag_system w) with
  | None =>
      Main.HTTPException 404
        "No index loaded. Please ingest data first using /ingest endpoint."
  | Some _ =>
      if negb (PyStr.truthy (PyStr.strip (question request))) then
        Main.HTTPException 400 "Query cannot be empty"
      else
        match RAGSystem.search fsqrt feature_extraction_text (Main.rag_system w)
                (question request) (k request) with
        | Ok results =>
            Main.Respond {| query_success := true;
                            query := question request;
                            matches := results;
                            total_matches := length results |}
        | Raise e => Main.HTTPException 500 ("Query failed: " +:+ exn_str e)
        end
  end.
End Service.

End MainEndpoints.

(** ** utils/embeddings.py *)

Module EmbeddingService.

Section Provider.
(** [self.embeddings.embed_documents] and [self.embeddings.embed_query] *)
Variable embed_documents : list string -> result (list Faiss.vector).
Variable embed_query_raw : string -> result Faiss.vector.

(** [embed_texts] *)
Definition embed_texts (texts : list string) : result (list Faiss.vector) :=
  match embed_documents texts with
  | Ok embeddings => Ok embeddings
  | Raise e => Raise (Exception ("Error generating embeddings: " +:+ exn_str e))
  end.

(** [embed_query] *)
Definition embed_query (text : string) : result Faiss.vector :=
  match embed_query_raw text with
  | Ok embedding => Ok embedding
  | Raise e => Raise (Exception ("Error generating query embedding: " +:+ exn_str e))
  end.
End Provider.

End EmbeddingService.

(** ** routes.py: ingest, query and status over the handler *)

Module Routes.
Import Pandas.

Record IngestRequest := { csv_path : string; text_column : string }.

Record IngestResponse := {
  message : string;
  chunks_processed : nat;
  index_size : nat
}.

(** The module-level [faiss_handler] with what it reaches on disk. *)
Record World := {
  faiss_handler : FAISSHandler.t;
  disk : FAISSHandler.Disk;
  files : gmap string CsvFile
}.

(** [csv_processor = CSVProcessor()] *)
Definition max_tokens : nat := 500.

Section Service.
Variable fsqrt : Q -> Q.
Variable embed_documents : list string -> result (list Faiss.vector).

(** [if faiss_handler.index is None:
       faiss_handler.create_index(len(embeddings[0]))] *)
Definition ensure_index (h : FAISSHandler.t) (embeddings : list Faiss.vector)
  : result FAISSHandler.t :=
  match FAISSHandler.index h with
  | Some _ => Ok h
  | None =>
      match embeddings with
      | [] => Raise IndexError
      | first :: _ => Ok (FAISSHandler.create_index h (Z.of_nat (length first)))
      end
  end.

Definition with_handler (w : World) (h : FAISSHandler.t) : World :=
  {| faiss_handler := h; disk := disk w; files := files w |}.

Definition failed (e : exn) : Main.http IngestResponse :=
  Main.HTTPException 500 ("Error during ingestion: " +:+ exn_str e).

(** [ingest_csv]; [fault] is what happens to the writes of the closing
    [save_index]. *)
Definition ingest_csv (request : IngestRequest) (fault : io_fault) (w : World)
  : Main.http IngestResponse * World :=
  if negb (exists_ (files w) (csv_path request)) then
    (Main.HTTPException 404 ("CSV file not found: " +:+ csv_path request), w)
  else if negb (CSVValidation.validate_csv (files w) (csv_path request)
                  (text_column request)) then
    (Main.HTTPException 400
       ("CSV file validation failed. For scheme data, ensure columns 'scheme_name' and 'details' exist. For other data, ensure column '"
        +:+ text_column request +:+ "' exists."), w)
  else
    match CSVProcessor.process_csv max_tokens (files w) (csv_path request)
            (text_column request) with
    | Raise e => (failed e, w)
    | Ok (chunks, sources) =>
        match chunks with
        | [] => (Main.HTTPException 400 "No valid text data found in CSV", w)
        | _ =>
            match EmbeddingService.embed_texts embed_documents chunks with
            | Raise e => (failed e, w)
            | Ok embeddings =>
                match ensure_index (faiss_handler w) embeddings with
                | Raise e => (failed e, w)
                | Ok h1 =>
                    match FAISSHandler.add_embeddings fsqrt h1 embeddings chunks with
                    | Raise e => (failed e, with_handler w h1)
                    | Ok h2 =>
                        match FAISSHandler.save_index h2 (disk w) fault with
                        | (Some e, disk') =>
                            (failed e,
                             {| faiss_handler := h2; disk := disk'; files := files w |})
                        | (None, disk') =>
                            (Main.Respond
                               {| message := "Successfully ingested "
                                             +:+ PyStr.of_nat (length chunks)
                                             +:+ " chunks from " +:+ csv_path request;
                                  chunks_processed := length chunks;
                                  index_size := FAISSHandler.get_index_size h2 |},
                             {| faiss_handler := h2; disk := disk'; files := files w |})
                        end
                    end
                end
            end
        end
    end.
End Service.

End Routes.

(** ** Further concrete inputs *)

Module Inputs2.


Definition routes_world : Routes.World :=
  {| Routes.faiss_handler := FAISSHandler.init;
     Routes.disk := Inputs.no_handler_bundle;
     Routes.files := Inputs.csv_files |}.

Definition routes_request : Routes.IngestRequest :=
  {| Routes.csv_path := "updated_data.csv"; Routes.text_column := "text" |}.

(** A complete bundle from which the config file has been removed. *)
Definition bundle_without_config : RAGSystem.Disk :=
  {| RAGSystem.index_faiss := RAGSystem.index_faiss Inputs.old_bundle;
     RAGSystem.metadata_pkl := RAGSystem.metadata_pkl Inputs.old_bundle;
     RAGSystem.documents_pkl := RAGSystem.documents_pkl Inputs.old_bundle;
     RAGSystem.config_pkl := None |}.

(** A handler directory with index and texts but no dimension file. *)
Definition handler_bundle_without_dimension : FAISSHandler.Disk :=
  {| FAISSHandler.index_faiss := Some (Readable Inputs.index3);
     FAISSHandler.metadata_pkl := Some (Readable Inputs.three_texts);
     FAISSHandler.dimension_txt := None |}.

(** A frame as [load_csv] can leave it: two columns renamed to [details]. *)
Definition renamed_twice : Pandas.DataFrame :=
  {| Pandas.columns := ["scheme_name"; "details"; "details"];
     Pandas.rows := [[Pandas.Str "Scheme A"; Pandas.Str "for farmers";
                      Pandas.Str "a longer text"]] |}.

(** A frame with two columns renamed to [state]. *)
Definition two_states : Pandas.DataFrame :=
  {| Pandas.columns := ["scheme_name"; "state"; "state"];
     Pandas.rows := [[Pandas.Str "Scheme A"; Pandas.Str "Kerala"; Pandas.Str "Goa"]] |}.

(** A rendering of a Series for the examples: the cells, comma-separated. *)
Definition plain_series_str (idx : nat) (col : string) (cs : list Pandas.Cell)
  : string :=
  PyStr.join ", " (map Pandas.str_of cs).

(** Three vectors that score the same against any query. *)
Definition tied_index : Faiss.IndexFlatIP :=
  {| Faiss.d := 2; Faiss.xb := [[1%Q; 0%Q]; [1%Q; 0%Q]; [1%Q; 0%Q]] |}.

(** One vector whose score against [[1]] is below the lowest float. *)
Definition sunk_index : Faiss.IndexFlatIP :=
  {| Faiss.d := 1; Faiss.xb := [[(- 400000000000000000000000000000000000000)%Q]] |}.


End Inputs2.

(** * Properties *)

(** ** The string primitives and the chunker on small inputs *)

Example re_split_trailing :
  PyStr.re_split_sentences "a.b." = ["a"; "b"; EmptyString].
Proof. reflexivity. Qed.

Example re_split_leading_run :
  PyStr.re_split_sentences "..a" = [EmptyString; "a"].
Proof. reflexivity. Qed.

Example re_split_mixed :
  PyStr.re_split_sentences "Hi. there!? you" = ["Hi"; " there"; " you"].
Proof. reflexivity. Qed.

Example split_blanks : PyStr.split "  ab  c d " = ["ab"; "c"; "d"].
Proof. reflexivity. Qed.

Example strip_both_ends : PyStr.strip "  ab  c d  " = "ab  c d".
Proof. reflexivity. Qed.

Example join_parts : PyStr.join " | " ["a"; "b"; "c"] = "a | b | c".
Proof. reflexivity. Qed.

Example of_nat_120 : PyStr.of_nat 120 = "120".
Proof. reflexivity. Qed.

(** Budget of 2 tokens: sentences first, words for the sentence that does
    not fit an empty chunk. *)
Example chunk_text_small :
  CSVProcessor.chunk_text 2 "one two three four. five six! seven"
  = ["one two"; "three four"; "five six"; "seven"].
Proof. reflexivity. Qed.

(** A single word over the budget is cut to [max_tokens * 4] characters. *)
Example chunk_text_truncates :
  CSVProcessor.chunk_text 1 "abcdefghijkl" = ["abcd"].
Proof. reflexivity. Qed.

Example py_index_negative : py_index ["a"; "b"; "c"] (-1) = Some "c".
Proof. reflexivity. Qed.

Example py_index_out_of_range : py_index ["a"; "b"; "c"] 3 = None.
Proof. reflexivity. Qed.

Example create_documents_three_schemes :
  fst (SchemeDocumentProcessor.create_documents Inputs2.plain_series_str
         Inputs.three_schemes)
  = ["Scheme: Scheme A | Description: for farmers";
     "Scheme: Scheme B | Description: for women";
     "Scheme: Scheme C | Description: for farmers and students"].
Proof. reflexivity. Qed.

(** Two columns renamed to [details]: the check of that column raises in
    every row, and no row is kept. *)
Example create_documents_repeated_details :
  SchemeDocumentProcessor.create_documents Inputs2.plain_series_str
    Inputs2.renamed_twice
  = ([], []).
Proof. reflexivity. Qed.

(** Two columns renamed to [state]: the rows are kept, and the metadata
    holds the rendering of both cells. *)
Example create_documents_repeated_state :
  fst (SchemeDocumentProcessor.create_documents Inputs2.plain_series_str
         Inputs2.two_states)
  = ["Scheme: Scheme A"]
  /\ map (fun m : Metadata => m !! "state")
         (snd (SchemeDocumentProcessor.create_documents Inputs2.plain_series_str
                 Inputs2.two_states))
     = [Some (PStr "Kerala, Goa")].
Proof. split; reflexivity. Qed.

(** Equal scores: the heap keeps the vectors met first and reads them out
    higher label first. *)
Example search_ties_two_of_three :
  Faiss.search Inputs2.tied_index [1%Q; 0%Q] 2 = Ok [(1%Q, 1%Z); (1%Q, 0%Z)].
Proof. reflexivity. Qed.

Example search_ties_all :
  Faiss.search Inputs2.tied_index [1%Q; 0%Q] 4
  = Ok [(1%Q, 2%Z); (1%Q, 1%Z); (1%Q, 0%Z); Faiss.no_hit].
Proof. reflexivity. Qed.

(** A vector that does not score above an empty slot takes none, also when
    [k] does not exceed the number of vectors. *)
Example search_score_below_lowest_float :
  Faiss.search Inputs2.sunk_index [1%Q] 1 = Ok [Faiss.no_hit].
Proof. reflexivity. Qed.

Example process_frame_three_schemes :
  CSVProcessor.process_frame 500 Inputs.three_schemes "text"
  = Ok (["Scheme: Scheme A | Details: for farmers";
         "Scheme: Scheme B | Details: for women";
         "Scheme: Scheme C | Details: for farmers and students"],
        ["Scheme A_row_0"; "Scheme B_row_1"; "Scheme C_row_2"]).
Proof. reflexivity. Qed.

(** ** The chunker *)

(** C8. The chunker does not keep every chunk within the token budget: with
    the default budget of 500, a short sentence followed by a 2400-character
    sentence comes back as two chunks, the second estimated at 600 tokens. A
    sentence (or word) that overflows a non-empty pending chunk is carried
    over whole and later emitted without the word split or the truncation. *)
Theorem chunk_text_exceeds_budget :
  CSVProcessor.chunk_text 500 Inputs.oversized_text
    = ["Hi"; PyStr.repeat_char "a"%char 2400]
  /\ CSVProcessor.estimate_tokens Inputs.oversized_text = 601%nat
  /\ exists chunk, In chunk (CSVProcessor.chunk_text 500 Inputs.oversized_text)
                   /\ (500 < CSVProcessor.estimate_tokens chunk)%nat.
Proof.
  assert (E : CSVProcessor.chunk_text 500 Inputs.oversized_text
              = ["Hi"; PyStr.repeat_char "a"%char 2400]) by (vm_compute; reflexivity).
  split; [exact E|]. split; [vm_compute; reflexivity|].
  exists (PyStr.repeat_char "a"%char 2400). split.
  - rewrite E. right. left. reflexivity.
  - vm_compute. lia.
Qed.

(** A text within the budget is returned as its only chunk. *)
Lemma chunk_text_fits (max_tokens : nat) (text : string) :
  (CSVProcessor.estimate_tokens text <= max_tokens)%nat ->
  CSVProcessor.chunk_text max_tokens text = [text].
Proof.
  intros H. unfold CSVProcessor.chunk_text.
  destruct (Nat.leb_spec (CSVProcessor.estimate_tokens text) max_tokens) as [_|Hgt].
  - reflexivity.
  - lia.
Qed.

(** ** Pairing of chunks and sources *)

Section Pairing.
Context {A B : Type}.

Lemma combine_app_same (l1 l2 : list A) (r1 r2 : list B) :
  length l1 = length r1 ->
  combine (l1 ++ l2) (r1 ++ r2) = combine l1 r1 ++ combine l2 r2.
Proof.
  revert r1. induction l1 as [|a l1 IH]; intros [|b r1] Hlen; simpl in *;
    try discriminate; [reflexivity|].
  f_equal. apply IH. lia.
Qed.

Lemma combine_repeat (l : list A) (b : B) :
  combine l (repeat b (length l)) = map (fun a => (a, b)) l.
Proof. induction l as [|a l IH]; simpl; [reflexivity|]. now rewrite IH. Qed.
End Pairing.

(** A loop that extends two lists in step by what each item contributes
    ends with lists of equal length whose zip is the contributions in order. *)
Lemma process_rows_paired {A B X : Type}
    (step : list A * list B -> X -> list A * list B)
    (pairs : X -> list (A * B)) :
  (forall cs ss it, length cs = length ss ->
     length (fst (step (cs, ss) it)) = length (snd (step (cs, ss) it))
     /\ combine (fst (step (cs, ss) it)) (snd (step (cs, ss) it))
        = combine cs ss ++ pairs it) ->
  forall its cs ss, length cs = length ss ->
    length (fst (fold_left step its (cs, ss))) = length (snd (fold_left step its (cs, ss)))
    /\ combine (fst (fold_left step its (cs, ss))) (snd (fold_left step its (cs, ss)))
       = combine cs ss ++ flat_map pairs its.
Proof.
  intros Hstep its. induction its as [|it its IH]; intros cs ss Hlen; simpl.
  - split; [exact Hlen|]. now rewrite app_nil_r.
  - destruct (Hstep cs ss it Hlen) as [Hl Hc].
    destruct (step (cs, ss) it) as [cs' ss'] eqn:E. simpl in Hl, Hc.
    destruct (IH cs' ss' Hl) as [Hl' Hc']. split; [exact Hl'|].
    rewrite Hc', Hc. now rewrite <- app_assoc.
Qed.

Lemma scheme_row_step_paired (max_tokens : nat) cs ss it :
  length cs = length ss ->
  length (fst (CSVProcessor.scheme_row_step max_tokens (cs, ss) it))
    = length (snd (CSVProcessor.scheme_row_step max_tokens (cs, ss) it))
  /\ combine (fst (CSVProcessor.scheme_row_step max_tokens (cs, ss) it))
             (snd (CSVProcessor.scheme_row_step max_tokens (cs, ss) it))
     = combine cs ss ++ Views.scheme_row_pairs max_tokens it.
Proof.
  intros Hlen. destruct it as [idx row].
  unfold CSVProcessor.scheme_row_step, Views.scheme_row_pairs. simpl.
  destruct (PyStr.truthy (PyStr.strip (CSVProcessor._combine_scheme_columns row))); simpl.
  - split.
    + rewrite !length_app, repeat_length. lia.
    + rewrite combine_app_same by exact Hlen. now rewrite combine_repeat.
  - split; [exact Hlen|]. now rewrite app_nil_r.
Qed.

Lemma plain_row_step_paired (max_tokens : nat) (text_column : string) cs ss it :
  length cs = length ss ->
  length (fst (CSVProcessor.plain_row_step max_tokens text_column (cs, ss) it))
    = length (snd (CSVProcessor.plain_row_step max_tokens text_column (cs, ss) it))
  /\ combine (fst (CSVProcessor.plain_row_step max_tokens text_column (cs, ss) it))
             (snd (CSVProcessor.plain_row_step max_tokens text_column (cs, ss) it))
     = combine cs ss ++ Views.plain_row_pairs max_tokens text_column it.
Proof.
  intros Hlen. destruct it as [idx row].
  unfold CSVProcessor.plain_row_step, Views.plain_row_pairs. simpl.
  destruct (PyStr.truthy (PyStr.strip (Pandas.get_str row text_column "nan"))); simpl.
  - split.
    + rewrite !length_app, repeat_length. lia.
    + rewrite combine_app_same by exact Hlen. now rewrite combine_repeat.
  - split; [exact Hlen|]. now rewrite app_nil_r.
Qed.

(** C10. Whenever [process_csv] accepts its input (the file parses and it is
    scheme data or has the text column), it returns two lists of equal
    length, and zipping them gives, row after row, each chunk of the row
    with that row's source identifier. *)
Theorem process_csv_pairs_chunks_with_sources
    (max_tokens : nat) (fs : gmap string Pandas.CsvFile)
    (csv_path text_column : string) (df : Pandas.DataFrame) :
  fs !! csv_path = Some (Pandas.Parsed df) ->
  Views.accepted df text_column = true ->
  exists chunks sources,
    CSVProcessor.process_csv max_tokens fs csv_path text_column = Ok (chunks, sources)
    /\ length chunks = length sources
    /\ combine chunks sources
       = flat_map (Views.row_pairs max_tokens df text_column) (Pandas.iterrows df).
Proof.
  intros Hfile Hacc.
  unfold CSVProcessor.process_csv, Pandas.read_csv. rewrite Hfile.
  unfold CSVProcessor.process_frame, Views.row_pairs, Views.accepted in *.
  destruct (CSVProcessor.is_scheme_data df); simpl in Hacc.
  - destruct (process_rows_paired _ _ (fun cs ss it => scheme_row_step_paired max_tokens cs ss it)
                (Pandas.iterrows df) [] [] eq_refl) as [Hl Hc].
    destruct (fold_left _ _ _) as [chunks sources]. simpl in Hl, Hc.
    exists chunks, sources. auto.
  - rewrite Hacc. simpl.
    destruct (process_rows_paired _ _ (fun cs ss it => plain_row_step_paired max_tokens text_column cs ss it)
                (Pandas.iterrows df) [] [] eq_refl) as [Hl Hc].
    destruct (fold_left _ _ _) as [chunks sources]. simpl in Hl, Hc.
    exists chunks, sources. auto.
Qed.

Lemma process_csv_pairs_chunks_with_sources_witness :
  exists chunks sources,
    CSVProcessor.process_csv 500 Inputs.csv_files "updated_data.csv" "text"
      = Ok (chunks, sources)
    /\ length chunks = length sources
    /\ combine chunks sources
       = flat_map (Views.row_pairs 500 Inputs.three_schemes "text")
                  (Pandas.iterrows Inputs.three_schemes).
Proof.
  apply (process_csv_pairs_chunks_with_sources 500 Inputs.csv_files
           "updated_data.csv" "text" Inputs.three_schemes).
  - reflexivity.
  - reflexivity.
Defined.

(** ** The document normalizer *)

Lemma row_step_paired (series_str : nat -> string -> list Pandas.Cell -> string)
    ds ms it :
  length ds = length ms ->
  length (fst (SchemeDocumentProcessor.row_step series_str (ds, ms) it))
    = length (snd (SchemeDocumentProcessor.row_step series_str (ds, ms) it))
  /\ combine (fst (SchemeDocumentProcessor.row_step series_str (ds, ms) it))
             (snd (SchemeDocumentProcessor.row_step series_str (ds, ms) it))
     = combine ds ms ++ Views.row_output series_str it.
Proof.
  intros Hlen. destruct it as [idx row].
  unfold SchemeDocumentProcessor.row_step, Views.row_output. simpl.
  destruct (SchemeDocumentProcessor.document_text row) as [text|e]; simpl.
  - destruct (PyStr.truthy (PyStr.strip text)); simpl.
    + split.
      * rewrite !length_app. simpl. lia.
      * now rewrite combine_app_same by exact Hlen.
    + split; [exact Hlen|]. now rewrite app_nil_r.
  - split; [exact Hlen|]. now rewrite app_nil_r.
Qed.

Lemma create_documents_rows (series_str : nat -> string -> list Pandas.Cell -> string)
    (its : list (nat * Pandas.Row)) ds ms :
  length ds = length ms ->
  length (fst (fold_left (SchemeDocumentProcessor.row_step series_str) its (ds, ms)))
    = length (snd (fold_left (SchemeDocumentProcessor.row_step series_str) its (ds, ms)))
  /\ combine (fst (fold_left (SchemeDocumentProcessor.row_step series_str) its (ds, ms)))
             (snd (fold_left (SchemeDocumentProcessor.row_step series_str) its (ds, ms)))
     = combine ds ms ++ flat_map (Views.row_output series_str) its.
Proof.
  apply (process_rows_paired (SchemeDocumentProcessor.row_step series_str)
           (Views.row_output series_str)).
  intros cs ss it. apply row_step_paired.
Qed.

Lemma row_metadata_row_index (series_str : nat -> string -> list Pandas.Cell -> string)
    (idx : nat) (row : Pandas.Row) :
  SchemeDocumentProcessor.row_metadata series_str idx row !! "row_index"
    = Some (PInt (Z.of_nat idx)).
Proof.
  unfold SchemeDocumentProcessor.row_metadata.
  repeat (rewrite lookup_insert_ne by discriminate).
  apply lookup_insert_eq.
Qed.

Lemma row_output_indices (series_str : nat -> string -> list Pandas.Cell -> string)
    (its : list (nat * Pandas.Row)) :
  map (fun p : string * Metadata => snd p !! "row_index")
      (flat_map (Views.row_output series_str) its)
  = map (fun i => Some (PInt (Z.of_nat i)))
        (map fst (filter (fun it => Views.row_kept (snd it) = true) its)).
Proof.
  induction its as [|[idx row] its IH]; [reflexivity|].
  rewrite filter_cons. cbn [flat_map snd].
  destruct (decide (Views.row_kept row = true)) as [Hk|Hk];
    unfold Views.row_kept in Hk; unfold Views.row_output at 1; cbn [fst snd];
    destruct (SchemeDocumentProcessor.document_text row) as [text|e];
    try destruct (PyStr.truthy (PyStr.strip text));
    try discriminate; try congruence; simpl.
  - rewrite row_metadata_row_index. now rewrite IH.
  - exact IH.
  - exact IH.
Qed.

(** Rows that pass a test, taken from an enumeration that starts at [k],
    come with strictly increasing indices, none below [k]. *)
Lemma kept_indices_sorted {X Y : Type} (g : X -> Y) (P : nat * Y -> Prop)
    `{!forall it, Decision (P it)} (l : list X) (k : nat) :
  StronglySorted lt (map fst (filter P (imap (fun i x => ((k + i)%nat, g x)) l)))
  /\ Forall (fun i => (k <= i)%nat)
            (map fst (filter P (imap (fun i x => ((k + i)%nat, g x)) l))).
Proof.
  revert k. induction l as [|x l IH]; intros k.
  - simpl. split; constructor.
  - rewrite imap_cons.
    assert (E : imap ((fun i x0 => ((k + i)%nat, g x0)) ∘ S) l
                = imap (fun i x0 => ((S k + i)%nat, g x0)) l).
    { apply imap_ext. intros i y _. simpl. f_equal. lia. }
    rewrite E. destruct (IH (S k)) as [Hs Hf].
    rewrite filter_cons. destruct (decide (P ((k + 0)%nat, g x))); simpl.
    + split.
      * constructor; [exact Hs|].
        eapply Forall_impl; [exact Hf|]. intros i Hi. simpl in Hi. simpl. lia.
      * constructor; [lia|].
        eapply Forall_impl; [exact Hf|]. intros i Hi. simpl in Hi. simpl. lia.
    + split; [exact Hs|].
      eapply Forall_impl; [exact Hf|]. intros i Hi. simpl in Hi. simpl. lia.
Qed.

Lemma kept_rows_increasing (df : Pandas.DataFrame) :
  StronglySorted lt (Views.kept_rows df).
Proof.
  unfold Views.kept_rows, Pandas.iterrows.
  exact (proj1 (kept_indices_sorted
                  (fun cs => {| Pandas.labels := Pandas.columns df; Pandas.cells := cs |})
                  _ (Pandas.rows df) 0)).
Qed.

(** C7. Two runs of the normalizer on frames with the same columns and the
    same rows give the same documents and the same metadata, element by
    element ([create_documents], and likewise the chunks and sources of
    [process_csv]). The output follows the row order: documents and metadata
    are, row after row, what each kept row contributes, and the [row_index]
    entries of the metadata are those of the kept rows, strictly increasing. *)
Theorem normalizer_deterministic
    (series_str : nat -> string -> list Pandas.Cell -> string)
    (df1 df2 : Pandas.DataFrame) (max_tokens : nat) (text_column : string) :
  Pandas.columns df1 = Pandas.columns df2 ->
  Pandas.rows df1 = Pandas.rows df2 ->
  SchemeDocumentProcessor.create_documents series_str df1
    = SchemeDocumentProcessor.create_documents series_str df2
  /\ CSVProcessor.process_frame max_tokens df1 text_column
     = CSVProcessor.process_frame max_tokens df2 text_column
  /\ length (fst (SchemeDocumentProcessor.create_documents series_str df1))
     = length (snd (SchemeDocumentProcessor.create_documents series_str df1))
  /\ combine (fst (SchemeDocumentProcessor.create_documents series_str df1))
             (snd (SchemeDocumentProcessor.create_documents series_str df1))
     = flat_map (Views.row_output series_str) (Pandas.iterrows df1)
  /\ map (fun m : Metadata => m !! "row_index")
         (snd (SchemeDocumentProcessor.create_documents series_str df1))
     = map (fun i => Some (PInt (Z.of_nat i))) (Views.kept_rows df1)
  /\ StronglySorted lt (Views.kept_rows df1).
Proof.
  intros Hc Hr.
  assert (E : df1 = df2) by (destruct df1, df2; simpl in *; congruence).
  subst df2.
  destruct (create_documents_rows series_str (Pandas.iterrows df1) [] [] eq_refl)
    as [Hl Hcomb].
  fold (SchemeDocumentProcessor.create_documents series_str df1) in Hl, Hcomb.
  simpl in Hcomb.
  repeat split; try reflexivity; try assumption.
  - pose proof (combine_split _ _ Hl) as Hs.
    rewrite Hcomb in Hs.
    assert (Hsnd : snd (SchemeDocumentProcessor.create_documents series_str df1)
                   = map snd (flat_map (Views.row_output series_str)
                                (Pandas.iterrows df1))).
    { rewrite <- Hcomb. clear Hs Hcomb.
      revert Hl.
      generalize (fst (SchemeDocumentProcessor.create_documents series_str df1)).
      generalize (snd (SchemeDocumentProcessor.create_documents series_str df1)).
      intros ms ds. revert ms. induction ds as [|dd ds IH]; intros [|m ms] H;
        simpl in *; try discriminate; [reflexivity|].
      f_equal. apply IH. lia. }
    rewrite Hsnd, map_map. apply row_output_indices.
  - apply kept_rows_increasing.
Qed.

Lemma normalizer_deterministic_witness :
  SchemeDocumentProcessor.create_documents Inputs2.plain_series_str Inputs.three_schemes
    = SchemeDocumentProcessor.create_documents Inputs2.plain_series_str
        Inputs.three_schemes
  /\ CSVProcessor.process_frame 500 Inputs.three_schemes "text"
     = CSVProcessor.process_frame 500 Inputs.three_schemes "text"
  /\ length (fst (SchemeDocumentProcessor.create_documents Inputs2.plain_series_str
                    Inputs.three_schemes))
     = length (snd (SchemeDocumentProcessor.create_documents Inputs2.plain_series_str
                      Inputs.three_schemes))
  /\ combine (fst (SchemeDocumentProcessor.create_documents Inputs2.plain_series_str
                     Inputs.three_schemes))
             (snd (SchemeDocumentProcessor.create_documents Inputs2.plain_series_str
                     Inputs.three_schemes))
     = flat_map (Views.row_output Inputs2.plain_series_str)
         (Pandas.iterrows Inputs.three_schemes)
  /\ map (fun m : Metadata => m !! "row_index")
         (snd (SchemeDocumentProcessor.create_documents Inputs2.plain_series_str
                 Inputs.three_schemes))
     = map (fun i => Some (PInt (Z.of_nat i))) (Views.kept_rows Inputs.three_schemes)
  /\ StronglySorted lt (Views.kept_rows Inputs.three_schemes).
Proof.
  apply (normalizer_deterministic Inputs2.plain_series_str
           Inputs.three_schemes Inputs.three_schemes 500 "text").
  - reflexivity.
  - reflexivity.
Defined.

(** ** Persistence of the bundle *)

(** C4. Saving a service that holds an index succeeds when no write is
    interrupted, and loading the saved bundle into any service object gives
    back the saved state: the same index (hence the same vector count), the
    same documents, the same metadata, the same embedding model and
    dimension. The directory holds what was written, as written. *)
Theorem save_then_load_roundtrip
    (s s0 : RAGSystem.t) (disk : RAGSystem.Disk) (ix : Faiss.IndexFlatIP) :
  RAGSystem.index s = Some ix ->
  exists disk',
    RAGSystem.save_index s disk NoFault = (true, disk')
    /\ RAGSystem.load_index s0 disk' = (true, s)
    /\ Runs.rag_vector_count (snd (RAGSystem.load_index s0 disk')) = Faiss.ntotal ix
    /\ RAGSystem.documents (snd (RAGSystem.load_index s0 disk')) = RAGSystem.documents s
    /\ RAGSystem.metadata (snd (RAGSystem.load_index s0 disk')) = RAGSystem.metadata s
    /\ RAGSystem.embedding_model (snd (RAGSystem.load_index s0 disk'))
       = RAGSystem.embedding_model s
    /\ RAGSystem.dimension (snd (RAGSystem.load_index s0 disk')) = RAGSystem.dimension s.
Proof.
  intros Hix. exists (Views.bundle_of s ix).
  assert (Hsave : RAGSystem.save_index s disk NoFault = (true, Views.bundle_of s ix)).
  { unfold RAGSystem.save_index. rewrite Hix. reflexivity. }
  assert (Hload : RAGSystem.load_index s0 (Views.bundle_of s ix) = (true, s)).
  { destruct s as [model dim oix meta docs]. simpl in Hix. subst oix. reflexivity. }
  rewrite Hload. simpl. unfold Runs.rag_vector_count. rewrite Hix.
  repeat split; auto.
Qed.

Lemma save_then_load_roundtrip_witness :
  exists disk',
    RAGSystem.save_index Inputs.rag3 Inputs.old_bundle NoFault = (true, disk')
    /\ RAGSystem.load_index Inputs.fresh disk' = (true, Inputs.rag3)
    /\ Runs.rag_vector_count (snd (RAGSystem.load_index Inputs.fresh disk')) = 3%nat
    /\ RAGSystem.documents (snd (RAGSystem.load_index Inputs.fresh disk'))
       = RAGSystem.documents Inputs.rag3
    /\ RAGSystem.metadata (snd (RAGSystem.load_index Inputs.fresh disk'))
       = RAGSystem.metadata Inputs.rag3
    /\ RAGSystem.embedding_model (snd (RAGSystem.load_index Inputs.fresh disk'))
       = RAGSystem.embedding_model Inputs.rag3
    /\ RAGSystem.dimension (snd (RAGSystem.load_index Inputs.fresh disk'))
       = RAGSystem.dimension Inputs.rag3.
Proof.
  apply (save_then_load_roundtrip Inputs.rag3 Inputs.fresh Inputs.old_bundle
           {| Faiss.d := 2; Faiss.xb := Inputs.three_vectors |}).
  reflexivity.
Defined.

(** A save that returns [True] under any behaviour of the environment has
    written the whole bundle. *)
Lemma save_success_writes_bundle (s : RAGSystem.t) (disk disk' : RAGSystem.Disk)
    (fault : io_fault) :
  RAGSystem.save_index s disk fault = (true, disk') ->
  exists ix, RAGSystem.index s = Some ix /\ disk' = Views.bundle_of s ix.
Proof.
  unfold RAGSystem.save_index. destruct (RAGSystem.index s) as [ix|]; [|discriminate].
  intros H. exists ix. split; [reflexivity|].
  destruct fault as [|n torn]; [simpl in H; injection H as <-; reflexivity|].
  destruct n as [|[|[|[|n]]]]; simpl in H; try discriminate;
    injection H as <-; reflexivity.
Qed.

(** Outside the condition of C5, with all four artifacts present but a
    documents file that cannot be unpickled, [load_index] returns [False]
    after it has replaced the index and the metadata. *)
Lemma load_failure_keeps_partial_state :
  fst (RAGSystem.load_index Inputs.fresh Inputs.damaged_bundle) = false
  /\ RAGSystem.index (snd (RAGSystem.load_index Inputs.fresh Inputs.damaged_bundle))
     <> RAGSystem.index Inputs.fresh
  /\ RAGSystem.metadata (snd (RAGSystem.load_index Inputs.fresh Inputs.damaged_bundle))
     <> RAGSystem.metadata Inputs.fresh.
Proof. repeat split; simpl; discriminate. Qed.

Lemma load_failure_keeps_documents (s : RAGSystem.t) (disk : RAGSystem.Disk) :
  fst (RAGSystem.load_index s disk) = false ->
  RAGSystem.documents (snd (RAGSystem.load_index s disk)) = RAGSystem.documents s.
Proof.
  unfold RAGSystem.load_index.
  destruct (RAGSystem.all_exist disk); simpl; [|reflexivity].
  destruct (RAGSystem.config_pkl disk) as [[c|]|]; simpl; try reflexivity.
  destruct (RAGSystem.index_faiss disk) as [[i|]|]; simpl; try reflexivity.
  destruct (RAGSystem.metadata_pkl disk) as [[m|]|]; simpl; try reflexivity.
  destruct (RAGSystem.documents_pkl disk) as [[dd|]|]; simpl; try reflexivity.
  discriminate.
Qed.

(** C5. When one of the persisted artifacts is absent, [load_index] returns
    [False] (it is a total function: nothing is raised) and leaves the
    service exactly as it was, index, documents and metadata included; this
    holds for the four artifacts of [RAGSystem] and for the three of
    [FAISSHandler]. Whatever makes a load fail, the documents of [RAGSystem]
    are unchanged. *)
Theorem load_missing_artifact_reports_no_index
    (s : RAGSystem.t) (disk other : RAGSystem.Disk)
    (h : FAISSHandler.t) (hdisk : FAISSHandler.Disk) :
  Views.artifact_missing disk ->
  Views.handler_artifact_missing hdisk ->
  RAGSystem.load_index s disk = (false, s)
  /\ FAISSHandler.load_index h hdisk = (false, h)
  /\ (if fst (RAGSystem.load_index s other)
      then True
      else RAGSystem.documents (snd (RAGSystem.load_index s other))
           = RAGSystem.documents s).
Proof.
  intros Hm Hh. split; [|split].
  - unfold RAGSystem.load_index, RAGSystem.all_exist.
    destruct Hm as [E|[E|[E|E]]]; rewrite E; simpl;
      rewrite ?andb_false_r; reflexivity.
  - unfold FAISSHandler.load_index.
    destruct Hh as [E|[E|E]]; rewrite E; simpl; rewrite ?andb_false_r; reflexivity.
  - destruct (fst (RAGSystem.load_index s other)) eqn:E; [exact I|].
    now apply load_failure_keeps_documents.
Qed.

Lemma load_missing_artifact_reports_no_index_witness :
  RAGSystem.load_index Inputs.rag3 Inputs2.bundle_without_config = (false, Inputs.rag3)
  /\ FAISSHandler.load_index Inputs.handler3 Inputs2.handler_bundle_without_dimension
     = (false, Inputs.handler3)
  /\ (if fst (RAGSystem.load_index Inputs.rag3 Inputs.damaged_bundle)
      then True
      else RAGSystem.documents (snd (RAGSystem.load_index Inputs.rag3 Inputs.damaged_bundle))
           = RAGSystem.documents Inputs.rag3).
Proof.
  apply (load_missing_artifact_reports_no_index Inputs.rag3
           Inputs2.bundle_without_config Inputs.damaged_bundle Inputs.handler3
           Inputs2.handler_bundle_without_dimension).
  - right. right. right. reflexivity.
  - right. right. reflexivity.
Defined.

(** C6, as the claim puts it, fails: a save over a complete bundle whose
    second write raises has already replaced [index.faiss]; the directory
    then holds the new index next to the old metadata, documents and config,
    which is neither the previous bundle nor the new one. *)
Lemma interrupted_save_mixes_bundles :
  RAGSystem.save_index Inputs.rag3 Inputs.old_bundle (FaultAt 1 false)
  = (false,
     {| RAGSystem.index_faiss := Some (Readable Inputs.index3);
        RAGSystem.metadata_pkl := RAGSystem.metadata_pkl Inputs.old_bundle;
        RAGSystem.documents_pkl := RAGSystem.documents_pkl Inputs.old_bundle;
        RAGSystem.config_pkl := RAGSystem.config_pkl Inputs.old_bundle |})
  /\ snd (RAGSystem.save_index Inputs.rag3 Inputs.old_bundle (FaultAt 1 false))
     <> Inputs.old_bundle
  /\ snd (RAGSystem.save_index Inputs.rag3 Inputs.old_bundle (FaultAt 1 false))
     <> Views.bundle_of Inputs.rag3 Inputs.index3.
Proof.
  split; [reflexivity|]. split; intros H.
  - apply (f_equal RAGSystem.index_faiss) in H. vm_compute in H. discriminate.
  - apply (f_equal RAGSystem.documents_pkl) in H. vm_compute in H. discriminate.
Qed.

(** C6, amended. Without an index, a save writes nothing and returns [False].
    With one, an uninterrupted save writes all four artifacts and returns
    [True]; a save whose write number [n] raises returns [False] and leaves
    the artifacts written before it (in the order index, metadata, documents,
    config) replaced, the target of the failing write torn or as it was, and
    the later artifacts as they were. *)
Theorem save_overwrites_in_place
    (s : RAGSystem.t) (disk : RAGSystem.Disk) (torn : bool) :
  match RAGSystem.index s with
  | None => forall fault, RAGSystem.save_index s disk fault = (false, disk)
  | Some ix =>
      RAGSystem.save_index s disk NoFault = (true, Views.bundle_of s ix)
      /\ RAGSystem.save_index s disk (FaultAt 0 torn)
         = (false,
            {| RAGSystem.index_faiss :=
                 Views.left_by_fault torn (RAGSystem.index_faiss disk);
               RAGSystem.metadata_pkl := RAGSystem.metadata_pkl disk;
               RAGSystem.documents_pkl := RAGSystem.documents_pkl disk;
               RAGSystem.config_pkl := RAGSystem.config_pkl disk |})
      /\ RAGSystem.save_index s disk (FaultAt 1 torn)
         = (false,
            {| RAGSystem.index_faiss := Some (Readable ix);
               RAGSystem.metadata_pkl :=
                 Views.left_by_fault torn (RAGSystem.metadata_pkl disk);
               RAGSystem.documents_pkl := RAGSystem.documents_pkl disk;
               RAGSystem.config_pkl := RAGSystem.config_pkl disk |})
      /\ RAGSystem.save_index s disk (FaultAt 2 torn)
         = (false,
            {| RAGSystem.index_faiss := Some (Readable ix);
               RAGSystem.metadata_pkl := Some (Readable (RAGSystem.metadata s));
               RAGSystem.documents_pkl :=
                 Views.left_by_fault torn (RAGSystem.documents_pkl disk);
               RAGSystem.config_pkl := RAGSystem.config_pkl disk |})
      /\ RAGSystem.save_index s disk (FaultAt 3 torn)
         = (false,
            {| RAGSystem.index_faiss := Some (Readable ix);
               RAGSystem.metadata_pkl := Some (Readable (RAGSystem.metadata s));
               RAGSystem.documents_pkl := Some (Readable (RAGSystem.documents s));
               RAGSystem.config_pkl :=
                 Views.left_by_fault torn (RAGSystem.config_pkl disk) |})
  end.
Proof.
  destruct (RAGSystem.index s) as [ix|] eqn:Hix.
  - unfold RAGSystem.save_index. rewrite Hix.
    destruct torn; repeat split; reflexivity.
  - intros fault. unfold RAGSystem.save_index. now rewrite Hix.
Qed.

(** ** Ingest without rebuild *)

(** C9, as the claim puts it, fails: with an index in place and
    [force_rebuild] false, a request that names a missing CSV path is
    answered with a 404 error, not with the current statistics. *)
Lemma ingest_missing_csv_is_rejected :
  RAGSystem.index (Main.rag_system Inputs.world3) = Some Inputs.index3
  /\ Main.force_rebuild Inputs.ingest_missing = false
  /\ Main.ingest_csv Inputs.fsqrt Inputs.unit_provider
       Inputs.ingest_missing NoFault Inputs.world3
     = (Main.HTTPException 404 "CSV file not found: missing.csv", Inputs.world3).
Proof. repeat split. Qed.

(** C9, amended. When an index exists and [force_rebuild] is false, ingest
    leaves the service, the bundle on disk and the files untouched. If the
    CSV path exists the response reports the current vector count as
    [documents_processed] and the current index statistics; if it does not,
    the request is rejected with status 404 before the index is looked at. *)
Theorem ingest_gate_is_noop
    (fsqrt : Q -> Q) (feature_extraction : list string -> result (list Faiss.vector))
    (request : Main.IngestRequest) (fault : io_fault) (w : Main.World)
    (ix : Faiss.IndexFlatIP) :
  RAGSystem.index (Main.rag_system w) = Some ix ->
  Main.force_rebuild request = false ->
  Main.ingest_csv fsqrt feature_extraction request fault w
  = if Pandas.exists_ (Main.files w) (Main.csv_path request)
    then (Main.Respond (Views.already_built (Main.rag_system w) ix), w)
    else (Main.HTTPException 404 ("CSV file not found: " +:+ Main.csv_path request), w).
Proof.
  intros Hix Hforce. unfold Main.ingest_csv.
  destruct (Pandas.exists_ (Main.files w) (Main.csv_path request)); simpl.
  - rewrite Hforce, Hix. reflexivity.
  - reflexivity.
Qed.

Lemma ingest_gate_is_noop_witness :
  Main.ingest_csv Inputs.fsqrt Inputs.unit_provider
    Inputs.ingest_again NoFault Inputs.world3
  = (Main.Respond (Views.already_built Inputs.rag3 Inputs.index3), Inputs.world3).
Proof.
  apply (ingest_gate_is_noop Inputs.fsqrt Inputs.unit_provider
           Inputs.ingest_again NoFault Inputs.world3 Inputs.index3).
  - reflexivity.
  - reflexivity.
Defined.

(** ** Search: what the index returns *)

Section FaissSearch.
Import Faiss.

Lemma insert_desc_length (x : Q * Z) (l : list (Q * Z)) :
  length (insert_desc x l) = S (length l).
Proof.
  induction l as [|y l IH]; simpl; [reflexivity|].
  destruct (Qle_bool (fst y) (fst x)); simpl; [reflexivity|]. now rewrite IH.
Qed.

Lemma insert_desc_Forall (P : Q * Z -> Prop) (x : Q * Z) (l : list (Q * Z)) :
  P x -> Forall P l -> Forall P (insert_desc x l).
Proof.
  intros Hx Hl. induction Hl as [|y l Hy Hl IH]; simpl.
  - constructor; [exact Hx|constructor].
  - destruct (Qle_bool (fst y) (fst x)).
    + constructor; [exact Hx|]. constructor; assumption.
    + constructor; assumption.
Qed.

Lemma removelast_Forall {X : Type} (P : X -> Prop) (l : list X) :
  Forall P l -> Forall P (removelast l).
Proof.
  intros H. rewrite removelast_firstn_len. now apply Forall_take.
Qed.

Lemma removelast_length_cons {X : Type} (x : X) (l : list X) :
  length (removelast (x :: l)) = length l.
Proof.
  rewrite removelast_firstn_len, length_take. simpl. lia.
Qed.

(** The heap keeps its size. *)
Lemma offer_length (heap : list (Q * Z)) (x : Q * Z) :
  length (offer heap x) = length heap.
Proof.
  unfold offer. destruct heap as [|y heap]; [reflexivity|].
  destruct (Qle_bool _ _); [reflexivity|].
  now rewrite insert_desc_length, removelast_length_cons.
Qed.

Lemma offer_Forall (P : Q * Z -> Prop) (heap : list (Q * Z)) (x : Q * Z) :
  P x -> Forall P heap -> Forall P (offer heap x).
Proof.
  intros Hx Hh. unfold offer. destruct heap as [|y heap]; [constructor|].
  destruct (Qle_bool _ _); [exact Hh|].
  now apply insert_desc_Forall, removelast_Forall.
Qed.

Lemma offers_length (l heap : list (Q * Z)) :
  length (fold_left offer l heap) = length heap.
Proof.
  revert heap. induction l as [|x l IH]; intros heap; simpl; [reflexivity|].
  now rewrite IH, offer_length.
Qed.

Lemma offers_Forall (P : Q * Z -> Prop) (l heap : list (Q * Z)) :
  Forall P l -> Forall P heap -> Forall P (fold_left offer l heap).
Proof.
  intros Hl. revert heap. induction Hl as [|x l Hx Hl IH]; intros heap Hh; simpl.
  - exact Hh.
  - now apply IH, offer_Forall.
Qed.

(** A vector that scores above an empty slot goes in front of the empty
    slots. *)
Lemma insert_desc_before_empty (x : Q * Z) (filled : list (Q * Z)) (j : nat) :
  taken x ->
  exists filled',
    insert_desc x (filled ++ repeat no_hit j) = filled' ++ repeat no_hit j
    /\ length filled' = S (length filled)
    /\ forall P : Q * Z -> Prop, P x -> Forall P filled -> Forall P filled'.
Proof.
  intros Hx. induction filled as [|y filled IH]; simpl.
  - exists [x]. split; [|split].
    + destruct j as [|j]; simpl; [reflexivity|].
      assert (E : Qle_bool neg_flt_max (fst x) = true).
      { apply Qle_bool_iff, Qlt_le_weak, Hx. }
      now rewrite E.
    + reflexivity.
    + intros P HP _. constructor; [exact HP|constructor].
  - destruct (Qle_bool (fst y) (fst x)).
    + exists (x :: y :: filled). split; [reflexivity|]. split; [reflexivity|].
      intros P HP Hf. constructor; assumption.
    + destruct IH as (filled' & E & Hlen & Hall).
      exists (y :: filled'). split; [simpl; now rewrite E|].
      split; [simpl; now rewrite Hlen|].
      intros P HP Hf. apply Forall_cons_iff in Hf. destruct Hf as [Hy Hf].
      constructor; [exact Hy|]. now apply Hall.
Qed.

Lemma offer_nonempty (heap : list (Q * Z)) (x : Q * Z) :
  heap <> [] ->
  offer heap x
  = if Qle_bool (fst x) (fst (List.last heap no_hit)) then heap
    else insert_desc x (removelast heap).
Proof. destruct heap; [congruence|reflexivity]. Qed.

Lemma last_Forall {X : Type} (P : X -> Prop) (l : list X) (dflt : X) :
  l <> [] -> Forall P l -> P (List.last l dflt).
Proof.
  intros Hne Hl. rewrite (app_removelast_last dflt Hne) in Hl.
  apply Forall_app in Hl. destruct Hl as [_ Hl]. now apply Forall_inv in Hl.
Qed.

(** One offer to a heap of filled slots followed by [j] empty ones: the shape
    stays, at most one empty slot is used, and exactly one when there is one
    and the vector scores above it. *)
Lemma offer_shape (x : Q * Z) (filled : list (Q * Z)) (j : nat) :
  Forall taken filled ->
  exists filled' j',
    offer (filled ++ repeat no_hit j) x = filled' ++ repeat no_hit j'
    /\ Forall taken filled'
    /\ (length filled' + j' = length filled + j)%nat
    /\ (j - 1 <= j' <= j)%nat
    /\ (taken x -> j' = (j - 1)%nat)
    /\ forall P : Q * Z -> Prop, P x -> Forall P filled -> Forall P filled'.
Proof.
  intros Hf. destruct j as [|j].
  - cbn [repeat]. rewrite app_nil_r. destruct filled as [|y filled].
    + exists [], 0%nat. repeat split; try constructor; try lia; auto.
    + rewrite offer_nonempty by discriminate.
      destruct (Qle_bool (fst x) (fst (List.last (y :: filled) no_hit))) eqn:E.
      * exists (y :: filled), 0%nat. rewrite app_nil_r.
        repeat split; try assumption; try lia; auto.
      * exists (insert_desc x (removelast (y :: filled))), 0%nat. rewrite app_nil_r.
        assert (Hx : taken x).
        { unfold taken. eapply Qlt_trans.
          - apply (last_Forall taken (y :: filled) no_hit); [discriminate|exact Hf].
          - apply Qnot_le_lt. intros Hle. apply Qle_bool_iff in Hle. congruence. }
        split; [reflexivity|]. split.
        { apply insert_desc_Forall; [exact Hx|now apply removelast_Forall]. }
        split; [rewrite insert_desc_length, removelast_length_cons; simpl; lia|].
        split; [lia|]. split; [lia|].
        intros P HP HPf. apply insert_desc_Forall; [exact HP|].
        now apply removelast_Forall.
  - rewrite offer_nonempty.
    2:{ intros E. apply app_eq_nil in E. destruct E as [_ E]. discriminate. }
    cbn [repeat]. rewrite repeat_cons, app_assoc, last_last, removelast_last.
    cbn [no_hit fst].
    destruct (Qle_bool (fst x) neg_flt_max) eqn:E.
    + exists filled, (S j). rewrite <- app_assoc, <- repeat_cons.
      repeat split; try assumption; try lia; auto.
      intros Hx. exfalso. apply Qle_bool_iff in E.
      exact (Qlt_not_le _ _ Hx E).
    + assert (Hx : taken x).
      { apply Qnot_le_lt. intros Hle. apply Qle_bool_iff in Hle. congruence. }
      destruct (insert_desc_before_empty x filled j Hx) as (filled' & Ei & Hlen & Hall).
      exists filled', j. rewrite Ei.
      split; [reflexivity|]. split; [now apply Hall|].
      split; [lia|]. split; [lia|]. split; [lia|]. exact Hall.
Qed.

(** The heap after all offers: filled slots, then the empty ones that are
    left; enough vectors that score above an empty slot leave none. *)
Lemma offers_shape (l filled : list (Q * Z)) (j : nat) :
  Forall taken filled ->
  exists filled' j',
    fold_left offer l (filled ++ repeat no_hit j) = filled' ++ repeat no_hit j'
    /\ Forall taken filled'
    /\ (length filled' + j' = length filled + j)%nat
    /\ (j - length l <= j' <= j)%nat
    /\ (Forall taken l -> j' = (j - length l)%nat)
    /\ forall P : Q * Z -> Prop, Forall P l -> Forall P filled -> Forall P filled'.
Proof.
  revert filled j. induction l as [|x l IH]; intros filled j Hf.
  - exists filled, j. cbn [fold_left length].
    repeat split; try assumption; try lia. auto.
  - cbn [fold_left].
    destruct (offer_shape x filled j Hf) as (f1 & j1 & E1 & Hf1 & Hl1 & Hj1 & Ht1 & HP1).
    rewrite E1.
    destruct (IH f1 j1 Hf1) as (f2 & j2 & E2 & Hf2 & Hl2 & Hj2 & Ht2 & HP2).
    exists f2, j2. cbn [length].
    split; [exact E2|]. split; [exact Hf2|]. split; [lia|]. split; [lia|].
    split.
    + intros Hall. apply Forall_cons_iff in Hall. destruct Hall as [Hx Hall].
      rewrite (Ht2 Hall), (Ht1 Hx). lia.
    + intros P Hall HPf. apply Forall_cons_iff in Hall. destruct Hall as [Hx Hall].
      apply HP2; [exact Hall|]. now apply HP1.
Qed.

Lemma scored_in_range (ix : IndexFlatIP) (q : vector) :
  Forall (in_range (ntotal ix)) (scored ix q).
Proof.
  apply Forall_forall. intros hit Hin. unfold scored in Hin.
  apply elem_of_lookup_imap in Hin.
  destruct Hin as (i & v & -> & Hlook).
  apply lookup_lt_Some in Hlook.
  unfold in_range, ntotal. simpl. lia.
Qed.

Lemma scored_length (ix : IndexFlatIP) (q : vector) :
  length (scored ix q) = ntotal ix.
Proof. unfold scored, ntotal. apply length_imap. Qed.

(** What [search] returns for a query of the right width and [k >= 1]:
    [k] slots, first those that vectors took, each with the label of a
    stored vector, then the empty ones; at least [k - ntotal] are empty. *)
Lemma search_slots (ix : IndexFlatIP) (q : vector) (k : Z) :
  Z.of_nat (length q) = d ix -> (1 <= k)%Z ->
  exists filled j,
    Faiss.search ix q k = Ok (filled ++ repeat no_hit j)
    /\ Forall taken filled
    /\ Forall (in_range (ntotal ix)) filled
    /\ (length filled + j = Z.to_nat k)%nat
    /\ (Z.to_nat k - ntotal ix <= j)%nat
    /\ (Forall taken (scored ix q) -> j = (Z.to_nat k - ntotal ix)%nat).
Proof.
  intros Hd Hk. unfold Faiss.search.
  rewrite (proj2 (Z.eqb_eq _ _) Hd). cbn [negb].
  rewrite (proj2 (Z.ltb_lt 0 k)) by lia. cbn [negb].
  destruct (offers_shape (scored ix q) [] (Z.to_nat k) (List.Forall_nil _))
    as (filled & j & E & Hf & Hlen & Hj & Ht & HP).
  cbn [app length] in E, Hlen. rewrite scored_length in Hj, Ht.
  exists filled, j. rewrite E.
  split; [reflexivity|]. split; [exact Hf|].
  split; [apply HP; [apply scored_in_range|constructor]|].
  split; [lia|]. split; [lia|exact Ht].
Qed.

(** Whatever [search] returns has [k] slots, each labelled [-1] or with a
    stored position. *)
Lemma search_ok_inv (ix : IndexFlatIP) (q : vector) (k : Z) (hits : list (Q * Z)) :
  Faiss.search ix q k = Ok hits ->
  (1 <= k)%Z
  /\ length hits = Z.to_nat k
  /\ Forall (fun hit => (-1 <= snd hit < Z.of_nat (ntotal ix))%Z) hits.
Proof.
  unfold Faiss.search.
  destruct (negb (Z.of_nat (length q) =? d ix)%Z); [discriminate|].
  destruct (Z.ltb_spec 0 k) as [Hk|]; [|discriminate].
  cbn [negb]. intros H. injection H as <-.
  split; [lia|]. split.
  - now rewrite offers_length, repeat_length.
  - apply offers_Forall.
    + eapply Forall_impl; [apply scored_in_range|].
      intros hit Hr. unfold in_range in Hr. simpl. lia.
    + apply Forall_forall. intros hit Hin. rewrite list_elem_of_In in Hin.
      apply repeat_spec in Hin. subst hit. simpl. lia.
Qed.

Lemma renorm_L2_length (fsqrt : Q -> Q) (v : vector) :
  length (renorm_L2 fsqrt v) = length v.
Proof.
  unfold renorm_L2. destruct (Qle_bool (inner v v) 0); [reflexivity|].
  apply length_map.
Qed.

Lemma collect_map_ok {X Y : Type} (f : X -> result Y) (l : list X) :
  Forall (fun x => exists y, f x = Ok y) l ->
  exists r, collect (map f l) = Ok r /\ length r = length l
            /\ forall x y, In x l -> f x = Ok y -> In y r.
Proof.
  intros H. induction H as [|x l [y Hy] Hl (r & Hr & Hlen & Hin)]; simpl.
  - exists []. repeat split. intros x y [].
  - rewrite Hy, Hr. exists (y :: r). repeat split; [simpl; now rewrite Hlen|].
    intros x' y' [<-|Hx'] Hf.
    + left. congruence.
    + right. eauto.
Qed.

Lemma filter_keeps_all {X : Type} (P : X -> Prop) `{!forall x, Decision (P x)}
    (l : list X) :
  Forall P l -> filter P l = l.
Proof.
  intros Hall. induction Hall as [|x l Hx Hl IH]; [reflexivity|].
  rewrite filter_cons_True by exact Hx. now rewrite IH.
Qed.

Lemma py_index_in_range {X : Type} (l : list X) (i : Z) :
  (0 <= i < Z.of_nat (length l))%Z -> exists x, py_index l i = Some x.
Proof.
  intros Hi. unfold py_index. rewrite (proj2 (Z.leb_le 0 i)) by lia.
  destruct (l !! Z.to_nat i) as [x|] eqn:E; [eauto|].
  apply lookup_ge_None in E. lia.
Qed.

(** [l[-1]] is there as soon as the list is not empty. *)
Lemma py_index_last {X : Type} (l : list X) :
  (0 < length l)%nat -> exists x, py_index l (-1) = Some x.
Proof.
  intros Hl. unfold py_index. simpl.
  rewrite (proj2 (Z.leb_le (- Z.of_nat (length l)) (-1))) by lia.
  destruct (l !! Z.to_nat (Z.of_nat (length l) + -1)) as [x|] eqn:E; [eauto|].
  apply lookup_ge_None in E. lia.
Qed.
End FaissSearch.

Section SearchCounts.
Import Faiss.
Variable fsqrt : Q -> Q.

Lemma handler_attach_ok (h : FAISSHandler.t) (n : nat) (hit : Q * Z) :
  n = length (FAISSHandler.metadata h) -> (0 < n)%nat ->
  in_range n hit \/ hit = no_hit ->
  exists r, FAISSHandler.attach h hit = Ok r.
Proof.
  intros Hn Hpos [Hr| ->]; unfold FAISSHandler.attach.
  - destruct (py_index_in_range (FAISSHandler.metadata h) (snd hit)) as [x Hx].
    { unfold in_range in Hr. lia. }
    rewrite Hx. eauto.
  - destruct (py_index_last (FAISSHandler.metadata h)) as [x Hx]; [lia|].
    simpl. rewrite Hx. eauto.
Qed.

(** What an unclamped search does, slot by slot: the index returns [k]
    slots, of which at least [k - ntotal] are empty; all of them pass the
    guard, labels in range and the label [-1] of an empty slot alike, and
    each comes back attached to a text. *)
Lemma handler_search_slots
    (h : FAISSHandler.t) (ix : IndexFlatIP) (q : vector) (k : Z) :
  FAISSHandler.index h = Some ix ->
  Z.of_nat (length q) = d ix ->
  ntotal ix = length (FAISSHandler.metadata h) ->
  (0 < ntotal ix)%nat ->
  (1 <= k)%Z ->
  exists slots results,
    Faiss.search ix (renorm_L2 fsqrt q) k = Ok slots
    /\ length slots = Z.to_nat k
    /\ ((Z.of_nat (ntotal ix) < k)%Z -> In no_hit slots)
    /\ FAISSHandler.kept_hits h slots = slots
    /\ FAISSHandler.search fsqrt h q k = Ok results
    /\ length results = length slots
    /\ forall hit r, In hit slots -> FAISSHandler.attach h hit = Ok r -> In r results.
Proof.
  intros Hix Hd Hn Hpos Hk.
  destruct (search_slots ix (renorm_L2 fsqrt q) k) as (filled & j & Hs & _ & Hr & Hlen & Hj & _).
  { now rewrite renorm_L2_length. }
  { exact Hk. }
  set (slots := filled ++ repeat no_hit j) in *.
  assert (Hall : Forall (fun hit => in_range (ntotal ix) hit \/ hit = no_hit) slots).
  { apply Forall_app. split.
    - eapply Forall_impl; [exact Hr|]. intros hit Hh. now left.
    - apply Forall_forall. intros hit Hin. rewrite list_elem_of_In in Hin.
      apply repeat_spec in Hin. now right. }
  assert (Hkept : FAISSHandler.kept_hits h slots = slots).
  { unfold FAISSHandler.kept_hits. apply filter_keeps_all.
    eapply Forall_impl; [exact Hall|].
    intros hit [Hh| ->]; simpl; apply Z.ltb_lt.
    - unfold in_range in Hh. rewrite <- Hn. lia.
    - lia. }
  destruct (collect_map_ok (FAISSHandler.attach h) slots) as (r & Hcol & Hlr & Hin).
  { eapply Forall_impl; [exact Hall|].
    intros hit Hh. apply (handler_attach_ok h (ntotal ix)); auto. }
  exists slots, r. split; [exact Hs|].
  split; [subst slots; rewrite length_app, repeat_length; lia|].
  split.
  { intros Hbig. subst slots. apply in_or_app. right.
    destruct j as [|j]; [lia|]. now left. }
  split; [exact Hkept|]. split; [|split; [exact Hlr|exact Hin]].
  unfold FAISSHandler.search. rewrite Hix, Hs, Hkept. exact Hcol.
Qed.

(** C2. [FAISSHandler.search] passes [k] to the index unclamped: over a
    non-empty index with consistent stores and a query of the right width,
    it returns exactly [k] results for every [k >= 1], also when [k] exceeds
    the number of stored vectors (100 results, not 3, for [k = 100] over
    three entries). [RAGSystem.search] clamps ([rag_search_is_clamped]). *)
Theorem handler_search_returns_k_results
    (h : FAISSHandler.t) (ix : IndexFlatIP) (q : vector) (k : Z) :
  FAISSHandler.index h = Some ix ->
  Z.of_nat (length q) = d ix ->
  ntotal ix = length (FAISSHandler.metadata h) ->
  (0 < ntotal ix)%nat ->
  (1 <= k)%Z ->
  exists results,
    FAISSHandler.search fsqrt h q k = Ok results
    /\ length results = Z.to_nat k.
Proof.
  intros Hix Hd Hn Hpos Hk.
  destruct (handler_search_slots h ix q k Hix Hd Hn Hpos Hk)
    as (slots & r & _ & Hlen & _ & _ & Hr & Hlr & _).
  exists r. split; [exact Hr|]. now rewrite Hlr.
Qed.

(** C3. When [k] exceeds the number of stored vectors, [FAISSHandler.search]
    returns results that do not refer to a position in [[0, total_count)]:
    the unfilled slots carry label [-1], pass the guard
    [idx < len(self.metadata)], and come back paired with [metadata[-1]],
    the last text, under the lowest float as score. *)
Theorem handler_search_returns_negative_position
    (h : FAISSHandler.t) (ix : IndexFlatIP) (q : vector) (k : Z) :
  FAISSHandler.index h = Some ix ->
  Z.of_nat (length q) = d ix ->
  ntotal ix = length (FAISSHandler.metadata h) ->
  (0 < ntotal ix)%nat ->
  (Z.of_nat (ntotal ix) < k)%Z ->
  exists hits results last_text,
    Faiss.search ix (renorm_L2 fsqrt q) k = Ok hits
    /\ In no_hit (FAISSHandler.kept_hits h hits)
    /\ ~ in_range (ntotal ix) no_hit
    /\ py_index (FAISSHandler.metadata h) (-1) = Some last_text
    /\ FAISSHandler.search fsqrt h q k = Ok results
    /\ In (neg_flt_max, last_text) results.
Proof.
  intros Hix Hd Hn Hpos Hk.
  destruct (handler_search_slots h ix q k Hix Hd Hn Hpos)
    as (slots & r & Hs & _ & Hempty & Hkept & Hr & _ & Hall); [lia|].
  destruct (py_index_last (FAISSHandler.metadata h)) as [x Hx]; [lia|].
  specialize (Hempty Hk).
  exists slots, r, x.
  split; [exact Hs|]. split; [rewrite Hkept; exact Hempty|].
  split; [unfold in_range; simpl; lia|].
  split; [exact Hx|]. split; [exact Hr|].
  apply (Hall no_hit); [exact Hempty|].
  unfold FAISSHandler.attach. simpl. now rewrite Hx.
Qed.
End SearchCounts.

Lemma handler_search_returns_k_results_witness :
  exists results,
    FAISSHandler.search Inputs.fsqrt Inputs.handler3 [1%Q; 0%Q] 100 = Ok results
    /\ length results = 100%nat.
Proof.
  apply (handler_search_returns_k_results Inputs.fsqrt Inputs.handler3 Inputs.index3
           [1%Q; 0%Q] 100).
  - reflexivity.
  - reflexivity.
  - reflexivity.
  - vm_compute. lia.
  - lia.
Defined.

Lemma handler_search_returns_negative_position_witness :
  exists hits results last_text,
    Faiss.search Inputs.index3 (Faiss.renorm_L2 Inputs.fsqrt [1%Q; 0%Q]) 100 = Ok hits
    /\ In Faiss.no_hit (FAISSHandler.kept_hits Inputs.handler3 hits)
    /\ ~ Faiss.in_range 3 Faiss.no_hit
    /\ py_index Inputs.three_texts (-1) = Some last_text
    /\ FAISSHandler.search Inputs.fsqrt Inputs.handler3 [1%Q; 0%Q] 100 = Ok results
    /\ In (Faiss.neg_flt_max, last_text) results.
Proof.
  apply (handler_search_returns_negative_position Inputs.fsqrt Inputs.handler3
           Inputs.index3 [1%Q; 0%Q] 100).
  - reflexivity.
  - reflexivity.
  - reflexivity.
  - vm_compute. lia.
  - vm_compute. reflexivity.
Defined.

(** ** The clamped sibling: [RAGSystem.search] *)

Section RagSearch.
Import Faiss.
Variable fsqrt : Q -> Q.
Variable feature_extraction_text : string -> result vector.

(** The slots of a clamped search: [min k total_count] of them. *)
Lemma search_clamped_length (ix : IndexFlatIP) (q : vector) (k : Z)
    (hits : list (Q * Z)) :
  Faiss.search ix q (Z.min k (Z.of_nat (ntotal ix))) = Ok hits ->
  length hits = Nat.min (Z.to_nat k) (ntotal ix)
  /\ Forall (fun hit => (-1 <= snd hit < Z.of_nat (ntotal ix))%Z) hits.
Proof.
  intros H. apply search_ok_inv in H. destruct H as (Hk & Hlen & Hall).
  split; [lia|exact Hall].
Qed.

(** Over a non-empty index with consistent stores, [RAGSystem.search]
    returns [min k total_count] results for every [k >= 1]. *)
Lemma rag_search_is_clamped (s : RAGSystem.t) (ix : IndexFlatIP)
    (query : string) (q : vector) (k : Z) :
  RAGSystem.index s = Some ix ->
  feature_extraction_text query = Ok q ->
  Z.of_nat (length q) = d ix ->
  ntotal ix = length (RAGSystem.documents s) ->
  length (RAGSystem.documents s) = length (RAGSystem.metadata s) ->
  (0 < ntotal ix)%nat ->
  (1 <= k)%Z ->
  exists results,
    RAGSystem.search fsqrt feature_extraction_text s query k = Ok results
    /\ length results = Nat.min (Z.to_nat k) (ntotal ix).
Proof.
  intros Hix Hq Hd Hdocs Hmeta Hpos Hk.
  unfold RAGSystem.search, RAGSystem.create_embedding. rewrite Hix, Hq.
  destruct (search_slots ix (renorm_L2 fsqrt q) (Z.min k (Z.of_nat (ntotal ix))))
    as (filled & j & Hs & _ & Hr & Hlen & _ & _).
  { now rewrite renorm_L2_length. }
  { lia. }
  rewrite Hs. set (slots := filled ++ repeat no_hit j) in *.
  assert (Hall : Forall (fun hit => in_range (ntotal ix) hit \/ hit = no_hit) slots).
  { apply Forall_app. split.
    - eapply Forall_impl; [exact Hr|]. intros hit Hh. now left.
    - apply Forall_forall. intros hit Hin. rewrite list_elem_of_In in Hin.
      apply repeat_spec in Hin. now right. }
  assert (Hkept : RAGSystem.kept_hits s slots = slots).
  { unfold RAGSystem.kept_hits. apply filter_keeps_all.
    eapply Forall_impl; [exact Hall|].
    intros hit [Hh| ->]; simpl; apply andb_true_iff; split; apply Z.ltb_lt;
      unfold in_range in *; lia. }
  rewrite Hkept.
  destruct (collect_map_ok (RAGSystem.format_result s) slots) as (r & Hcol & Hl & _).
  { eapply Forall_impl; [exact Hall|].
    intros hit [Hh| ->]; unfold RAGSystem.format_result.
    - unfold in_range in Hh.
      destruct (py_index_in_range (RAGSystem.metadata s) (snd hit)) as [m Hm]; [lia|].
      destruct (py_index_in_range (RAGSystem.documents s) (snd hit)) as [dd Hdd]; [lia|].
      rewrite Hm, Hdd. eauto.
    - destruct (py_index_last (RAGSystem.metadata s)) as [m Hm]; [lia|].
      destruct (py_index_last (RAGSystem.documents s)) as [dd Hdd]; [lia|].
      simpl. rewrite Hm, Hdd. eauto. }
  rewrite Hcol. exists r. split; [reflexivity|].
  rewrite Hl. subst slots. rewrite length_app, repeat_length. lia.
Qed.

(** Without an index both searches raise before any provider call. *)
Lemma search_without_index_raises (s : RAGSystem.t) (h : FAISSHandler.t)
    (query : string) (q : vector) (k : Z) :
  RAGSystem.index s = None -> FAISSHandler.index h = None ->
  RAGSystem.search fsqrt feature_extraction_text s query k
  = Raise (Exception
             "Search failed: Index not loaded. Please load or build an index first.")
  /\ FAISSHandler.search fsqrt h q k = Raise (ValueError "Index not initialized.").
Proof.
  intros Hs Hh. unfold RAGSystem.search, FAISSHandler.search.
  now rewrite Hs, Hh.
Qed.
End RagSearch.

(** ** The length invariant of the parallel stores *)

(** C1, as the claim puts it, fails. [add_embeddings] checks nothing about
    the lengths of its two arguments: two vectors added with one text leave
    an index of two vectors over one stored text. A rebuild over an older
    bundle whose save is interrupted after [index.faiss] leaves three vectors
    on disk next to one document, and the next load brings them into memory.
    A load that stops at an unreadable documents file leaves the loaded index
    and metadata without documents. *)
Lemma lockstep_can_break :
  ~ Runs.handler_lockstep
      (fst (Runs.handler_run Inputs.fsqrt Inputs.uneven_add
              (FAISSHandler.init, Inputs.no_handler_bundle)))
  /\ ~ Runs.rag_lockstep
        (fst (Runs.rag_run Inputs.fsqrt Inputs.unit_provider Inputs.interrupted_rebuild
                (Inputs.fresh, Inputs.old_bundle)))
  /\ ~ Runs.rag_lockstep
        (fst (Runs.rag_run Inputs.fsqrt Inputs.unit_provider [Runs.RLoad]
                (Inputs.fresh, Inputs.damaged_bundle))).
Proof.
  split; [|split].
  - unfold Runs.handler_lockstep. vm_compute. discriminate.
  - unfold Runs.rag_lockstep, Runs.rag_vector_count. vm_compute.
    intros [H _]. discriminate.
  - unfold Runs.rag_lockstep, Runs.rag_vector_count. vm_compute.
    intros [H _]. discriminate.
Qed.

Section Lockstep.
Import Faiss.
Variable fsqrt : Q -> Q.
Variable feature_extraction : list string -> result (list vector).
Hypothesis provider_answers_each : Runs.provider_ok feature_extraction.

Lemma batches_cover (fuel : nat) (texts : list string) :
  (length texts <= fuel)%nat ->
  concat (RAGSystem.batches_upto fuel texts) = texts.
Proof.
  revert texts. induction fuel as [|fuel IH]; intros texts Hlen.
  - destruct texts; [reflexivity|simpl in Hlen; lia].
  - destruct texts as [|t texts]; [reflexivity|].
    cbn [RAGSystem.batches_upto concat]. rewrite IH.
    + apply take_drop.
    + rewrite length_drop. unfold RAGSystem.batch_size. simpl in *. lia.
Qed.

Lemma embed_batches_length (bs : list (list string)) (acc out : list vector) :
  RAGSystem.embed_batches feature_extraction bs acc = Ok out ->
  length out = (length acc + length (concat bs))%nat.
Proof.
  revert acc. induction bs as [|b bs IH]; intros acc H; simpl in *.
  - injection H as <-. lia.
  - destruct (feature_extraction b) as [e|] eqn:E; [|discriminate].
    apply IH in H. rewrite H, !length_app.
    rewrite (provider_answers_each b e E). lia.
Qed.

Lemma create_embeddings_length (texts : list string) (out : list vector) :
  RAGSystem.create_embeddings feature_extraction texts = Ok out ->
  length out = length texts.
Proof.
  unfold RAGSystem.create_embeddings, RAGSystem.batches. intros H.
  apply embed_batches_length in H. rewrite batches_cover in H by lia.
  simpl in H. exact H.
Qed.

Lemma as_matrix_rows (embeddings rows : list vector) (width : nat) :
  as_matrix embeddings = Some (width, rows) -> rows = embeddings.
Proof.
  unfold as_matrix. destruct embeddings as [|r rs]; [discriminate|].
  destruct (forallb (fun v => Nat.eqb (length v) (length r)) rs); [|discriminate].
  congruence.
Qed.

Lemma add_count (ix ix' : IndexFlatIP) (width : nat) (rows : list vector) :
  add ix width (normalize_L2 fsqrt rows) = Ok ix' ->
  ntotal ix' = (ntotal ix + length rows)%nat.
Proof.
  unfold add. destruct (Z.of_nat width =? d ix)%Z; [|discriminate].
  intros H. injection H as <-. unfold ntotal, normalize_L2. simpl.
  rewrite length_app. now rewrite length_map.
Qed.

Lemma create_faiss_index_count (s : RAGSystem.t) (embeddings : list vector)
    (ix : IndexFlatIP) :
  RAGSystem.create_faiss_index fsqrt s embeddings = Ok ix ->
  ntotal ix = length embeddings.
Proof.
  unfold RAGSystem.create_faiss_index.
  destruct (as_matrix embeddings) as [[width rows]|] eqn:E; [|discriminate].
  apply as_matrix_rows in E. subst rows.
  destruct (add _ width _) as [ix'|] eqn:Ea; [|discriminate].
  intros H. injection H as <-. apply add_count in Ea. exact Ea.
Qed.

(** *** [RAGSystem] *)

Lemma rag_save_keeps_bundle_ok (s : RAGSystem.t) (disk : RAGSystem.Disk) :
  Runs.rag_lockstep s -> Runs.rag_bundle_ok disk ->
  Runs.rag_bundle_ok (snd (RAGSystem.save_index s disk NoFault)).
Proof.
  intros [Hv Hm] Hdisk. unfold RAGSystem.save_index.
  destruct (RAGSystem.index s) as [ix|] eqn:Hix; [|exact Hdisk].
  simpl. unfold Runs.rag_vector_count in Hv. rewrite Hix in Hv.
  split; [exact I|]. split; [exact I|].
  intros ix' m docs Hi Hme Hdo. simpl in *.
  injection Hi as <-. injection Hme as <-. injection Hdo as <-.
  split; assumption.
Qed.

Lemma rag_load_keeps_lockstep (s : RAGSystem.t) (disk : RAGSystem.Disk) :
  Runs.rag_lockstep s -> Runs.rag_bundle_ok disk ->
  Runs.rag_lockstep (snd (RAGSystem.load_index s disk)).
Proof.
  intros Hs (Hrm & Hrd & Hlen). unfold RAGSystem.load_index, RAGSystem.all_exist.
  destruct (RAGSystem.index_faiss disk) as [[ix|]|] eqn:Ei;
  destruct (RAGSystem.metadata_pkl disk) as [[m|]|] eqn:Em;
  destruct (RAGSystem.documents_pkl disk) as [[docs|]|] eqn:Ed;
  destruct (RAGSystem.config_pkl disk) as [[c|]|] eqn:Ec;
    simpl in *; try exact Hs; try contradiction.
  destruct (Hlen ix m docs eq_refl eq_refl eq_refl) as [H1 H2].
  split; simpl; assumption.
Qed.

Lemma rag_build_keeps_lockstep (s : RAGSystem.t) (disk : RAGSystem.Disk)
    (docs : list string) (meta : list Metadata) :
  Runs.rag_lockstep s -> Runs.rag_bundle_ok disk ->
  Runs.rag_lockstep
    (snd (fst (RAGSystem.build_index fsqrt feature_extraction s disk NoFault docs meta)))
  /\ Runs.rag_bundle_ok
       (snd (RAGSystem.build_index fsqrt feature_extraction s disk NoFault docs meta)).
Proof.
  intros Hs Hdisk. unfold RAGSystem.build_index.
  destruct docs as [|dd docs]; [split; assumption|].
  destruct meta as [|m meta]; [split; assumption|].
  destruct (Nat.eqb (length (dd :: docs)) (length (m :: meta))) eqn:El;
    simpl negb; cbv iota; [|split; assumption].
  apply Nat.eqb_eq in El.
  destruct (RAGSystem.create_embeddings feature_extraction (dd :: docs))
    as [embeddings|] eqn:Ee; [|split; assumption].
  destruct (RAGSystem.create_faiss_index fsqrt s embeddings) as [ix|] eqn:Ei;
    [|split; assumption].
  apply create_embeddings_length in Ee. apply create_faiss_index_count in Ei.
  assert (Hnew : Runs.rag_lockstep
            (RAGSystem.set_metadata
               (RAGSystem.set_documents (RAGSystem.set_index s ix) (dd :: docs))
               (m :: meta))).
  { split; unfold Runs.rag_vector_count; simpl in *; lia. }
  split; [exact Hnew|].
  cbn [snd fst]. now apply rag_save_keeps_bundle_ok.
Qed.

Lemma rag_step_keeps_lockstep (s : RAGSystem.t) (disk : RAGSystem.Disk)
    (op : Runs.rag_op) :
  Runs.rag_op_clean op ->
  Runs.rag_lockstep s -> Runs.rag_bundle_ok disk ->
  Runs.rag_lockstep (fst (Runs.rag_step fsqrt feature_extraction (s, disk) op))
  /\ Runs.rag_bundle_ok (snd (Runs.rag_step fsqrt feature_extraction (s, disk) op)).
Proof.
  intros Hop Hs Hdisk. destruct op as [docs meta fault|fault|]; simpl in *.
  - subst fault.
    destruct (rag_build_keeps_lockstep s disk docs meta Hs Hdisk) as [H1 H2].
    destruct (RAGSystem.build_index _ _ _ _ _ _ _) as [[ok s'] disk'].
    split; assumption.
  - subst fault. split; [exact Hs|]. now apply rag_save_keeps_bundle_ok.
  - split; [|exact Hdisk]. now apply rag_load_keeps_lockstep.
Qed.

Lemma rag_run_keeps_lockstep (ops : list Runs.rag_op)
    (s : RAGSystem.t) (disk : RAGSystem.Disk) :
  Forall Runs.rag_op_clean ops ->
  Runs.rag_lockstep s -> Runs.rag_bundle_ok disk ->
  Runs.rag_lockstep (fst (Runs.rag_run fsqrt feature_extraction ops (s, disk))).
Proof.
  intros Hops. revert s disk.
  induction Hops as [|op ops Hop Hops IH]; intros s disk Hs Hdisk; [exact Hs|].
  unfold Runs.rag_run. cbn [fold_left].
  destruct (rag_step_keeps_lockstep s disk op Hop Hs Hdisk) as [H1 H2].
  destruct (Runs.rag_step fsqrt feature_extraction (s, disk) op) as [s' disk'].
  now apply IH.
Qed.
End Lockstep.

Section HandlerLockstep.
Import Faiss.
Variable fsqrt : Q -> Q.

Lemma handler_add_keeps_lockstep (h h' : FAISSHandler.t)
    (embeddings : list vector) (texts : list string) :
  length embeddings = length texts ->
  Runs.handler_lockstep h ->
  FAISSHandler.add_embeddings fsqrt h embeddings texts = Ok h' ->
  Runs.handler_lockstep h'.
Proof.
  unfold Runs.handler_lockstep, FAISSHandler.get_index_size,
    FAISSHandler.add_embeddings.
  intros Hlen Hh. destruct (FAISSHandler.index h) as [ix|]; [|discriminate].
  destruct (as_matrix embeddings) as [[width rows]|] eqn:E; [|discriminate].
  apply as_matrix_rows in E. subst rows.
  destruct (add ix width _) as [ix'|] eqn:Ea; [|discriminate].
  intros H. injection H as <-. simpl.
  apply add_count in Ea. rewrite Ea, length_app. lia.
Qed.

Lemma handler_save_keeps_bundle_ok (h : FAISSHandler.t) (disk : FAISSHandler.Disk) :
  Runs.handler_lockstep h -> Runs.handler_bundle_ok disk ->
  Runs.handler_bundle_ok (snd (FAISSHandler.save_index h disk NoFault)).
Proof.
  intros Hh Hdisk. unfold FAISSHandler.save_index.
  unfold Runs.handler_lockstep, FAISSHandler.get_index_size in Hh.
  destruct (FAISSHandler.index h) as [ix|]; [|exact Hdisk].
  simpl. split; [exact I|].
  intros ix' texts Hi Ht. simpl in *.
  injection Hi as <-. injection Ht as <-. exact Hh.
Qed.

Lemma handler_load_keeps_lockstep (h : FAISSHandler.t) (disk : FAISSHandler.Disk) :
  Runs.handler_lockstep h -> Runs.handler_bundle_ok disk ->
  Runs.handler_lockstep (snd (FAISSHandler.load_index h disk)).
Proof.
  intros Hh (Hr & Hlen). unfold FAISSHandler.load_index.
  destruct (FAISSHandler.index_faiss disk) as [[ix|]|] eqn:Ei;
  destruct (FAISSHandler.metadata_pkl disk) as [[texts|]|] eqn:Em;
  destruct (FAISSHandler.dimension_txt disk) as [[dz|]|] eqn:Ed;
    simpl in *; try exact Hh; try contradiction.
  unfold Runs.handler_lockstep, FAISSHandler.get_index_size. simpl.
  now apply Hlen.
Qed.

Lemma handler_step_keeps_lockstep (h : FAISSHandler.t) (disk : FAISSHandler.Disk)
    (op : Runs.handler_op) :
  Runs.handler_op_clean op ->
  Runs.handler_lockstep h -> Runs.handler_bundle_ok disk ->
  Runs.handler_lockstep (fst (Runs.handler_step fsqrt (h, disk) op))
  /\ Runs.handler_bundle_ok (snd (Runs.handler_step fsqrt (h, disk) op)).
Proof.
  intros Hop Hh Hdisk. destruct op as [dim|embeddings texts|fault|]; simpl in *.
  - split; [reflexivity|exact Hdisk].
  - destruct (FAISSHandler.add_embeddings fsqrt h embeddings texts) as [h'|] eqn:E;
      simpl; split; try assumption.
    eapply handler_add_keeps_lockstep; eassumption.
  - subst fault. split; [exact Hh|]. now apply handler_save_keeps_bundle_ok.
  - split; [|exact Hdisk]. now apply handler_load_keeps_lockstep.
Qed.

Lemma handler_run_keeps_lockstep (ops : list Runs.handler_op)
    (h : FAISSHandler.t) (disk : FAISSHandler.Disk) :
  Forall Runs.handler_op_clean ops ->
  Runs.handler_lockstep h -> Runs.handler_bundle_ok disk ->
  Runs.handler_lockstep (fst (Runs.handler_run fsqrt ops (h, disk))).
Proof.
  intros Hops. revert h disk.
  induction Hops as [|op ops Hop Hops IH]; intros h disk Hh Hdisk; [exact Hh|].
  unfold Runs.handler_run. cbn [fold_left].
  destruct (handler_step_keeps_lockstep h disk op Hop Hh Hdisk) as [H1 H2].
  destruct (Runs.handler_step fsqrt (h, disk) op) as [h' disk'].
  now apply IH.
Qed.
End HandlerLockstep.

(** C1, amended. Start from a fresh service over a directory whose metadata
    and documents files can be read and whose artifacts agree in length. If
    the provider answers every batch with one vector per text, no save is
    interrupted, and every [add_embeddings] call passes as many vectors as
    texts, then after any sequence of build, add, create, save and load calls
    the number of vectors equals the number of documents equals the number of
    metadata entries ([RAGSystem]), and the number of vectors equals the
    number of stored texts ([FAISSHandler]). [build_index] itself rejects
    documents and metadata of different lengths. *)
Theorem stores_stay_in_lockstep
    (fsqrt : Q -> Q) (feature_extraction : list string -> result (list Faiss.vector))
    (model : string) (dim : Z)
    (rag_ops : list Runs.rag_op) (rag_disk : RAGSystem.Disk)
    (handler_ops : list Runs.handler_op) (handler_disk : FAISSHandler.Disk) :
  Runs.provider_ok feature_extraction ->
  Forall Runs.rag_op_clean rag_ops ->
  Runs.rag_bundle_ok rag_disk ->
  Forall Runs.handler_op_clean handler_ops ->
  Runs.handler_bundle_ok handler_disk ->
  Runs.rag_lockstep
    (fst (Runs.rag_run fsqrt feature_extraction rag_ops
            (RAGSystem.init model dim, rag_disk)))
  /\ Runs.handler_lockstep
       (fst (Runs.handler_run fsqrt handler_ops (FAISSHandler.init, handler_disk))).
Proof.
  intros Hp Hr Hrd Hh Hhd. split.
  - apply rag_run_keeps_lockstep; try assumption. split; reflexivity.
  - apply handler_run_keeps_lockstep; try assumption. reflexivity.
Qed.

Lemma unit_provider_ok : Runs.provider_ok Inputs.unit_provider.
Proof.
  intros batch out H. unfold Inputs.unit_provider in H.
  injection H as <-. apply length_map.
Qed.

Lemma stores_stay_in_lockstep_witness :
  Runs.rag_lockstep
    (fst (Runs.rag_run Inputs.fsqrt Inputs.unit_provider Inputs.rag_session
            (RAGSystem.init "intfloat/multilingual-e5-base" 2, RAGSystem.no_bundle)))
  /\ Runs.handler_lockstep
       (fst (Runs.handler_run Inputs.fsqrt Inputs.handler_session
               (FAISSHandler.init, Inputs.no_handler_bundle))).
Proof.
  apply (stores_stay_in_lockstep Inputs.fsqrt Inputs.unit_provider
           "intfloat/multilingual-e5-base" 2 Inputs.rag_session RAGSystem.no_bundle
           Inputs.handler_session Inputs.no_handler_bundle).
  - exact unit_provider_ok.
  - repeat constructor.
  - repeat split; simpl; discriminate.
  - repeat constructor.
  - repeat split; simpl; discriminate.
Defined.

(** ** Further facts about the failure paths *)

(** A first save that is interrupted is never loaded: the config file is
    written last, so it is absent or torn, and [load_index] gives up before
    it assigns anything. *)
Lemma interrupted_first_save_is_not_loaded
    (s s0 : RAGSystem.t) (disk : RAGSystem.Disk) (fault : io_fault) :
  RAGSystem.config_pkl disk = None ->
  fst (RAGSystem.save_index s disk fault) = false ->
  RAGSystem.load_index s0 (snd (RAGSystem.save_index s disk fault)) = (false, s0).
Proof.
  intros Hc. unfold RAGSystem.save_index.
  destruct (RAGSystem.index s) as [ix|].
  - destruct fault as [|n torn]; [discriminate|].
    destruct n as [|[|[|[|n]]]]; simpl; try discriminate; intros _;
      unfold RAGSystem.load_index, RAGSystem.all_exist; simpl; rewrite ?Hc;
      destruct torn; simpl; rewrite ?andb_false_r; try reflexivity;
      repeat match goal with
             | |- context [match ?f with _ => _ end] => destruct f; simpl
             end; reflexivity.
  - intros _. simpl. unfold RAGSystem.load_index, RAGSystem.all_exist.
    rewrite Hc. simpl. rewrite ?andb_false_r. reflexivity.
Qed.

Section EmptyIndex.
Variable fsqrt : Q -> Q.
Variable feature_extraction_text : string -> result Faiss.vector.

(** Over an index that holds no vector, [RAGSystem.search] clamps [k] to 0
    and the index rejects it: the search is reported as failed. *)
Lemma rag_search_empty_index_raises (s : RAGSystem.t) (ix : Faiss.IndexFlatIP)
    (query : string) (q : Faiss.vector) (k : Z) :
  RAGSystem.index s = Some ix ->
  Faiss.ntotal ix = 0%nat ->
  feature_extraction_text query = Ok q ->
  (1 <= k)%Z ->
  RAGSystem.search fsqrt feature_extraction_text s query k
  = Raise (Exception "Search failed: ").
Proof.
  intros Hix Hn Hq Hk. unfold RAGSystem.search, RAGSystem.create_embedding.
  rewrite Hix, Hq, Hn. unfold Faiss.search.
  destruct (negb (Z.of_nat (length (Faiss.renorm_L2 fsqrt q)) =? Faiss.d ix)%Z);
    [reflexivity|].
  replace (Z.min k (Z.of_nat 0)) with 0%Z by lia. reflexivity.
Qed.

(** Over a created but empty index, [FAISSHandler.search] meets the label
    [-1] in every slot and fails on [self.metadata[-1]]. *)
Lemma handler_search_empty_index_raises (h : FAISSHandler.t) (ix : Faiss.IndexFlatIP)
    (q : Faiss.vector) (k : Z) :
  FAISSHandler.index h = Some ix ->
  Faiss.ntotal ix = 0%nat ->
  FAISSHandler.metadata h = [] ->
  Z.of_nat (length q) = Faiss.d ix ->
  (1 <= k)%Z ->
  FAISSHandler.search fsqrt h q k = Raise IndexError.
Proof.
  intros Hix Hn Hm Hd Hk. unfold FAISSHandler.search. rewrite Hix.
  unfold Faiss.search. rewrite renorm_L2_length, (proj2 (Z.eqb_eq _ _) Hd).
  rewrite (proj2 (Z.ltb_lt 0 k)) by lia. cbn [negb].
  unfold Faiss.scored. unfold Faiss.ntotal in Hn.
  apply length_zero_iff_nil in Hn. rewrite Hn. cbn [imap fold_left].
  destruct (Z.to_nat k) as [|n] eqn:E; [lia|].
  unfold FAISSHandler.kept_hits. rewrite Hm. simpl.
  unfold FAISSHandler.attach at 1. rewrite Hm. reflexivity.
Qed.
End EmptyIndex.

(** [FAISSHandler.save_index] overwrites in place in the same way: a save
    whose metadata write raises has already replaced [index.faiss] and has
    not touched [dimension.txt]. *)
Lemma handler_save_overwrites_in_place
    (h : FAISSHandler.t) (disk : FAISSHandler.Disk) (ix : Faiss.IndexFlatIP)
    (torn : bool) :
  FAISSHandler.index h = Some ix ->
  FAISSHandler.save_index h disk (FaultAt 1 torn)
  = (Some (Exception "write failed"),
     {| FAISSHandler.index_faiss := Some (Readable ix);
        FAISSHandler.metadata_pkl :=
          Views.left_by_fault torn (FAISSHandler.metadata_pkl disk);
        FAISSHandler.dimension_txt := FAISSHandler.dimension_txt disk |}).
Proof.
  intros Hix. unfold FAISSHandler.save_index. rewrite Hix.
  destruct torn; reflexivity.
Qed.

(** * Further properties of the sources *)

(** ** Lengths and first characters of stripped and split texts *)

Lemma string_length_append (a b : string) :
  String.length (a +:+ b) = (String.length a + String.length b)%nat.
Proof. induction a as [|c a IH]; simpl; [reflexivity|]. now rewrite IH. Qed.

Lemma lstrip_length (s : string) :
  (String.length (PyStr.lstrip s) <= String.length s)%nat.
Proof.
  induction s as [|c s IH]; simpl; [lia|].
  destruct (PyStr.is_space c); simpl; lia.
Qed.

Lemma rstrip_length (s : string) :
  (String.length (PyStr.rstrip s) <= String.length s)%nat.
Proof.
  induction s as [|c s IH]; simpl; [lia|].
  destruct (PyStr.rstrip s) as [|c' r]; simpl in *.
  - destruct (PyStr.is_space c); simpl; lia.
  - lia.
Qed.

Lemma strip_length (s : string) :
  (String.length (PyStr.strip s) <= String.length s)%nat.
Proof.
  unfold PyStr.strip. etransitivity; [apply rstrip_length|apply lstrip_length].
Qed.

Lemma estimate_tokens_mono (a b : string) :
  (String.length a <= String.length b)%nat ->
  (CSVProcessor.estimate_tokens a <= CSVProcessor.estimate_tokens b)%nat.
Proof.
  intros H. unfold CSVProcessor.estimate_tokens, PyStr.len.
  now apply Nat.Div0.div_le_mono.
Qed.

Lemma truthy_false_empty (s : string) : PyStr.truthy s = false -> s = EmptyString.
Proof. destruct s; [reflexivity|discriminate]. Qed.

Lemma lstrip_starts (s : string) :
  PyStr.lstrip s = EmptyString \/ Shapes.starts_nonblank (PyStr.lstrip s) = true.
Proof.
  induction s as [|c s IH]; simpl; [now left|].
  destruct (PyStr.is_space c) eqn:E; [exact IH|].
  right. simpl. now rewrite E.
Qed.

Lemma rstrip_starts (s : string) :
  Shapes.starts_nonblank s = true -> Shapes.starts_nonblank (PyStr.rstrip s) = true.
Proof.
  destruct s as [|c s]; simpl; [discriminate|]. intros Hc.
  destruct (PyStr.rstrip s); simpl.
  - destruct (PyStr.is_space c) eqn:E; [discriminate|]. simpl. now rewrite E.
  - exact Hc.
Qed.

Lemma strip_starts (s : string) :
  PyStr.truthy (PyStr.strip s) = true ->
  Shapes.starts_nonblank (PyStr.strip s) = true.
Proof.
  unfold PyStr.strip. destruct (lstrip_starts s) as [E|E].
  - rewrite E. simpl. discriminate.
  - intros _. now apply rstrip_starts.
Qed.

Lemma starts_strip (s : string) :
  Shapes.starts_nonblank s = true ->
  Shapes.starts_nonblank (PyStr.strip s) = true.
Proof.
  intros H. unfold PyStr.strip.
  assert (E : PyStr.lstrip s = s).
  { destruct s as [|c s]; [discriminate|]. simpl in *.
    destruct (PyStr.is_space c); [discriminate|reflexivity]. }
  rewrite E. now apply rstrip_starts.
Qed.

Lemma starts_truthy (s : string) :
  Shapes.starts_nonblank s = true -> PyStr.truthy s = true.
Proof. destruct s; [discriminate|reflexivity]. Qed.

Lemma starts_append (a b : string) :
  Shapes.starts_nonblank a = true -> Shapes.starts_nonblank (a +:+ b) = true.
Proof. destruct a; [discriminate|]. simpl. auto. Qed.

Lemma split_starts (s : string) :
  Forall (fun w => Shapes.starts_nonblank w = true) (PyStr.split s).
Proof.
  induction s as [|c s IH]; simpl; [constructor|].
  destruct (PyStr.is_space c) eqn:Ec; [exact IH|].
  assert (Hc : Shapes.starts_nonblank (String c EmptyString) = true)
    by (simpl; now rewrite Ec).
  destruct s as [|c' s'].
  - constructor; [exact Hc|constructor].
  - destruct (PyStr.is_space c') eqn:Ec'.
    + constructor; [exact Hc|exact IH].
    + destruct (PyStr.split (String c' s')) as [|w ws].
      * constructor; [exact Hc|constructor].
      * constructor; [simpl; now rewrite Ec|].
        now apply Forall_inv_tail in IH.
Qed.

Lemma take_starts (n : nat) (w : string) :
  (1 <= n)%nat -> Shapes.starts_nonblank w = true ->
  Shapes.starts_nonblank (PyStr.take n w) = true.
Proof.
  intros Hn Hw. destruct n as [|n]; [lia|].
  destruct w as [|c w]; [discriminate|]. exact Hw.
Qed.

(** ** The chunker within its budget *)

Section ChunkerBudget.
Variable max_tokens : nat.

Lemma sentence_step_within_budget (chunks : list string) (current raw : string) :
  Shapes.sentence_fits max_tokens raw ->
  Forall (fun chunk => (CSVProcessor.estimate_tokens chunk <= max_tokens)%nat) chunks ->
  (CSVProcessor.estimate_tokens current <= max_tokens)%nat ->
  Forall (fun chunk => (CSVProcessor.estimate_tokens chunk <= max_tokens)%nat)
    (fst (CSVProcessor.sentence_step max_tokens (chunks, current) raw))
  /\ (CSVProcessor.estimate_tokens
        (snd (CSVProcessor.sentence_step max_tokens (chunks, current) raw))
      <= max_tokens)%nat.
Proof.
  intros Hfit Hchunks Hcur. unfold Shapes.sentence_fits in Hfit.
  unfold CSVProcessor.sentence_step.
  destruct (PyStr.truthy (PyStr.strip raw)) eqn:Et; simpl; [|split; assumption].
  destruct (Nat.ltb_spec max_tokens
              (CSVProcessor.estimate_tokens (current +:+ " " +:+ PyStr.strip raw)))
    as [Hov|Hok].
  - destruct (PyStr.truthy current) eqn:Ec.
    + simpl. split.
      * apply Forall_app. split; [exact Hchunks|].
        constructor; [|constructor].
        etransitivity; [apply estimate_tokens_mono, strip_length|exact Hcur].
      * etransitivity; [|exact Hfit].
        apply estimate_tokens_mono. rewrite string_length_append. lia.
    + apply truthy_false_empty in Ec. subst current.
      change (EmptyString +:+ " " +:+ PyStr.strip raw)
        with (" " +:+ PyStr.strip raw) in Hov. lia.
  - simpl. split; [exact Hchunks|].
    unfold CSVProcessor.extend_with. destruct (PyStr.truthy current) eqn:Ec.
    + exact Hok.
    + etransitivity; [|exact Hfit].
      apply estimate_tokens_mono. rewrite string_length_append. lia.
Qed.

Lemma sentences_within_budget (sentences chunks : list string) (current : string) :
  Forall (Shapes.sentence_fits max_tokens) sentences ->
  Forall (fun chunk => (CSVProcessor.estimate_tokens chunk <= max_tokens)%nat) chunks ->
  (CSVProcessor.estimate_tokens current <= max_tokens)%nat ->
  Forall (fun chunk => (CSVProcessor.estimate_tokens chunk <= max_tokens)%nat)
    (fst (fold_left (CSVProcessor.sentence_step max_tokens) sentences (chunks, current)))
  /\ (CSVProcessor.estimate_tokens
        (snd (fold_left (CSVProcessor.sentence_step max_tokens) sentences
                (chunks, current)))
      <= max_tokens)%nat.
Proof.
  intros Hs. revert chunks current.
  induction Hs as [|raw sentences Hraw Hs IH]; intros chunks current Hc Hcur.
  - simpl. split; assumption.
  - cbn [fold_left].
    destruct (sentence_step_within_budget chunks current raw Hraw Hc Hcur) as [H1 H2].
    destruct (CSVProcessor.sentence_step max_tokens (chunks, current) raw)
      as [chunks' current'].
    now apply IH.
Qed.

(** X1. When every sentence of the text, stripped and behind one blank, fits
    the budget, every chunk of [chunk_text] is within the budget. *)
Theorem chunk_text_within_budget_for_short_sentences (text : string) :
  Forall (Shapes.sentence_fits max_tokens) (PyStr.re_split_sentences text) ->
  Forall (fun chunk => (CSVProcessor.estimate_tokens chunk <= max_tokens)%nat)
    (CSVProcessor.chunk_text max_tokens text).
Proof.
  intros Hs. unfold CSVProcessor.chunk_text.
  destruct (Nat.leb_spec (CSVProcessor.estimate_tokens text) max_tokens) as [Hle|Hgt].
  - constructor; [exact Hle|constructor].
  - assert (H0 : (CSVProcessor.estimate_tokens EmptyString <= max_tokens)%nat)
      by (vm_compute; lia).
    destruct (sentences_within_budget (PyStr.re_split_sentences text) [] EmptyString
                Hs (List.Forall_nil _) H0) as [H1 H2].
    destruct (fold_left _ _ _) as [chunks current]. simpl in H1, H2.
    destruct (PyStr.truthy current); [|exact H1].
    apply Forall_app. split; [exact H1|]. constructor; [|constructor].
    etransitivity; [apply estimate_tokens_mono, strip_length|exact H2].
Qed.
End ChunkerBudget.

Lemma chunk_text_within_budget_for_short_sentences_witness :
  Forall (fun chunk => (CSVProcessor.estimate_tokens chunk <= 2)%nat)
    (CSVProcessor.chunk_text 2 "ab cd. ef gh. ij kl").
Proof.
  apply (chunk_text_within_budget_for_short_sentences 2 "ab cd. ef gh. ij kl").
  unfold Shapes.sentence_fits. vm_compute. repeat constructor.
Defined.

(** ** What the chunks of a split text look like *)

Section ChunkShape.
Variable max_tokens : nat.
Hypothesis budget_positive : (1 <= max_tokens)%nat.

Lemma word_step_shape (chunks : list string) (word_chunk word : string) :
  Shapes.starts_nonblank word = true ->
  Forall (fun chunk => Shapes.starts_nonblank chunk = true) chunks ->
  word_chunk = EmptyString \/ Shapes.starts_nonblank word_chunk = true ->
  Forall (fun chunk => Shapes.starts_nonblank chunk = true)
    (fst (CSVProcessor.word_step max_tokens (chunks, word_chunk) word))
  /\ (snd (CSVProcessor.word_step max_tokens (chunks, word_chunk) word) = EmptyString
      \/ Shapes.starts_nonblank
           (snd (CSVProcessor.word_step max_tokens (chunks, word_chunk) word)) = true).
Proof.
  intros Hw Hchunks Hwc. unfold CSVProcessor.word_step.
  destruct (max_tokens <? _)%nat.
  - destruct (PyStr.truthy word_chunk) eqn:Et; simpl.
    + split; [|now right]. apply Forall_app. split; [exact Hchunks|].
      constructor; [|constructor]. apply starts_strip.
      destruct Hwc as [->|H]; [discriminate|exact H].
    + split; [|exact Hwc]. apply Forall_app. split; [exact Hchunks|].
      constructor; [|constructor]. apply take_starts; [lia|exact Hw].
  - simpl. split; [exact Hchunks|]. right. unfold CSVProcessor.extend_with.
    destruct (PyStr.truthy word_chunk) eqn:Et; [|exact Hw].
    apply starts_append. destruct Hwc as [->|H]; [discriminate|exact H].
Qed.

Lemma words_shape (words chunks : list string) (word_chunk : string) :
  Forall (fun w => Shapes.starts_nonblank w = true) words ->
  Forall (fun chunk => Shapes.starts_nonblank chunk = true) chunks ->
  word_chunk = EmptyString \/ Shapes.starts_nonblank word_chunk = true ->
  Forall (fun chunk => Shapes.starts_nonblank chunk = true)
    (fst (fold_left (CSVProcessor.word_step max_tokens) words (chunks, word_chunk)))
  /\ (snd (fold_left (CSVProcessor.word_step max_tokens) words (chunks, word_chunk))
        = EmptyString
      \/ Shapes.starts_nonblank
           (snd (fold_left (CSVProcessor.word_step max_tokens) words
                   (chunks, word_chunk))) = true).
Proof.
  intros Hws. revert chunks word_chunk.
  induction Hws as [|w words Hw Hws IH]; intros chunks word_chunk Hc Hwc.
  - simpl. split; assumption.
  - cbn [fold_left].
    destruct (word_step_shape chunks word_chunk w Hw Hc Hwc) as [H1 H2].
    destruct (CSVProcessor.word_step max_tokens (chunks, word_chunk) w) as [c' w'].
    now apply IH.
Qed.

Lemma sentence_step_shape (chunks : list string) (current raw : string) :
  Forall (fun chunk => Shapes.starts_nonblank chunk = true) chunks ->
  current = EmptyString \/ Shapes.starts_nonblank current = true ->
  Forall (fun chunk => Shapes.starts_nonblank chunk = true)
    (fst (CSVProcessor.sentence_step max_tokens (chunks, current) raw))
  /\ (snd (CSVProcessor.sentence_step max_tokens (chunks, current) raw) = EmptyString
      \/ Shapes.starts_nonblank
           (snd (CSVProcessor.sentence_step max_tokens (chunks, current) raw)) = true).
Proof.
  intros Hchunks Hcur. unfold CSVProcessor.sentence_step.
  destruct (PyStr.truthy (PyStr.strip raw)) eqn:Et; simpl; [|split; assumption].
  apply strip_starts in Et.
  destruct (max_tokens <? _)%nat.
  - destruct (PyStr.truthy current) eqn:Ec.
    + simpl. split; [|now right]. apply Forall_app. split; [exact Hchunks|].
      constructor; [|constructor]. apply starts_strip.
      destruct Hcur as [->|H]; [discriminate|exact H].
    + apply words_shape; [apply split_starts|exact Hchunks|now left].
  - simpl. split; [exact Hchunks|]. right. unfold CSVProcessor.extend_with.
    destruct (PyStr.truthy current) eqn:Ec; [|exact Et].
    apply starts_append. destruct Hcur as [->|H]; [discriminate|exact H].
Qed.

Lemma sentences_shape (sentences chunks : list string) (current : string) :
  Forall (fun chunk => Shapes.starts_nonblank chunk = true) chunks ->
  current = EmptyString \/ Shapes.starts_nonblank current = true ->
  Forall (fun chunk => Shapes.starts_nonblank chunk = true)
    (fst (fold_left (CSVProcessor.sentence_step max_tokens) sentences (chunks, current)))
  /\ (snd (fold_left (CSVProcessor.sentence_step max_tokens) sentences (chunks, current))
        = EmptyString
      \/ Shapes.starts_nonblank
           (snd (fold_left (CSVProcessor.sentence_step max_tokens) sentences
                   (chunks, current))) = true).
Proof.
  revert chunks current.
  induction sentences as [|raw sentences IH]; intros chunks current Hc Hcur.
  - simpl. split; assumption.
  - cbn [fold_left].
    destruct (sentence_step_shape chunks current raw Hc Hcur) as [H1 H2].
    destruct (CSVProcessor.sentence_step max_tokens (chunks, current) raw) as [c' w'].
    now apply IH.
Qed.

(** X2. With a budget of at least one token, a text over the budget is cut
    into chunks none of which is empty or begins with a blank character. *)
Theorem chunk_text_chunks_start_nonblank (text : string) :
  (max_tokens < CSVProcessor.estimate_tokens text)%nat ->
  Forall (fun chunk => Shapes.starts_nonblank chunk = true)
    (CSVProcessor.chunk_text max_tokens text).
Proof.
  intros Hgt. unfold CSVProcessor.chunk_text.
  destruct (Nat.leb_spec (CSVProcessor.estimate_tokens text) max_tokens) as [Hle|_];
    [lia|].
  destruct (sentences_shape (PyStr.re_split_sentences text) [] EmptyString
              (List.Forall_nil _) (or_introl eq_refl)) as [H1 H2].
  destruct (fold_left _ _ _) as [chunks current]. simpl in H1, H2.
  destruct (PyStr.truthy current) eqn:Ec; [|exact H1].
  apply Forall_app. split; [exact H1|]. constructor; [|constructor].
  apply starts_strip. destruct H2 as [->|H]; [discriminate|exact H].
Qed.
End ChunkShape.

Lemma chunk_text_chunks_start_nonblank_witness :
  Forall (fun chunk => Shapes.starts_nonblank chunk = true)
    (CSVProcessor.chunk_text 2 "ab cd.   ef gh. ij kl").
Proof.
  apply (chunk_text_chunks_start_nonblank 2).
  - lia.
  - vm_compute. lia.
Defined.

(** ** Validation and processing agree *)

(** X3. [validate_csv] answers [True] exactly for the inputs that
    [process_csv] processes without raising: the file parses and it is scheme
    data or has the text column. *)
Theorem validate_csv_agrees_with_process_csv
    (max_tokens : nat) (fs : gmap string Pandas.CsvFile) (csv_path text_column : string) :
  CSVValidation.validate_csv fs csv_path text_column = true
  <-> exists chunks sources,
        CSVProcessor.process_csv max_tokens fs csv_path text_column
        = Ok (chunks, sources).
Proof.
  unfold CSVValidation.validate_csv, CSVProcessor.process_csv.
  destruct (Pandas.read_csv fs csv_path) as [df|e].
  - unfold CSVProcessor.process_frame.
    destruct (CSVProcessor.is_scheme_data df).
    + split; [intros _|reflexivity].
      destruct (fold_left _ _ _) as [chunks sources]. eauto.
    + destruct (Pandas.has_column (Pandas.columns df) text_column); simpl.
      * split; [intros _|reflexivity].
        destruct (fold_left _ _ _) as [chunks sources]. eauto.
      * split; [discriminate|]. intros (chunks & sources & H). discriminate.
  - split; [discriminate|]. intros (chunks & sources & H). discriminate.
Qed.

(** ** Which rows the processors keep *)

Lemma join_starts (sep : string) (parts : list string) :
  parts <> [] ->
  Forall (fun p => Shapes.starts_nonblank p = true) parts ->
  Shapes.starts_nonblank (PyStr.join sep parts) = true.
Proof.
  intros Hne Hall. destruct Hall as [|p ps Hp Hps]; [congruence|].
  destruct ps as [|p' ps]; simpl; [exact Hp|]. now apply starts_append.
Qed.

Lemma starts_nonblank_truthy_strip (s : string) :
  Shapes.starts_nonblank s = true -> PyStr.truthy (PyStr.strip s) = true.
Proof. intros H. now apply starts_truthy, starts_strip. Qed.

Lemma positions_length (col : string) (cols : list string) :
  length (Pandas.positions col cols)
  = length (List.filter (fun c => String.eqb c col) cols).
Proof.
  induction cols as [|c cs IH]; [reflexivity|].
  cbn [Pandas.positions List.filter]. destruct (String.eqb c col); cbn [length];
    rewrite length_map; now rewrite IH.
Qed.

Lemma position_first (col : string) (cols : list string) :
  Pandas.position col cols
  = match Pandas.positions col cols with
    | [] => None
    | i :: _ => Some i
    end.
Proof.
  induction cols as [|c cs IH]; [reflexivity|].
  cbn [Pandas.position Pandas.positions]. destruct (String.eqb c col); [reflexivity|].
  rewrite IH. destruct (Pandas.positions col cs); reflexivity.
Qed.

(** One check of [create_documents]: it raises when the label occurs more
    than once, and otherwise appends a segment exactly when the cell under
    the label is there and holds a value. *)
Lemma doc_part_cases (row : Pandas.Row) (col label : string) :
  SchemeDocumentProcessor.doc_part row col label
  = if (Shapes.occurrences row col <=? 1)%nat
    then Ok (match Pandas.present row col with
             | Some c => [label +:+ ": "
                          +:+ PyStr.remove_quotes (PyStr.strip (Pandas.str_of c))]
             | None => []
             end)
    else Raise SchemeDocumentProcessor.ambiguous_truth_value.
Proof.
  unfold SchemeDocumentProcessor.doc_part, Pandas.getitem, Pandas.present,
    Pandas.lookup, Shapes.occurrences.
  rewrite <- positions_length, position_first.
  destruct (Pandas.positions col (Pandas.labels row)) as [|i [|i' ps]]; cbn [length].
  - reflexivity.
  - cbn [Nat.leb]. destruct (nth i (Pandas.cells row) Pandas.NaN); reflexivity.
  - reflexivity.
Qed.

Lemma combine_part_starts (row : Pandas.Row) (col label : string) :
  Shapes.starts_nonblank label = true ->
  Forall (fun p => Shapes.starts_nonblank p = true)
    (CSVProcessor.combine_part row col label).
Proof.
  intros Hl. unfold CSVProcessor.combine_part.
  destruct (Pandas.present row col); [|constructor].
  constructor; [|constructor]. now apply starts_append.
Qed.

(** The nine checks together: they raise when one of the columns occurs
    more than once; otherwise the segments begin with their labels, and
    there is one exactly when one of the columns holds a value. *)
Lemma doc_parts_of_cases (row : Pandas.Row) (fields : list (string * string)) :
  Forall (fun f => Shapes.starts_nonblank (snd f) = true) fields ->
  if forallb (fun col => (Shapes.occurrences row col <=? 1)%nat) (map fst fields)
  then exists parts,
         SchemeDocumentProcessor.doc_parts_of row fields = Ok parts
         /\ Forall (fun p => Shapes.starts_nonblank p = true) parts
         /\ match parts with [] => false | _ :: _ => true end
            = Shapes.has_any_field (map fst fields) row
  else SchemeDocumentProcessor.doc_parts_of row fields
       = Raise SchemeDocumentProcessor.ambiguous_truth_value.
Proof.
  intros Hl. induction Hl as [|[col label] fields Hlabel Hl IH].
  - cbn. exists []. repeat split. constructor.
  - cbn [map fst forallb SchemeDocumentProcessor.doc_parts_of].
    rewrite doc_part_cases.
    destruct (Shapes.occurrences row col <=? 1)%nat; cbn [andb]; [|reflexivity].
    destruct (forallb _ (map fst fields)).
    + destruct IH as (parts & -> & Hs & He).
      eexists. split; [reflexivity|].
      unfold Shapes.has_any_field in *. cbn [existsb].
      destruct (Pandas.present row col) as [c|]; cbn [app orb].
      * split; [|reflexivity]. constructor; [|exact Hs].
        simpl in Hlabel. now apply starts_append.
      * split; [exact Hs|exact He].
    + now rewrite IH.
Qed.

Lemma text_fields_labelled :
  Forall (fun f => Shapes.starts_nonblank (snd f) = true)
    SchemeDocumentProcessor.text_fields.
Proof. repeat constructor. Qed.

(** A row is kept exactly when no document column occurs twice and one of
    them holds a value. *)
Lemma row_kept_cases (row : Pandas.Row) :
  Views.row_kept row = Shapes.keeps_row row.
Proof.
  unfold Views.row_kept, Shapes.keeps_row, SchemeDocumentProcessor.document_text,
    SchemeDocumentProcessor.doc_parts.
  pose proof (doc_parts_of_cases row _ text_fields_labelled) as H.
  change (map fst SchemeDocumentProcessor.text_fields)
    with Shapes.document_columns in H.
  destruct (forallb _ Shapes.document_columns); cbn [andb].
  - destruct H as (parts & -> & Hs & He). rewrite <- He.
    destruct parts as [|p ps]; [reflexivity|].
    apply starts_nonblank_truthy_strip, join_starts; [discriminate|exact Hs].
  - now rewrite H.
Qed.

Lemma row_step_count (series_str : nat -> string -> list Pandas.Cell -> string)
    (ds : list string) (ms : list Metadata) (it : nat * Pandas.Row) :
  length (fst (SchemeDocumentProcessor.row_step series_str (ds, ms) it))
  = (length ds + if Shapes.keeps_row (snd it) then 1 else 0)%nat.
Proof.
  destruct it as [idx row]. cbn [snd]. rewrite <- row_kept_cases.
  unfold SchemeDocumentProcessor.row_step, Views.row_kept.
  destruct (SchemeDocumentProcessor.document_text row) as [text|e]; cbn [fst].
  - destruct (PyStr.truthy (PyStr.strip text)); cbn [fst];
      rewrite ?length_app; cbn [length]; lia.
  - lia.
Qed.

Lemma create_documents_count
    (series_str : nat -> string -> list Pandas.Cell -> string)
    (its : list (nat * Pandas.Row)) (ds : list string) (ms : list Metadata) :
  length (fst (fold_left (SchemeDocumentProcessor.row_step series_str) its (ds, ms)))
  = (length ds
     + length (filter (fun it => Shapes.keeps_row (snd it) = true) its))%nat.
Proof.
  revert ds ms. induction its as [|it its IH]; intros ds ms.
  - cbn [fold_left fst]. rewrite filter_nil. cbn [length]. lia.
  - cbn [fold_left]. rewrite filter_cons.
    pose proof (row_step_count series_str ds ms it) as Hstep.
    destruct (SchemeDocumentProcessor.row_step series_str (ds, ms) it) as [ds' ms'].
    cbn [fst] in Hstep. rewrite IH, Hstep.
    destruct (Shapes.keeps_row (snd it)) eqn:E.
    + rewrite decide_True by reflexivity. cbn [length]. lia.
    + rewrite decide_False by discriminate. lia.
Qed.

(** X5. [create_documents] keeps a row exactly when none of the nine
    document columns occurs more than once among the labels and at least one
    of them holds a value other than NaN (a blank value counts: its label
    makes the text non-blank). A label that occurs twice, as a renamed frame
    can have it, makes the check of that column raise in every row, and the
    row is skipped. The number of documents is the number of kept rows, and
    there is one metadata dict per document. *)
Theorem create_documents_keeps_rows_with_a_field
    (series_str : nat -> string -> list Pandas.Cell -> string)
    (df : Pandas.DataFrame) :
  (forall row,
     match SchemeDocumentProcessor.document_text row with
     | Ok text => PyStr.truthy (PyStr.strip text)
     | Raise _ => false
     end = Shapes.keeps_row row)
  /\ length (fst (SchemeDocumentProcessor.create_documents series_str df))
     = length (filter (fun it => Shapes.keeps_row (snd it) = true)
                 (Pandas.iterrows df))
  /\ length (snd (SchemeDocumentProcessor.create_documents series_str df))
     = length (fst (SchemeDocumentProcessor.create_documents series_str df)).
Proof.
  split; [exact row_kept_cases|]. split.
  - unfold SchemeDocumentProcessor.create_documents.
    rewrite create_documents_count. reflexivity.
  - symmetry.
    exact (proj1 (create_documents_rows series_str (Pandas.iterrows df) [] [] eq_refl)).
Qed.

Lemma combined_parts_empty (row : Pandas.Row) :
  match CSVProcessor.combine_part row "scheme_name" "Scheme"
        ++ CSVProcessor.combine_part row "details" "Details"
        ++ CSVProcessor.combine_part row "benefits" "Benefits"
        ++ CSVProcessor.combine_part row "eligibility" "Eligibility"
        ++ CSVProcessor.combine_part row "application" "Application Process"
        ++ CSVProcessor.combine_part row "documents" "Required Documents"
        ++ CSVProcessor.combine_part row "schemeCategory" "Category"
        ++ CSVProcessor.combine_part row "level" "Level"
        ++ CSVProcessor.combine_part row "tags" "Tags"
  with [] => false | _ :: _ => true end
  = Shapes.has_any_field Shapes.combined_columns row.
Proof.
  unfold CSVProcessor.combine_part, Shapes.has_any_field, Shapes.combined_columns.
  cbn [existsb].
  repeat (match goal with
          | |- context [Pandas.present row ?col] =>
              destruct (Pandas.present row col); cbn [app orb]; [reflexivity|]
          end).
  reflexivity.
Qed.

(** X4. On scheme data [process_csv] looks at a row's text exactly when one of
    the nine combined columns holds a value other than NaN; a row without any
    contributes neither chunks nor sources. *)
Theorem process_csv_skips_rows_without_fields
    (max_tokens : nat) (idx : nat) (row : Pandas.Row)
    (all_chunks all_sources : list string) :
  PyStr.truthy (PyStr.strip (CSVProcessor._combine_scheme_columns row))
  = Shapes.has_any_field Shapes.combined_columns row
  /\ (if Shapes.has_any_field Shapes.combined_columns row
      then CSVProcessor.scheme_row_step max_tokens (all_chunks, all_sources) (idx, row)
           = (all_chunks
              ++ CSVProcessor.chunk_text max_tokens
                   (CSVProcessor._combine_scheme_columns row),
              all_sources
              ++ repeat (CSVProcessor.scheme_source idx row)
                   (length (CSVProcessor.chunk_text max_tokens
                              (CSVProcessor._combine_scheme_columns row))))
      else CSVProcessor.scheme_row_step max_tokens (all_chunks, all_sources) (idx, row)
           = (all_chunks, all_sources)).
Proof.
  assert (E : PyStr.truthy (PyStr.strip (CSVProcessor._combine_scheme_columns row))
              = Shapes.has_any_field Shapes.combined_columns row).
  { rewrite <- combined_parts_empty. unfold CSVProcessor._combine_scheme_columns.
    match goal with
    | |- context [PyStr.join _ ?parts] =>
        assert (Hs : Forall (fun p => Shapes.starts_nonblank p = true) parts)
          by (repeat (apply Forall_app; split); apply combine_part_starts; reflexivity);
        destruct parts as [|p ps] eqn:Ep; [reflexivity|];
        apply starts_nonblank_truthy_strip, join_starts; [discriminate|exact Hs]
    end. }
  split; [exact E|].
  unfold CSVProcessor.scheme_row_step. rewrite E.
  destruct (Shapes.has_any_field Shapes.combined_columns row); reflexivity.
Qed.

(** ** The shape of the metadata *)

Lemma row_metadata_keys (series_str : nat -> string -> list Pandas.Cell -> string)
    (idx : nat) (row : Pandas.Row) :
  dom (SchemeDocumentProcessor.row_metadata series_str idx row) = Shapes.metadata_keys.
Proof.
  unfold SchemeDocumentProcessor.row_metadata, Shapes.metadata_keys.
  rewrite !dom_insert_L, dom_empty_L. reflexivity.
Qed.

Lemma combine_snd {A B : Type} (l : list A) (r : list B) :
  length l = length r -> map snd (combine l r) = r.
Proof.
  revert r. induction l as [|a l IH]; intros [|b r] H; simpl in *;
    try discriminate; [reflexivity|].
  f_equal. apply IH. lia.
Qed.

Lemma create_documents_metadata
    (series_str : nat -> string -> list Pandas.Cell -> string)
    (df : Pandas.DataFrame) :
  snd (SchemeDocumentProcessor.create_documents series_str df)
  = map snd (flat_map (Views.row_output series_str) (Pandas.iterrows df)).
Proof.
  destruct (create_documents_rows series_str (Pandas.iterrows df) [] [] eq_refl)
    as [Hl Hc].
  fold (SchemeDocumentProcessor.create_documents series_str df) in Hl, Hc.
  simpl in Hc. rewrite <- Hc. symmetry. now apply combine_snd.
Qed.

(** X6. Every metadata dict built by [create_documents] has the same nine
    keys, and its [row_index] is the index of a row of the frame. *)
Theorem create_documents_metadata_shape
    (series_str : nat -> string -> list Pandas.Cell -> string)
    (df : Pandas.DataFrame) :
  Forall (fun m : Metadata =>
            dom m = Shapes.metadata_keys
            /\ exists idx, (idx < length (Pandas.rows df))%nat
                           /\ m !! "row_index" = Some (PInt (Z.of_nat idx)))
    (snd (SchemeDocumentProcessor.create_documents series_str df)).
Proof.
  rewrite create_documents_metadata. apply Forall_forall. intros m Hm.
  rewrite list_elem_of_In in Hm. apply in_map_iff in Hm.
  destruct Hm as ([text m'] & <- & Hin). apply in_flat_map in Hin.
  destruct Hin as ([idx row] & Hit & Hout).
  unfold Views.row_output in Hout. simpl in Hout.
  destruct (SchemeDocumentProcessor.document_text row) as [text'|e]; [|contradiction].
  destruct (PyStr.truthy _); [|contradiction].
  destruct Hout as [Heq|[]]. injection Heq as _ <-. simpl. split.
  - apply row_metadata_keys.
  - exists idx. split; [|apply row_metadata_row_index].
    unfold Pandas.iterrows in Hit. rewrite <- list_elem_of_In in Hit.
    apply elem_of_lookup_imap in Hit. destruct Hit as (i & cs & Heq & Hlook).
    injection Heq as -> _. now apply lookup_lt_Some in Hlook.
Qed.

(** ** rag.py: embedding in batches *)

Lemma batches_sizes (fuel : nat) (texts : list string) :
  Forall (fun batch => (1 <= length batch <= RAGSystem.batch_size)%nat)
    (RAGSystem.batches_upto fuel texts).
Proof.
  revert texts. induction fuel as [|fuel IH]; intros texts; [constructor|].
  destruct texts as [|t texts]; [constructor|].
  cbn [RAGSystem.batches_upto]. constructor; [|apply IH].
  rewrite length_take. unfold RAGSystem.batch_size. cbn [length]. lia.
Qed.

Lemma batches_concat_whole (fuel : nat) (texts : list string) :
  (length texts <= fuel)%nat ->
  concat (RAGSystem.batches_upto fuel texts) = texts.
Proof.
  revert texts. induction fuel as [|fuel IH]; intros texts Hlen.
  - destruct texts; [reflexivity|simpl in Hlen; lia].
  - destruct texts as [|t texts]; [reflexivity|].
    cbn [RAGSystem.batches_upto concat]. rewrite IH.
    + apply take_drop.
    + rewrite length_drop. unfold RAGSystem.batch_size. simpl in *. lia.
Qed.

Lemma embed_batches_answers
    (feature_extraction : list string -> result (list Faiss.vector))
    (bs : list (list string)) (acc out : list Faiss.vector) :
  RAGSystem.embed_batches feature_extraction bs acc = Ok out ->
  exists answers,
    Forall2 (fun batch answer => feature_extraction batch = Ok answer) bs answers
    /\ out = acc ++ concat answers.
Proof.
  revert acc. induction bs as [|b bs IH]; intros acc H; simpl in H.
  - injection H as <-. exists []. split; [constructor|]. simpl. now rewrite app_nil_r.
  - destruct (feature_extraction b) as [e|] eqn:E; [|discriminate].
    destruct (IH _ H) as (answers & Hall & ->).
    exists (e :: answers). split; [constructor; assumption|].
    simpl. now rewrite app_assoc.
Qed.

(** X7. [create_embeddings] cuts the texts into consecutive batches of 1 to 50
    texts that together are the input, and a successful call returns the
    provider's answers to those batches, concatenated in order: every batch
    was answered. *)
Theorem create_embeddings_answers_every_batch
    (feature_extraction : list string -> result (list Faiss.vector))
    (texts : list string) (out : list Faiss.vector) :
  RAGSystem.create_embeddings feature_extraction texts = Ok out ->
  concat (RAGSystem.batches texts) = texts
  /\ Forall (fun batch => (1 <= length batch <= 50)%nat) (RAGSystem.batches texts)
  /\ exists answers,
       Forall2 (fun batch answer => feature_extraction batch = Ok answer)
         (RAGSystem.batches texts) answers
       /\ out = concat answers.
Proof.
  intros H. split; [|split].
  - apply batches_concat_whole. lia.
  - apply batches_sizes.
  - apply embed_batches_answers in H. exact H.
Qed.

Lemma create_embeddings_answers_every_batch_witness :
  concat (RAGSystem.batches Inputs.three_texts) = Inputs.three_texts
  /\ Forall (fun batch => (1 <= length batch <= 50)%nat)
       (RAGSystem.batches Inputs.three_texts)
  /\ exists answers,
       Forall2 (fun batch answer => Inputs.unit_provider batch = Ok answer)
         (RAGSystem.batches Inputs.three_texts) answers
       /\ [[1%Q; 0%Q]; [1%Q; 0%Q]; [1%Q; 0%Q]] = concat answers.
Proof.
  apply (create_embeddings_answers_every_batch Inputs.unit_provider Inputs.three_texts
           [[1%Q; 0%Q]; [1%Q; 0%Q]; [1%Q; 0%Q]]).
  reflexivity.
Defined.

(** ** rag.py: building the index *)

Section Build.
Variable fsqrt : Q -> Q.
Variable feature_extraction : list string -> result (list Faiss.vector).

Lemma as_matrix_widths (embeddings rows : list Faiss.vector) (width : nat) :
  Faiss.as_matrix embeddings = Some (width, rows) ->
  rows = embeddings /\ Forall (fun v => length v = width) rows.
Proof.
  unfold Faiss.as_matrix. destruct embeddings as [|r rs]; [discriminate|].
  destruct (forallb (fun v => Nat.eqb (length v) (length r)) rs) eqn:E; [|discriminate].
  intros H. injection H as <- <-. split; [reflexivity|].
  constructor; [reflexivity|].
  apply Forall_forall. intros v Hv. rewrite forallb_forall in E.
  rewrite list_elem_of_In in Hv. apply E in Hv. now apply Nat.eqb_eq in Hv.
Qed.

Lemma create_faiss_index_widths (s : RAGSystem.t) (embeddings : list Faiss.vector)
    (ix : Faiss.IndexFlatIP) :
  RAGSystem.create_faiss_index fsqrt s embeddings = Ok ix ->
  Faiss.d ix = RAGSystem.dimension s
  /\ Faiss.ntotal ix = length embeddings
  /\ Forall (fun v => Z.of_nat (length v) = RAGSystem.dimension s) (Faiss.xb ix).
Proof.
  unfold RAGSystem.create_faiss_index.
  destruct (Faiss.as_matrix embeddings) as [[width rows]|] eqn:E; [|discriminate].
  apply as_matrix_widths in E. destruct E as [-> Hw].
  unfold Faiss.add, Faiss.new. simpl.
  destruct (Z.eqb_spec (Z.of_nat width) (RAGSystem.dimension s)) as [Hd|]; [|discriminate].
  intros H. injection H as <-. simpl. split; [reflexivity|]. split.
  - unfold Faiss.ntotal, Faiss.normalize_L2. simpl. apply length_map.
  - unfold Faiss.normalize_L2. apply Forall_map.
    eapply Forall_impl; [exact Hw|]. intros v Hv. simpl.
    rewrite renorm_L2_length. simpl in Hv. rewrite Hv. exact Hd.
Qed.

Lemma build_index_true_inv
    (s s' : RAGSystem.t) (disk disk' : RAGSystem.Disk) (fault : io_fault)
    (docs : list string) (meta : list Metadata) :
  Runs.provider_ok feature_extraction ->
  RAGSystem.build_index fsqrt feature_extraction s disk fault docs meta
  = (true, s', disk') ->
  docs <> [] /\ length docs = length meta
  /\ RAGSystem.documents s' = docs /\ RAGSystem.metadata s' = meta
  /\ (exists ix,
        RAGSystem.index s' = Some ix
        /\ Faiss.ntotal ix = length docs
        /\ Forall (fun v => Z.of_nat (length v) = RAGSystem.dimension s) (Faiss.xb ix))
  /\ RAGSystem.get_index_stats s'
     = RAGSystem.StatsOf
         {| RAGSystem.total_documents := length docs;
            RAGSystem.stats_embedding_model := RAGSystem.embedding_model s;
            RAGSystem.stats_dimension := RAGSystem.dimension s;
            RAGSystem.index_type := "FAISS IndexFlatIP";
            RAGSystem.metadata_count := length docs;
            RAGSystem.documents_count := length docs |}.
Proof.
  intros Hp. unfold RAGSystem.build_index.
  destruct docs as [|dd docs]; [discriminate|].
  destruct meta as [|m meta]; [discriminate|].
  destruct (Nat.eqb (length (dd :: docs)) (length (m :: meta))) eqn:El;
    cbn [negb]; [|discriminate].
  apply Nat.eqb_eq in El.
  destruct (RAGSystem.create_embeddings feature_extraction (dd :: docs))
    as [embeddings|] eqn:Ee; [|discriminate].
  destruct (RAGSystem.create_faiss_index fsqrt s embeddings) as [ix|] eqn:Ei;
    [|discriminate].
  intros H. injection H as <- _.
  apply (create_embeddings_length feature_extraction Hp) in Ee.
  apply create_faiss_index_widths in Ei. destruct Ei as (Hd & Hn & Hw).
  rewrite Ee in Hn.
  split; [discriminate|]. split; [exact El|]. split; [reflexivity|].
  split; [reflexivity|]. split.
  - exists ix. repeat split; assumption.
  - unfold RAGSystem.get_index_stats. cbn -[length]. rewrite Hn, <- El. reflexivity.
Qed.

(** X8. A successful [build_index] leaves an index with one vector per
    document, each of the configured width, stores exactly the documents and
    metadata it was given (non-empty and of equal length), keeps model and
    dimension, and makes [get_index_stats] report the number of documents in
    all three counts. The provider must answer each batch with one vector per
    text. *)
Theorem build_index_success
    (s s' : RAGSystem.t) (disk disk' : RAGSystem.Disk) (fault : io_fault)
    (docs : list string) (meta : list Metadata) :
  Runs.provider_ok feature_extraction ->
  RAGSystem.build_index fsqrt feature_extraction s disk fault docs meta
  = (true, s', disk') ->
  docs <> [] /\ length docs = length meta
  /\ RAGSystem.documents s' = docs /\ RAGSystem.metadata s' = meta
  /\ (exists ix,
        RAGSystem.index s' = Some ix
        /\ Faiss.ntotal ix = length docs
        /\ Forall (fun v => Z.of_nat (length v) = RAGSystem.dimension s) (Faiss.xb ix))
  /\ RAGSystem.get_index_stats s'
     = RAGSystem.StatsOf
         {| RAGSystem.total_documents := length docs;
            RAGSystem.stats_embedding_model := RAGSystem.embedding_model s;
            RAGSystem.stats_dimension := RAGSystem.dimension s;
            RAGSystem.index_type := "FAISS IndexFlatIP";
            RAGSystem.metadata_count := length docs;
            RAGSystem.documents_count := length docs |}.
Proof. apply build_index_true_inv. Qed.

(** X9. [build_index] either succeeds, and then on non-empty documents and
    metadata of equal length, or returns [False] and leaves the service and
    the directory exactly as they were: empty or uneven input, a provider
    failure and a width mismatch all fail before anything is assigned. *)
Theorem build_index_fails_without_effect
    (s : RAGSystem.t) (disk : RAGSystem.Disk) (fault : io_fault)
    (docs : list string) (meta : list Metadata) :
  (fst (fst (RAGSystem.build_index fsqrt feature_extraction s disk fault docs meta))
   = true
   /\ docs <> [] /\ meta <> [] /\ length docs = length meta)
  \/ RAGSystem.build_index fsqrt feature_extraction s disk fault docs meta
     = (false, s, disk).
Proof.
  unfold RAGSystem.build_index.
  destruct docs as [|dd docs]; [now right|].
  destruct meta as [|m meta]; [now right|].
  destruct (Nat.eqb (length (dd :: docs)) (length (m :: meta))) eqn:El;
    cbn [negb]; [|now right].
  apply Nat.eqb_eq in El.
  destruct (RAGSystem.create_embeddings feature_extraction (dd :: docs));
    [|now right].
  destruct (RAGSystem.create_faiss_index fsqrt s _); [|now right].
  left. repeat split; try discriminate. exact El.
Qed.
End Build.

Lemma build_index_success_witness :
  Inputs.three_texts <> []
  /\ length Inputs.three_texts = length (map Inputs.meta_of Inputs.three_texts)
  /\ RAGSystem.documents
       (snd (fst (RAGSystem.build_index Inputs.fsqrt Inputs.unit_provider Inputs.fresh
                    RAGSystem.no_bundle NoFault Inputs.three_texts
                    (map Inputs.meta_of Inputs.three_texts))))
     = Inputs.three_texts
  /\ RAGSystem.metadata
       (snd (fst (RAGSystem.build_index Inputs.fsqrt Inputs.unit_provider Inputs.fresh
                    RAGSystem.no_bundle NoFault Inputs.three_texts
                    (map Inputs.meta_of Inputs.three_texts))))
     = map Inputs.meta_of Inputs.three_texts
  /\ (exists ix,
        RAGSystem.index
          (snd (fst (RAGSystem.build_index Inputs.fsqrt Inputs.unit_provider
                       Inputs.fresh RAGSystem.no_bundle NoFault Inputs.three_texts
                       (map Inputs.meta_of Inputs.three_texts))))
        = Some ix
        /\ Faiss.ntotal ix = length Inputs.three_texts
        /\ Forall (fun v => Z.of_nat (length v) = RAGSystem.dimension Inputs.fresh)
             (Faiss.xb ix))
  /\ RAGSystem.get_index_stats
       (snd (fst (RAGSystem.build_index Inputs.fsqrt Inputs.unit_provider Inputs.fresh
                    RAGSystem.no_bundle NoFault Inputs.three_texts
                    (map Inputs.meta_of Inputs.three_texts))))
     = RAGSystem.StatsOf
         {| RAGSystem.total_documents := length Inputs.three_texts;
            RAGSystem.stats_embedding_model := RAGSystem.embedding_model Inputs.fresh;
            RAGSystem.stats_dimension := RAGSystem.dimension Inputs.fresh;
            RAGSystem.index_type := "FAISS IndexFlatIP";
            RAGSystem.metadata_count := length Inputs.three_texts;
            RAGSystem.documents_count := length Inputs.three_texts |}.
Proof.
  apply (build_index_success Inputs.fsqrt Inputs.unit_provider Inputs.fresh _
           RAGSystem.no_bundle
           (snd (RAGSystem.build_index Inputs.fsqrt Inputs.unit_provider Inputs.fresh
                   RAGSystem.no_bundle NoFault Inputs.three_texts
                   (map Inputs.meta_of Inputs.three_texts)))
           NoFault).
  - exact unit_provider_ok.
  - reflexivity.
Defined.

(** ** rag.py: what a search returns *)

Lemma collect_map_inv {X Y : Type} (f : X -> result Y) (l : list X) (r : list Y) :
  collect (map f l) = Ok r -> Forall2 (fun x y => f x = Ok y) l r.
Proof.
  revert r. induction l as [|x l IH]; intros r H; simpl in H.
  - injection H as <-. constructor.
  - destruct (f x) as [y|] eqn:E; [|discriminate].
    destruct (collect (map f l)) as [r'|]; [|discriminate].
    injection H as <-. constructor; [exact E|]. now apply IH.
Qed.

Section SearchJoin.
Variable fsqrt : Q -> Q.
Variable feature_extraction_text : string -> result Faiss.vector.


(** X11. With an index in place, a search for [k <= 0] results is an error in
    both services, whatever the provider answers: the index rejects the
    request, and no empty list comes back. *)
Theorem search_rejects_nonpositive_k
    (s : RAGSystem.t) (h : FAISSHandler.t) (ix ix' : Faiss.IndexFlatIP)
    (query : string) (q : Faiss.vector) (k : Z) :
  RAGSystem.index s = Some ix ->
  FAISSHandler.index h = Some ix' ->
  (k <= 0)%Z ->
  (exists e, RAGSystem.search fsqrt feature_extraction_text s query k = Raise e)
  /\ FAISSHandler.search fsqrt h q k = Raise AssertionError.
Proof.
  intros Hs Hh Hk. split.
  - unfold RAGSystem.search. rewrite Hs.
    destruct (RAGSystem.create_embedding feature_extraction_text query) as [qe|e];
      [|eauto].
    unfold Faiss.search.
    destruct (negb (Z.of_nat (length (Faiss.renorm_L2 fsqrt qe)) =? Faiss.d ix)%Z);
      [eauto|].
    rewrite (proj2 (Z.ltb_ge 0 (Z.min k (Z.of_nat (Faiss.ntotal ix))))) by lia.
    cbn [negb]. eauto.
  - unfold FAISSHandler.search. rewrite Hh. unfold Faiss.search.
    destruct (negb (Z.of_nat (length (Faiss.renorm_L2 fsqrt q)) =? Faiss.d ix')%Z);
      [reflexivity|].
    rewrite (proj2 (Z.ltb_ge 0 k)) by lia. reflexivity.
Qed.
End SearchJoin.


Lemma search_rejects_nonpositive_k_witness :
  (exists e, RAGSystem.search Inputs.fsqrt Inputs.unit_provider_text Inputs.rag3
               "farmers" 0 = Raise e)
  /\ FAISSHandler.search Inputs.fsqrt Inputs.handler3 [1%Q; 0%Q] 0
     = Raise AssertionError.
Proof.
  apply (search_rejects_nonpositive_k Inputs.fsqrt Inputs.unit_provider_text
           Inputs.rag3 Inputs.handler3 Inputs.index3 Inputs.index3 "farmers"
           [1%Q; 0%Q] 0).
  - reflexivity.
  - reflexivity.
  - lia.
Defined.

(** ** rag.py: what a load accepts *)

Lemma load_index_true_iff
    (s s' : RAGSystem.t) (disk : RAGSystem.Disk) :
  RAGSystem.load_index s disk = (true, s')
  <-> exists ix m docs config,
        RAGSystem.index_faiss disk = Some (Readable ix)
        /\ RAGSystem.metadata_pkl disk = Some (Readable m)
        /\ RAGSystem.documents_pkl disk = Some (Readable docs)
        /\ RAGSystem.config_pkl disk = Some (Readable config)
        /\ s' = {| RAGSystem.embedding_model :=
                     default (RAGSystem.embedding_model s)
                       (RAGSystem.cfg_embedding_model config);
                   RAGSystem.dimension :=
                     default (RAGSystem.dimension s) (RAGSystem.cfg_dimension config);
                   RAGSystem.index := Some ix;
                   RAGSystem.metadata := m;
                   RAGSystem.documents := docs |}.
Proof.
  unfold RAGSystem.load_index, RAGSystem.all_exist. split.
  - destruct (RAGSystem.index_faiss disk) as [[ix|]|];
    destruct (RAGSystem.metadata_pkl disk) as [[m|]|];
    destruct (RAGSystem.documents_pkl disk) as [[docs|]|];
    destruct (RAGSystem.config_pkl disk) as [[c|]|];
      simpl; try discriminate.
    intros H. injection H as <-. exists ix, m, docs, c. repeat split.
  - intros (ix & m & docs & c & -> & -> & -> & -> & ->). reflexivity.
Qed.

(** X12. [load_index] returns [True] exactly when all four artifacts exist and
    can be read, and then the service holds the index, metadata and documents
    as read, with model and dimension from the config where it has them and
    from the service otherwise. Nothing else is checked: lengths and widths
    are taken as found. *)
Theorem load_index_succeeds_iff_readable
    (s s' : RAGSystem.t) (disk : RAGSystem.Disk) :
  RAGSystem.load_index s disk = (true, s')
  <-> exists ix m docs config,
        RAGSystem.index_faiss disk = Some (Readable ix)
        /\ RAGSystem.metadata_pkl disk = Some (Readable m)
        /\ RAGSystem.documents_pkl disk = Some (Readable docs)
        /\ RAGSystem.config_pkl disk = Some (Readable config)
        /\ s' = {| RAGSystem.embedding_model :=
                     default (RAGSystem.embedding_model s)
                       (RAGSystem.cfg_embedding_model config);
                   RAGSystem.dimension :=
                     default (RAGSystem.dimension s) (RAGSystem.cfg_dimension config);
                   RAGSystem.index := Some ix;
                   RAGSystem.metadata := m;
                   RAGSystem.documents := docs |}.
Proof. apply load_index_true_iff. Qed.

(** X13. Loading a bundle whose config holds both keys and saving right away
    writes back the very bundle that was read. *)
Theorem load_then_save_rewrites_the_bundle
    (s s' : RAGSystem.t) (disk : RAGSystem.Disk) (model : string) (dim : Z) :
  RAGSystem.load_index s disk = (true, s') ->
  RAGSystem.config_pkl disk
  = Some (Readable {| RAGSystem.cfg_embedding_model := Some model;
                      RAGSystem.cfg_dimension := Some dim |}) ->
  RAGSystem.save_index s' disk NoFault = (true, disk).
Proof.
  intros Hload Hc. apply load_index_true_iff in Hload.
  destruct Hload as (ix & m & docs & c & Hi & Hm & Hd & Hc' & ->).
  rewrite Hc in Hc'. injection Hc' as <-.
  destruct disk as [fi fm fd fc]. simpl in *. subst. reflexivity.
Qed.

Lemma load_then_save_rewrites_the_bundle_witness :
  RAGSystem.save_index (snd (RAGSystem.load_index Inputs.fresh Inputs.old_bundle))
    Inputs.old_bundle NoFault
  = (true, Inputs.old_bundle).
Proof.
  apply (load_then_save_rewrites_the_bundle Inputs.fresh _ Inputs.old_bundle
           "intfloat/multilingual-e5-base" 2).
  - reflexivity.
  - reflexivity.
Defined.

(** ** utils/faiss_handler.py: adding and persisting *)

Section HandlerFacts.
Variable fsqrt : Q -> Q.

(** X14. [add_embeddings] succeeds exactly when the handler has an index and
    the embeddings are a non-empty list of rows that all have the width of
    the index; it then appends the normalized rows to the index and the texts
    to the metadata, in order, and leaves the dimension alone. It does not
    look at the number of texts. *)
Theorem add_embeddings_succeeds_iff
    (h h' : FAISSHandler.t) (embeddings : list Faiss.vector) (texts : list string) :
  FAISSHandler.add_embeddings fsqrt h embeddings texts = Ok h'
  <-> exists ix,
        FAISSHandler.index h = Some ix
        /\ embeddings <> []
        /\ Forall (fun v => Z.of_nat (length v) = Faiss.d ix) embeddings
        /\ h' = {| FAISSHandler.index :=
                     Some {| Faiss.d := Faiss.d ix;
                             Faiss.xb := Faiss.xb ix
                                         ++ Faiss.normalize_L2 fsqrt embeddings |};
                   FAISSHandler.metadata := FAISSHandler.metadata h ++ texts;
                   FAISSHandler.dimension := FAISSHandler.dimension h |}.
Proof.
  unfold FAISSHandler.add_embeddings. split.
  - destruct (FAISSHandler.index h) as [ix|]; [|discriminate].
    destruct (Faiss.as_matrix embeddings) as [[width rows]|] eqn:E; [|discriminate].
    pose proof E as E'. apply as_matrix_widths in E'. destruct E' as [-> Hw].
    unfold Faiss.add.
    destruct (Z.eqb_spec (Z.of_nat width) (Faiss.d ix)) as [Hd|]; [|discriminate].
    intros H. injection H as <-. exists ix. split; [reflexivity|]. split.
    + destruct embeddings; [discriminate|discriminate].
    + split; [|reflexivity]. eapply Forall_impl; [exact Hw|].
      intros v Hv. simpl in Hv. rewrite Hv. exact Hd.
  - intros (ix & Hix & Hne & Hw & ->). rewrite Hix.
    destruct embeddings as [|r rs]; [congruence|].
    assert (E : Faiss.as_matrix (r :: rs) = Some (length r, r :: rs)).
    { unfold Faiss.as_matrix.
      assert (Hall : forallb (fun v => Nat.eqb (length v) (length r)) rs = true).
      { apply forallb_forall. intros v Hv. apply Nat.eqb_eq.
        apply Forall_cons_iff in Hw. destruct Hw as [Hr Hrs].
        rewrite Forall_forall in Hrs. rewrite <- list_elem_of_In in Hv.
        apply Hrs in Hv. lia. }
      now rewrite Hall. }
    rewrite E. unfold Faiss.add.
    apply Forall_cons_iff in Hw. destruct Hw as [Hr _].
    rewrite (proj2 (Z.eqb_eq _ _) Hr). reflexivity.
Qed.

(** X15. An uninterrupted [save_index] of a handler whose index was created
    (so that it has a dimension) followed by [load_index] on any handler
    object gives back the handler that was saved: index, texts and
    dimension. *)
Theorem handler_save_then_load_roundtrip
    (h h0 : FAISSHandler.t) (disk : FAISSHandler.Disk)
    (ix : Faiss.IndexFlatIP) (dim : Z) :
  FAISSHandler.index h = Some ix ->
  FAISSHandler.dimension h = Some dim ->
  fst (FAISSHandler.save_index h disk NoFault) = None
  /\ FAISSHandler.load_index h0 (snd (FAISSHandler.save_index h disk NoFault))
     = (true, h).
Proof.
  intros Hix Hdim. unfold FAISSHandler.save_index. rewrite Hix, Hdim. simpl.
  split; [reflexivity|].
  destruct h as [oix texts odim]. simpl in *. subst. reflexivity.
Qed.
End HandlerFacts.

Lemma handler_save_then_load_roundtrip_witness :
  fst (FAISSHandler.save_index Inputs.handler3 Inputs.no_handler_bundle NoFault) = None
  /\ FAISSHandler.load_index FAISSHandler.init
       (snd (FAISSHandler.save_index Inputs.handler3 Inputs.no_handler_bundle NoFault))
     = (true, Inputs.handler3).
Proof.
  apply (handler_save_then_load_roundtrip Inputs.handler3 FAISSHandler.init
           Inputs.no_handler_bundle Inputs.index3 2).
  - reflexivity.
  - reflexivity.
Defined.

(** ** main.py: ingest, restart and query *)

Section MainFacts.
Variable fsqrt : Q -> Q.
Variable feature_extraction : list string -> result (list Faiss.vector).
Variable feature_extraction_text : string -> result Faiss.vector.

Lemma build_index_true_saved
    (s s' : RAGSystem.t) (disk disk' : RAGSystem.Disk)
    (docs : list string) (meta : list Metadata) :
  RAGSystem.build_index fsqrt feature_extraction s disk NoFault docs meta
  = (true, s', disk') ->
  exists ix, RAGSystem.index s' = Some ix /\ disk' = Views.bundle_of s' ix.
Proof.
  unfold RAGSystem.build_index.
  destruct docs as [|dd docs]; [discriminate|].
  destruct meta as [|m meta]; [discriminate|].
  destruct (negb _); [discriminate|].
  destruct (RAGSystem.create_embeddings _ _); [|discriminate].
  destruct (RAGSystem.create_faiss_index _ _ _) as [ix|]; [|discriminate].
  intros H. injection H as <- <-. exists ix. split; reflexivity.
Qed.

Lemma load_bundle_of (s0 s : RAGSystem.t) (ix : Faiss.IndexFlatIP) :
  RAGSystem.index s = Some ix ->
  RAGSystem.load_index s0 (Views.bundle_of s ix) = (true, s).
Proof.
  intros Hix. destruct s as [model dim oix meta docs]. simpl in Hix. subst oix.
  reflexivity.
Qed.

(** X16. After a [build_index] that succeeded and whose save was not
    interrupted, a new process that starts over the directory it left loads
    the very state the building service had: [get_stats] answers with its
    statistics and [health_check] says healthy. *)
Theorem built_index_survives_restart
    (s s' : RAGSystem.t) (disk disk' : RAGSystem.Disk)
    (docs : list string) (meta : list Metadata)
    (files : gmap string Pandas.CsvFile) (model : string) (dim : Z) :
  RAGSystem.build_index fsqrt feature_extraction s disk NoFault docs meta
  = (true, s', disk') ->
  Main.rag_system
    (MainEndpoints.restart model dim
       {| Main.rag_system := s'; Main.disk := disk'; Main.files := files |})
  = s'
  /\ MainEndpoints.get_stats
       (MainEndpoints.restart model dim
          {| Main.rag_system := s'; Main.disk := disk'; Main.files := files |})
     = Main.Respond (RAGSystem.get_index_stats s')
  /\ MainEndpoints.health_check
       (MainEndpoints.restart model dim
          {| Main.rag_system := s'; Main.disk := disk'; Main.files := files |})
     = {| MainEndpoints.status := "healthy";
          MainEndpoints.index_loaded := true;
          MainEndpoints.health_stats := Some (RAGSystem.get_index_stats s') |}.
Proof.
  intros Hb. apply build_index_true_saved in Hb. destruct Hb as (ix & Hix & ->).
  assert (E : Main.rag_system
                (MainEndpoints.restart model dim
                   {| Main.rag_system := s'; Main.disk := Views.bundle_of s' ix;
                      Main.files := files |})
              = s').
  { unfold MainEndpoints.restart, MainEndpoints.startup_event.
    cbn [Main.rag_system Main.disk Main.files].
    rewrite (load_bundle_of _ s' ix Hix). reflexivity. }
  split; [exact E|].
  unfold MainEndpoints.get_stats, MainEndpoints.health_check. rewrite E, Hix.
  split; reflexivity.
Qed.



(** X19. [query_schemes] answers 404 exactly when no index is loaded, 400
    exactly when an index is loaded and the question is blank (before any
    search), and 500 exactly when an index is loaded, the question is not
    blank and the search raises; a successful answer echoes the question and
    carries the results of the search, counted in [total_matches], which
    never exceeds [min k total]. *)
Theorem query_schemes_answers
    (request : MainEndpoints.QueryRequest) (w : Main.World) :
  match MainEndpoints.query_schemes fsqrt feature_extraction_text request w with
  | Main.HTTPException code detail =>
      (code = 404%nat /\ RAGSystem.index (Main.rag_system w) = None)
      \/ (code = 400%nat /\ RAGSystem.index (Main.rag_system w) <> None
          /\ PyStr.strip (MainEndpoints.question request) = EmptyString
          /\ detail = "Query cannot be empty")
      \/ (code = 500%nat /\ RAGSystem.index (Main.rag_system w) <> None
          /\ PyStr.strip (MainEndpoints.question request) <> EmptyString
          /\ exists e,
               RAGSystem.search fsqrt feature_extraction_text (Main.rag_system w)
                 (MainEndpoints.question request) (MainEndpoints.k request)
               = Raise e
               /\ detail = "Query failed: " +:+ exn_str e)
  | Main.Respond r =>
      exists ix,
        RAGSystem.index (Main.rag_system w) = Some ix
        /\ PyStr.strip (MainEndpoints.question request) <> EmptyString
        /\ RAGSystem.search fsqrt feature_extraction_text (Main.rag_system w)
             (MainEndpoints.question request) (MainEndpoints.k request)
           = Ok (MainEndpoints.matches r)
        /\ MainEndpoints.query r = MainEndpoints.question request
        /\ MainEndpoints.total_matches r = length (MainEndpoints.matches r)
        /\ (MainEndpoints.total_matches r
            <= Nat.min (Z.to_nat (MainEndpoints.k request)) (Faiss.ntotal ix))%nat
  end.
Proof.
  unfold MainEndpoints.query_schemes.
  destruct (RAGSystem.index (Main.rag_system w)) as [ix|] eqn:Hix; [|left; auto].
  destruct (PyStr.truthy (PyStr.strip (MainEndpoints.question request))) eqn:Et;
    cbn [negb].
  - assert (Hq : PyStr.strip (MainEndpoints.question request) <> EmptyString).
    { intros E. rewrite E in Et. discriminate. }
    destruct (RAGSystem.search _ _ _ _ _) as [results|e] eqn:Es.
    + exists ix. repeat split; try reflexivity; try assumption.
      cbn [MainEndpoints.total_matches].
      unfold RAGSystem.search in Es. rewrite Hix in Es.
      destruct (RAGSystem.create_embedding _ _) as [q|]; [|discriminate].
      destruct (Faiss.search ix _ _) as [hits|] eqn:Ef; [|discriminate].
      destruct (collect _) as [rs|] eqn:Ec; [|discriminate].
      injection Es as <-. apply search_clamped_length in Ef.
      destruct Ef as [Hlen _]. apply collect_map_inv in Ec.
      rewrite <- (Forall2_length _ _ _ Ec). unfold RAGSystem.kept_hits.
      etransitivity; [apply length_filter|]. lia.
    + right. right. repeat split; [discriminate|assumption|eauto].
  - right. left. repeat split; [discriminate|].
    now apply truthy_false_empty.
Qed.
End MainFacts.

Lemma built_index_survives_restart_witness :
  exists s' disk',
    RAGSystem.build_index Inputs.fsqrt Inputs.unit_provider Inputs.fresh
      RAGSystem.no_bundle NoFault Inputs.three_texts
      (map Inputs.meta_of Inputs.three_texts)
    = (true, s', disk')
    /\ Main.rag_system
         (MainEndpoints.restart "intfloat/multilingual-e5-base" 2
            {| Main.rag_system := s'; Main.disk := disk';
               Main.files := Inputs.csv_files |})
       = s'
    /\ MainEndpoints.get_stats
         (MainEndpoints.restart "intfloat/multilingual-e5-base" 2
            {| Main.rag_system := s'; Main.disk := disk';
               Main.files := Inputs.csv_files |})
       = Main.Respond (RAGSystem.get_index_stats s')
    /\ MainEndpoints.health_check
         (MainEndpoints.restart "intfloat/multilingual-e5-base" 2
            {| Main.rag_system := s'; Main.disk := disk';
               Main.files := Inputs.csv_files |})
       = {| MainEndpoints.status := "healthy";
            MainEndpoints.index_loaded := true;
            MainEndpoints.health_stats := Some (RAGSystem.get_index_stats s') |}.
Proof.
  eexists. eexists. split; [vm_compute; reflexivity|].
  eapply (built_index_survives_restart Inputs.fsqrt Inputs.unit_provider
            Inputs.fresh _ RAGSystem.no_bundle _ Inputs.three_texts
            (map Inputs.meta_of Inputs.three_texts)).
  vm_compute. reflexivity.
Defined.


(** ** routes.py: ingest over the handler *)

Section RoutesFacts.
Variable fsqrt : Q -> Q.
Variable embed_documents : list string -> result (list Faiss.vector).
Hypothesis provider_answers_each : Runs.provider_ok embed_documents.

Lemma add_embeddings_inv (h h' : FAISSHandler.t)
    (embeddings : list Faiss.vector) (texts : list string) :
  FAISSHandler.add_embeddings fsqrt h embeddings texts = Ok h' ->
  FAISSHandler.metadata h' = FAISSHandler.metadata h ++ texts
  /\ FAISSHandler.get_index_size h'
     = (FAISSHandler.get_index_size h + length embeddings)%nat.
Proof.
  unfold FAISSHandler.add_embeddings, FAISSHandler.get_index_size.
  destruct (FAISSHandler.index h) as [ix|]; [|discriminate].
  destruct (Faiss.as_matrix embeddings) as [[width rows]|] eqn:E; [|discriminate].
  apply as_matrix_rows in E. subst rows.
  destruct (Faiss.add ix width _) as [ix'|] eqn:Ea; [|discriminate].
  intros H. injection H as <-. simpl. split; [reflexivity|].
  now apply add_count in Ea.
Qed.

(** The stores an ingest starts from: none yet when there is no index. *)
Lemma ensure_index_stores (h h1 : FAISSHandler.t) (embeddings : list Faiss.vector) :
  Routes.ensure_index h embeddings = Ok h1 ->
  FAISSHandler.metadata h1
  = match FAISSHandler.index h with
    | None => []
    | Some _ => FAISSHandler.metadata h
    end
  /\ FAISSHandler.get_index_size h1 = FAISSHandler.get_index_size h.
Proof.
  unfold Routes.ensure_index, FAISSHandler.get_index_size.
  destruct (FAISSHandler.index h) as [ix|] eqn:Hix.
  - intros H. injection H as <-. rewrite Hix. auto.
  - destruct embeddings as [|e0 es]; [discriminate|].
    intros H. injection H as <-. simpl. auto.
Qed.

Lemma routes_ingest_inv (request : Routes.IngestRequest) (fault : io_fault)
    (w w' : Routes.World) (r : Routes.IngestResponse) :
  Routes.ingest_csv fsqrt embed_documents request fault w = (Main.Respond r, w') ->
  exists chunks sources,
    CSVProcessor.process_csv Routes.max_tokens (Routes.files w)
      (Routes.csv_path request) (Routes.text_column request)
    = Ok (chunks, sources)
    /\ chunks <> []
    /\ Routes.files w' = Routes.files w
    /\ Routes.chunks_processed r = length chunks
    /\ Routes.index_size r = FAISSHandler.get_index_size (Routes.faiss_handler w')
    /\ FAISSHandler.metadata (Routes.faiss_handler w')
       = match FAISSHandler.index (Routes.faiss_handler w) with
         | None => []
         | Some _ => FAISSHandler.metadata (Routes.faiss_handler w)
         end ++ chunks
    /\ FAISSHandler.get_index_size (Routes.faiss_handler w')
       = (FAISSHandler.get_index_size (Routes.faiss_handler w) + length chunks)%nat
    /\ FAISSHandler.index (Routes.faiss_handler w') <> None.
Proof.
  unfold Routes.ingest_csv.
  destruct (negb (Pandas.exists_ _ _)); [discriminate|].
  destruct (negb (CSVValidation.validate_csv _ _ _)); [discriminate|].
  destruct (CSVProcessor.process_csv _ _ _ _) as [[chunks sources]|]; [|discriminate].
  destruct chunks as [|c chunks]; [discriminate|].
  unfold EmbeddingService.embed_texts.
  destruct (embed_documents (c :: chunks)) as [embeddings|] eqn:Ee; [|discriminate].
  destruct (Routes.ensure_index _ embeddings) as [h1|] eqn:E1; [|discriminate].
  destruct (FAISSHandler.add_embeddings fsqrt h1 embeddings (c :: chunks))
    as [h2|] eqn:E2; [|discriminate].
  destruct (FAISSHandler.save_index h2 _ fault) as [[e|] disk']; [discriminate|].
  intros H. injection H as <- <-.
  apply provider_answers_each in Ee.
  apply ensure_index_stores in E1. destruct E1 as [Hm1 Hs1].
  pose proof E2 as E2'. apply add_embeddings_inv in E2'. destruct E2' as [Hm2 Hs2].
  exists (c :: chunks), sources. cbn [Routes.faiss_handler Routes.files
    Routes.chunks_processed Routes.index_size].
  repeat split; try reflexivity; try discriminate.
  - rewrite Hm2, Hm1. reflexivity.
  - rewrite Hs2, Hs1, Ee. reflexivity.
  - unfold FAISSHandler.add_embeddings in E2.
    destruct (FAISSHandler.index h1); [|discriminate].
    destruct (Faiss.as_matrix embeddings) as [[width rows]|]; [|discriminate].
    destruct (Faiss.add _ _ _); [|discriminate].
    injection E2 as <-. discriminate.
Qed.

(** X20. A successful ingest over the handler appends: the chunks of the CSV
    (at least one) are added after the texts already stored, the index grows
    by as many vectors, and the response reports the number of chunks and the
    new size. A first ingest, with no index yet, starts from empty stores. The
    provider must return one vector per chunk. *)
Theorem routes_ingest_appends (request : Routes.IngestRequest) (fault : io_fault)
    (w w' : Routes.World) (r : Routes.IngestResponse) :
  Routes.ingest_csv fsqrt embed_documents request fault w = (Main.Respond r, w') ->
  exists chunks sources,
    CSVProcessor.process_csv Routes.max_tokens (Routes.files w)
      (Routes.csv_path request) (Routes.text_column request)
    = Ok (chunks, sources)
    /\ (1 <= length chunks)%nat
    /\ Routes.chunks_processed r = length chunks
    /\ Routes.index_size r
       = (FAISSHandler.get_index_size (Routes.faiss_handler w) + length chunks)%nat
    /\ FAISSHandler.get_index_size (Routes.faiss_handler w') = Routes.index_size r
    /\ FAISSHandler.metadata (Routes.faiss_handler w')
       = match FAISSHandler.index (Routes.faiss_handler w) with
         | None => []
         | Some _ => FAISSHandler.metadata (Routes.faiss_handler w)
         end ++ chunks.
Proof.
  intros H. destruct (routes_ingest_inv request fault w w' r H)
    as (chunks & sources & Hp & Hne & _ & Hc & Hi & Hm & Hs & _).
  exists chunks, sources. repeat split; try assumption.
  - destruct chunks; [congruence|]. simpl. lia.
  - now rewrite Hi.
  - now rewrite Hi.
Qed.

(** X21. Ingest over the handler does not recognise what it has already
    stored: repeating a successful ingest of the same request stores the same
    chunks a second time, and the reported size grows by their number
    again. *)
Theorem routes_ingest_twice_duplicates (request : Routes.IngestRequest)
    (fault1 fault2 : io_fault) (w w1 w2 : Routes.World)
    (r1 r2 : Routes.IngestResponse) :
  Routes.ingest_csv fsqrt embed_documents request fault1 w = (Main.Respond r1, w1) ->
  Routes.ingest_csv fsqrt embed_documents request fault2 w1 = (Main.Respond r2, w2) ->
  Routes.chunks_processed r2 = Routes.chunks_processed r1
  /\ Routes.index_size r2 = (Routes.index_size r1 + Routes.chunks_processed r1)%nat
  /\ exists chunks,
       length chunks = Routes.chunks_processed r1
       /\ FAISSHandler.metadata (Routes.faiss_handler w2)
          = FAISSHandler.metadata (Routes.faiss_handler w1) ++ chunks
       /\ exists before,
            FAISSHandler.metadata (Routes.faiss_handler w1) = before ++ chunks.
Proof.
  intros H1 H2.
  destruct (routes_ingest_inv request fault1 w w1 r1 H1)
    as (chunks & sources & Hp & _ & Hf & Hc & Hi & Hm & Hs & Hix).
  destruct (routes_ingest_inv request fault2 w1 w2 r2 H2)
    as (chunks' & sources' & Hp' & _ & _ & Hc' & Hi' & Hm' & Hs' & _).
  rewrite Hf, Hp in Hp'. injection Hp' as <- <-.
  destruct (FAISSHandler.index (Routes.faiss_handler w1)) as [ix1|] eqn:E1;
    [|congruence].
  split; [congruence|]. split; [rewrite Hi', Hs', Hi, Hc; reflexivity|].
  exists chunks. split; [now rewrite Hc|]. split; [exact Hm'|].
  eexists. exact Hm.
Qed.
End RoutesFacts.

Lemma routes_ingest_appends_witness :
  exists r w',
    Routes.ingest_csv Inputs.fsqrt Inputs.unit_provider Inputs2.routes_request NoFault
      Inputs2.routes_world
    = (Main.Respond r, w')
    /\ exists chunks sources,
         CSVProcessor.process_csv Routes.max_tokens (Routes.files Inputs2.routes_world)
           (Routes.csv_path Inputs2.routes_request)
           (Routes.text_column Inputs2.routes_request)
         = Ok (chunks, sources)
         /\ (1 <= length chunks)%nat
         /\ Routes.chunks_processed r = length chunks
         /\ Routes.index_size r
            = (FAISSHandler.get_index_size (Routes.faiss_handler Inputs2.routes_world)
               + length chunks)%nat
         /\ FAISSHandler.get_index_size (Routes.faiss_handler w') = Routes.index_size r
         /\ FAISSHandler.metadata (Routes.faiss_handler w')
            = match FAISSHandler.index (Routes.faiss_handler Inputs2.routes_world) with
              | None => []
              | Some _ => FAISSHandler.metadata (Routes.faiss_handler Inputs2.routes_world)
              end ++ chunks.
Proof.
  eexists. eexists. split; [vm_compute; reflexivity|].
  eapply (routes_ingest_appends Inputs.fsqrt Inputs.unit_provider unit_provider_ok
            Inputs2.routes_request NoFault Inputs2.routes_world).
  vm_compute. reflexivity.
Defined.

Lemma routes_ingest_twice_duplicates_witness :
  exists r1 w1 r2 w2,
    Routes.ingest_csv Inputs.fsqrt Inputs.unit_provider Inputs2.routes_request NoFault
      Inputs2.routes_world
    = (Main.Respond r1, w1)
    /\ Routes.ingest_csv Inputs.fsqrt Inputs.unit_provider Inputs2.routes_request NoFault
         w1
       = (Main.Respond r2, w2)
    /\ Routes.chunks_processed r2 = Routes.chunks_processed r1
    /\ Routes.index_size r2 = (Routes.index_size r1 + Routes.chunks_processed r1)%nat
    /\ exists chunks,
         length chunks = Routes.chunks_processed r1
         /\ FAISSHandler.metadata (Routes.faiss_handler w2)
            = FAISSHandler.metadata (Routes.faiss_handler w1) ++ chunks
         /\ exists before,
              FAISSHandler.metadata (Routes.faiss_handler w1) = before ++ chunks.
Proof.
  eexists. eexists. eexists. eexists.
  split; [vm_compute; reflexivity|]. split; [vm_compute; reflexivity|].
  eapply (routes_ingest_twice_duplicates Inputs.fsqrt Inputs.unit_provider
            unit_provider_ok Inputs2.routes_request NoFault NoFault
            Inputs2.routes_world).
  - vm_compute. reflexivity.
  - vm_compute. reflexivity.
Defined.

(** X22. An ingest over the handler that is refused with a status other than
    500 (missing file, failed validation, no chunks) has touched neither the
    handler nor the files on disk. *)
Theorem routes_ingest_refusal_changes_nothing (fsqrt : Q -> Q)
    (embed_documents : list string -> result (list Faiss.vector))
    (request : Routes.IngestRequest) (fault : io_fault) (w w' : Routes.World)
    (status_code : nat) (detail : string) :
  Routes.ingest_csv fsqrt embed_documents request fault w
  = (Main.HTTPException status_code detail, w') ->
  status_code <> 500%nat ->
  w' = w.
Proof.
  unfold Routes.ingest_csv, Routes.failed.
  destruct (negb (Pandas.exists_ _ _)); [intros H _; now injection H|].
  destruct (negb (CSVValidation.validate_csv _ _ _)); [intros H _; now injection H|].
  destruct (CSVProcessor.process_csv _ _ _ _) as [[chunks sources]|];
    [|intros H Hc; injection H as <- _ _; congruence].
  destruct chunks as [|c chunks]; [intros H _; now injection H|].
  destruct (EmbeddingService.embed_texts _ _) as [embeddings|];
    [|intros H Hc; injection H as <- _ _; congruence].
  destruct (Routes.ensure_index _ _) as [h1|];
    [|intros H Hc; injection H as <- _ _; congruence].
  destruct (FAISSHandler.add_embeddings _ _ _ _) as [h2|];
    [|intros H Hc; injection H as <- _ _; congruence].
  destruct (FAISSHandler.save_index _ _ _) as [[e|] disk'].
  - intros H Hc; injection H as <- _ _; congruence.
  - discriminate.
Qed.

Lemma routes_ingest_refusal_changes_nothing_witness :
  exists w',
    Routes.ingest_csv Inputs.fsqrt Inputs.unit_provider
      {| Routes.csv_path := "absent.csv"; Routes.text_column := "text" |} NoFault
      Inputs2.routes_world
    = (Main.HTTPException 404 "CSV file not found: absent.csv", w')
    /\ w' = Inputs2.routes_world.
Proof.
  eexists. split; [vm_compute; reflexivity|].
  eapply (routes_ingest_refusal_changes_nothing Inputs.fsqrt Inputs.unit_provider
            {| Routes.csv_path := "absent.csv"; Routes.text_column := "text" |}
            NoFault Inputs2.routes_world _ 404 "CSV file not found: absent.csv").
  - vm_compute. reflexivity.
  - lia.
Defined.
